(** * OpenLinkHub, K65 Plus keyboard driver (wired [k65plus] and wireless
      [k65plusW]): frame codec, colour writes, animation tick and dial listener.

    The two Go packages are embedded side by side, one module each, over a
    common module that holds what both import: byte buffers and slices,
    [encoding/binary], the HID handle, the logger and the chunker of package
    [common]. Go panics (index or slice bounds out of range, nil dereference)
    are the [None] of a state-and-panic monad; the device, the log and the
    driver's package-level variables are its state. *)

From Stdlib Require Import ZArith Bool String List Lia.
From Stdlib.Strings Require Import Byte.
Import ListNotations.
Local Open Scope Z_scope.

Set Implicit Arguments.

(* ------------------------------------------------------------------ *)
(** ** State-and-panic monad                                           *)
(* ------------------------------------------------------------------ *)

Module Go.

(** A computation over state [St]: [None] is a Go panic. *)
Definition M (St A : Type) : Type := St -> option (A * St).

Definition ret {St A} (a : A) : M St A := fun s => Some (a, s).

Definition bind {St A B} (m : M St A) (k : A -> M St B) : M St B :=
  fun s => match m s with
           | Some (a, s') => k a s'
           | None => None
           end.

Definition panic {St A} : M St A := fun _ => None.

Definition get {St} : M St St := fun s => Some (s, s).

Definition modify {St} (f : St -> St) : M St unit := fun s => Some (tt, f s).

(** Lifting of a bounds-checked pure operation. *)
Definition checked {St A} (o : option A) : M St A :=
  match o with
  | Some a => ret a
  | None => panic
  end.

(** [for i, x := range xs { body i x }] *)
Fixpoint rangeFrom {St A} (i : nat) (xs : list A) (body : nat -> A -> M St unit)
  : M St unit :=
  match xs with
  | [] => ret tt
  | x :: rest => bind (body i x) (fun _ => rangeFrom (S i) rest body)
  end.

Definition forRange {St A} (xs : list A) (body : nat -> A -> M St unit) : M St unit :=
  rangeFrom 0 xs body.

End Go.

Notation "x <- m ;; k" := (Go.bind m (fun x => k))
  (at level 61, m at next level, right associativity).
Notation "m ;;; k" := (Go.bind m (fun _ => k))
  (at level 61, right associativity).

(* ------------------------------------------------------------------ *)
(** ** What both packages import                                       *)
(* ------------------------------------------------------------------ *)

Module Common.

(** *** Bytes and slices *)

Definition byte_of_Z (z : Z) : byte :=
  match Byte.of_N (Z.to_N (z mod 256)) with
  | Some b => b
  | None => x00
  end.

Definition Z_of_byte (b : byte) : Z := Z.of_N (Byte.to_N b).

(** [make([]byte, n)] *)
Definition make (n : nat) : list byte := repeat x00 n.

(** [s[i] = v]; out of range panics. *)
Fixpoint store (s : list byte) (i : nat) (v : byte) : option (list byte) :=
  match s, i with
  | [], _ => None
  | _ :: rest, O => Some (v :: rest)
  | b :: rest, S i' => option_map (cons b) (store rest i' v)
  end.

(** [s[i]]; out of range panics. *)
Definition index (s : list byte) (i : nat) : option byte := nth_error s i.

(** [copy(dst[lo:hi], src)]: the slice expression panics unless
    [lo <= hi <= len(dst)] (capacity and length coincide for the buffers
    of this driver, all made by [make]); [copy] then moves
    [min(hi - lo, len(src))] bytes. *)
Definition copyInto (dst : list byte) (lo hi : nat) (src : list byte)
  : option (list byte) :=
  if (Nat.leb lo hi && Nat.leb hi (length dst))%bool then
    let n := Nat.min (hi - lo) (length src) in
    Some (firstn lo dst ++ firstn n src ++ skipn (lo + n) dst)
  else None.

(** *** encoding/binary, little endian *)

Definition wrap16 (z : Z) : Z := z mod 65536.

(** [binary.LittleEndian.PutUint16(b[0:2], v)] *)
Definition PutUint16 (b : list byte) (v : Z) : option (list byte) :=
  copyInto b 0 2 [byte_of_Z v; byte_of_Z (v / 256)].

(** [binary.LittleEndian.Uint16(b)] *)
Definition Uint16 (b : list byte) : option Z :=
  match b with
  | b0 :: b1 :: _ => Some (Z_of_byte b0 + 256 * Z_of_byte b1)
  | _ => None
  end.

(** *** The HID handle

    The peripheral is outside the program: the handle records every report
    handed to [Write], and answers from a script of outcomes, one per
    exchange (an exhausted script answers with an all-zero reply). *)

Inductive IoOutcome :=
| IoOk (reply : list byte)
| IoWriteErr
| IoReadErr.

Record HidDevice := {
  written : list (list byte);
  pending : list IoOutcome
}.

Definition nextOutcome (h : HidDevice) : IoOutcome * list IoOutcome :=
  match pending h with
  | [] => (IoOk [], [])
  | o :: rest => (o, rest)
  end.

(** *** Logger *)

Inductive Level := Info | Warn | Error | Fatal.

Record LogEntry := { level : Level; message : string }.

(** *** Constants shared by the two packages *)

Definition bufferSize : nat := 64.
Definition bufferSizeWrite : nat := bufferSize + 1.
Definition headerSize : nat := 2.
Definition headerWriteSize : nat := 4.
Definition maxBufferSizePerRequest : nat := 61.
Definition cmdBrightness : list byte := [x01; x02; x00].

(** *** common.ProcessMultiChunkPacket *)

(** Modelled from the spec: the loop of [common.ProcessMultiChunkPacket]
    (see below), one round per unit of [fuel]: a buffer that fits in one
    chunk is emitted whole, otherwise its first [maxChunkSize] bytes are
    emitted and the loop goes on with the rest. *)
Fixpoint chunkLoop (fuel : nat) (data : list byte) (maxChunkSize : nat)
  : list (list byte) :=
  match fuel with
  | O => []
  | S fuel' =>
      match data with
      | [] => []
      | _ :: _ =>
          if Nat.leb (length data) maxChunkSize then [data]
          else firstn maxChunkSize data
                 :: chunkLoop fuel' (skipn maxChunkSize data) maxChunkSize
      end
  end.

(** Modelled from the spec: [common.ProcessMultiChunkPacket] of package
    [OpenLinkHub/src/common] is called by both [writeColor]s; its body is
    not among the sources at hand. Following section 4.1 of the
    specification, the buffer is split front to back so that each chunk
    holds at most [maxChunkSize] bytes, the chunks in emission order; the
    loop consumes [maxChunkSize] bytes per round, so [length data] rounds
    are enough whenever [maxChunkSize] is positive. *)
Definition ProcessMultiChunkPacket (data : list byte) (maxChunkSize : nat)
  : list (list byte) :=
  chunkLoop (length data) data maxChunkSize.

End Common.

(* ------------------------------------------------------------------ *)
(** ** Package k65plus (wired)                                         *)
(* ------------------------------------------------------------------ *)

Module K65Plus.
Import Common.

Definition dataTypeSetColor : list byte := [x12; x00].
Definition dataTypeSubColor : list byte := [x07; x00].
Definition cmdWriteColor : list byte := [x06; x00].

(** The fields of [DeviceProfile] that the functions below read or write. *)
Record DeviceProfile := {
  RGBProfile : string;
  ControlDial : Z;
  BrightnessLevel : Z        (* uint16 *)
}.

Definition setBrightnessLevelField (p : DeviceProfile) (v : Z) : DeviceProfile :=
  {| RGBProfile := RGBProfile p; ControlDial := ControlDial p; BrightnessLevel := v |}.

(** Calls that leave the package: [saveDeviceProfile] (the profile file) and
    the volume control of package [common]. *)
Inductive External :=
| SaveDeviceProfile (p : DeviceProfile)
| MuteSound (mute : bool)
| ChangeVolume (step : Z) (increase : bool).

(** [Device], with the log and the outside world it acts on. [soundErrors]
    scripts which of the coming volume-control calls return an error. *)
Record Device := {
  dev : HidDevice;
  deviceProfile : option DeviceProfile;      (* d.DeviceProfile, nil is None *)
  LEDChannels : Z;
  log : list LogEntry;
  external : list External;
  soundErrors : list bool
}.

Definition withDev (d : Device) (h : HidDevice) : Device :=
  {| dev := h; deviceProfile := deviceProfile d; LEDChannels := LEDChannels d;
     log := log d; external := external d; soundErrors := soundErrors d |}.

Definition withLog (d : Device) (l : list LogEntry) : Device :=
  {| dev := dev d; deviceProfile := deviceProfile d; LEDChannels := LEDChannels d;
     log := l; external := external d; soundErrors := soundErrors d |}.

Definition withProfile (d : Device) (p : option DeviceProfile) : Device :=
  {| dev := dev d; deviceProfile := p; LEDChannels := LEDChannels d;
     log := log d; external := external d; soundErrors := soundErrors d |}.

Definition withExternal (d : Device) (x : list External) (e : list bool) : Device :=
  {| dev := dev d; deviceProfile := deviceProfile d; LEDChannels := LEDChannels d;
     log := log d; external := x; soundErrors := e |}.

Definition logger (lv : Level) (msg : string) : Go.M Device unit :=
  Go.modify (fun d => withLog d (log d ++ [{| level := lv; message := msg |}])).

Definition call (x : External) : Go.M Device unit :=
  Go.modify (fun d => withExternal d (external d ++ [x]) (soundErrors d)).

(** A volume-control call; the result is [true] when it returned an error. *)
Definition sound (x : External) : Go.M Device bool :=
  fun d => Some (hd false (soundErrors d),
                 withExternal d (external d ++ [x]) (tl (soundErrors d))).

(** What [transfer] returns: the read buffer, or [nil] and an error. *)
Inductive Reply :=
| Replied (bufferR : list byte)
| Failed.

(** [transfer]: one write and one read on the device handle. *)
Definition transfer (endpoint buffer : list byte) : Go.M Device Reply :=
  let bufferW := make bufferSizeWrite in
  bufferW <- Go.checked (store bufferW 1 x08) ;;
  bufferW <- Go.checked (copyInto bufferW headerSize
                           (headerSize + length endpoint) endpoint) ;;
  bufferW <- (if Nat.ltb 0 (length buffer) then
                Go.checked (copyInto bufferW (headerSize + length endpoint)
                              (headerSize + length endpoint + length buffer) buffer)
              else Go.ret bufferW) ;;
  let bufferR := make bufferSize in
  d <- Go.get ;;
  let (outcome, rest) := nextOutcome (dev d) in
  Go.modify (fun d => withDev d {| written := written (dev d) ++ [bufferW];
                                   pending := rest |}) ;;;
  match outcome with
  | IoWriteErr =>
      logger Error "Unable to write to a device" ;;; Go.ret Failed
  | IoReadErr =>
      logger Error "Unable to read data from device" ;;; Go.ret Failed
  | IoOk reply =>
      bufferR <- Go.checked (copyInto bufferR 0 (length bufferR) reply) ;;
      Go.ret (Replied bufferR)
  end.

(** First half of [writeColor]: the three stores into the caller's slice
    ([buf := data] aliases it) and the framed buffer. Returns the slice as
    the caller finds it afterwards, and the buffer handed to the chunker. *)
Definition frameColor (data : list byte) : option (list byte * list byte) :=
  match store data 3 x00 with
  | None => None
  | Some buf =>
  match store buf 4 x00 with
  | None => None
  | Some buf =>
  match store buf 5 x00 with
  | None => None
  | Some buf =>
    let buffer := make (length dataTypeSetColor + length buf + headerWriteSize) in
    match PutUint16 buffer (wrap16 (Z.of_nat (length buf) + 2)) with
    | None => None
    | Some buffer =>
    match copyInto buffer headerWriteSize
            (headerWriteSize + length dataTypeSetColor) dataTypeSetColor with
    | None => None
    | Some buffer =>
    match copyInto buffer (headerWriteSize + length dataTypeSetColor)
            (length buffer) buf with
    | None => None
    | Some buffer => Some (buf, buffer)
    end end end
  end end end.

(** Second half of [writeColor]: the body of the loop over the chunks, and
    the loop. *)
Definition sendChunk (i : nat) (chunk : list byte) : Go.M Device unit :=
  if Nat.eqb i 0 then
    (* Initial packet is using cmdWriteColor *)
    r <- transfer cmdWriteColor chunk ;;
    match r with
    | Failed => logger Error "Unable to write to color endpoint"
    | Replied _ => Go.ret tt
    end
  else
    (* Chunks don't use cmdWriteColor, they use static dataTypeSubColor *)
    r <- transfer dataTypeSubColor chunk ;;
    match r with
    | Failed => logger Error "Unable to write to endpoint"
    | Replied _ => Go.ret tt
    end.

Definition sendChunks (chunks : list (list byte)) : Go.M Device unit :=
  Go.forRange chunks sendChunk.

(** [writeColor]; the result is the caller's slice after the call. *)
Definition writeColor (data : list byte) : Go.M Device (list byte) :=
  fb <- Go.checked (frameColor data) ;;
  let (buf, buffer) := (fb : list byte * list byte) in
  sendChunks (ProcessMultiChunkPacket buffer maxBufferSizePerRequest) ;;;
  Go.ret buf.

(** [setBrightnessLevel] *)
Definition setBrightnessLevel : Go.M Device unit :=
  d <- Go.get ;;
  match deviceProfile d with
  | Some p =>
      buf <- Go.checked (PutUint16 (make 2) (BrightnessLevel p)) ;;
      r <- transfer cmdBrightness buf ;;
      match r with
      | Failed => logger Warn "Unable to change brightness"
      | Replied _ => Go.ret tt
      end
  | None => Go.ret tt
  end.

(** *** The animation loop of [setDeviceColor]

    One [tick] is one pass through the [default] branch of the goroutine's
    [select]. The loop's local variables are a [Session]; [wavePosition]
    counts the additions of 0.2 made so far, and [temperatureKeys],
    [startTime] and the two colours of [d.activeRgb] belong to the rendering
    state below, since only the rendering reads them. *)

Record Session := {
  reverse : bool;
  counterColorpulse : Z;
  counterFlickering : Z;
  counterColorshift : Z;
  counterCircleshift : Z;
  counterCircle : Z;
  counterColorwarp : Z;
  counterSpinner : Z;
  counterCpuTemp : Z;
  counterGpuTemp : Z;
  colorwarpGeneratedReverse : bool;
  hue : Z;
  wavePosition : Z
}.

Definition set_reverse (s : Session) (v : bool) : Session :=
  {| reverse := v; counterColorpulse := counterColorpulse s;
     counterFlickering := counterFlickering s;
     counterColorshift := counterColorshift s;
     counterCircleshift := counterCircleshift s;
     counterCircle := counterCircle s;
     counterColorwarp := counterColorwarp s;
     counterSpinner := counterSpinner s;
     counterCpuTemp := counterCpuTemp s;
     counterGpuTemp := counterGpuTemp s;
     colorwarpGeneratedReverse := colorwarpGeneratedReverse s;
     hue := hue s; wavePosition := wavePosition s |}.

Definition set_counterColorpulse (s : Session) (v : Z) : Session :=
  {| reverse := reverse s; counterColorpulse := v;
     counterFlickering := counterFlickering s;
     counterColorshift := counterColorshift s;
     counterCircleshift := counterCircleshift s;
     counterCircle := counterCircle s;
     counterColorwarp := counterColorwarp s;
     counterSpinner := counterSpinner s;
     counterCpuTemp := counterCpuTemp s;
     counterGpuTemp := counterGpuTemp s;
     colorwarpGeneratedReverse := colorwarpGeneratedReverse s;
     hue := hue s; wavePosition := wavePosition s |}.

Definition set_counterFlickering (s : Session) (v : Z) : Session :=
  {| reverse := reverse s; counterColorpulse := counterColorpulse s;
     counterFlickering := v; counterColorshift := counterColorshift s;
     counterCircleshift := counterCircleshift s;
     counterCircle := counterCircle s;
     counterColorwarp := counterColorwarp s;
     counterSpinner := counterSpinner s;
     counterCpuTemp := counterCpuTemp s;
     counterGpuTemp := counterGpuTemp s;
     colorwarpGeneratedReverse := colorwarpGeneratedReverse s;
     hue := hue s; wavePosition := wavePosition s |}.

Definition set_counterColorshift (s : Session) (v : Z) : Session :=
  {| reverse := reverse s; counterColorpulse := counterColorpulse s;
     counterFlickering := counterFlickering s; counterColorshift := v;
     counterCircleshift := counterCircleshift s;
     counterCircle := counterCircle s;
     counterColorwarp := counterColorwarp s;
     counterSpinner := counterSpinner s;
     counterCpuTemp := counterCpuTemp s;
     counterGpuTemp := counterGpuTemp s;
     colorwarpGeneratedReverse := colorwarpGeneratedReverse s;
     hue := hue s; wavePosition := wavePosition s |}.

Definition set_counterCircleshift (s : Session) (v : Z) : Session :=
  {| reverse := reverse s; counterColorpulse := counterColorpulse s;
     counterFlickering := counterFlickering s;
     counterColorshift := counterColorshift s; counterCircleshift := v;
     counterCircle := counterCircle s;
     counterColorwarp := counterColorwarp s;
     counterSpinner := counterSpinner s;
     counterCpuTemp := counterCpuTemp s;
     counterGpuTemp := counterGpuTemp s;
     colorwarpGeneratedReverse := colorwarpGeneratedReverse s;
     hue := hue s; wavePosition := wavePosition s |}.

Definition set_counterCircle (s : Session) (v : Z) : Session :=
  {| reverse := reverse s; counterColorpulse := counterColorpulse s;
     counterFlickering := counterFlickering s;
     counterColorshift := counterColorshift s;
     counterCircleshift := counterCircleshift s; counterCircle := v;
     counterColorwarp := counterColorwarp s;
     counterSpinner := counterSpinner s;
     counterCpuTemp := counterCpuTemp s;
     counterGpuTemp := counterGpuTemp s;
     colorwarpGeneratedReverse := colorwarpGeneratedReverse s;
     hue := hue s; wavePosition := wavePosition s |}.

Definition set_counterColorwarp (s : Session) (v : Z) : Session :=
  {| reverse := reverse s; counterColorpulse := counterColorpulse s;
     counterFlickering := counterFlickering s;
     counterColorshift := counterColorshift s;
     counterCircleshift := counterCircleshift s;
     counterCircle := counterCircle s; counterColorwarp := v;
     counterSpinner := counterSpinner s;
     counterCpuTemp := counterCpuTemp s;
     counterGpuTemp := counterGpuTemp s;
     colorwarpGeneratedReverse := colorwarpGeneratedReverse s;
     hue := hue s; wavePosition := wavePosition s |}.

Definition set_counterSpinner (s : Session) (v : Z) : Session :=
  {| reverse := reverse s; counterColorpulse := counterColorpulse s;
     counterFlickering := counterFlickering s;
     counterColorshift := counterColorshift s;
     counterCircleshift := counterCircleshift s;
     counterCircle := counterCircle s;
     counterColorwarp := counterColorwarp s; counterSpinner := v;
     counterCpuTemp := counterCpuTemp s;
     counterGpuTemp := counterGpuTemp s;
     colorwarpGeneratedReverse := colorwarpGeneratedReverse s;
     hue := hue s; wavePosition := wavePosition s |}.

Definition set_counterCpuTemp (s : Session) (v : Z) : Session :=
  {| reverse := reverse s; counterColorpulse := counterColorpulse s;
     counterFlickering := counterFlickering s;
     counterColorshift := counterColorshift s;
     counterCircleshift := counterCircleshift s;
     counterCircle := counterCircle s;
     counterColorwarp := counterColorwarp s;
     counterSpinner := counterSpinner s; counterCpuTemp := v;
     counterGpuTemp := counterGpuTemp s;
     colorwarpGeneratedReverse := colorwarpGeneratedReverse s;
     hue := hue s; wavePosition := wavePosition s |}.

Definition set_counterGpuTemp (s : Session) (v : Z) : Session :=
  {| reverse := reverse s; counterColorpulse := counterColorpulse s;
     counterFlickering := counterFlickering s;
     counterColorshift := counterColorshift s;
     counterCircleshift := counterCircleshift s;
     counterCircle := counterCircle s;
     counterColorwarp := counterColorwarp s;
     counterSpinner := counterSpinner s;
     counterCpuTemp := counterCpuTemp s; counterGpuTemp := v;
     colorwarpGeneratedReverse := colorwarpGeneratedReverse s;
     hue := hue s; wavePosition := wavePosition s |}.

Definition set_colorwarpGeneratedReverse (s : Session) (v : bool) : Session :=
  {| reverse := reverse s; counterColorpulse := counterColorpulse s;
     counterFlickering := counterFlickering s;
     counterColorshift := counterColorshift s;
     counterCircleshift := counterCircleshift s;
     counterCircle := counterCircle s;
     counterColorwarp := counterColorwarp s;
     counterSpinner := counterSpinner s;
     counterCpuTemp := counterCpuTemp s;
     counterGpuTemp := counterGpuTemp s; colorwarpGeneratedReverse := v;
     hue := hue s; wavePosition := wavePosition s |}.

Definition set_hue (s : Session) (v : Z) : Session :=
  {| reverse := reverse s; counterColorpulse := counterColorpulse s;
     counterFlickering := counterFlickering s;
     counterColorshift := counterColorshift s;
     counterCircleshift := counterCircleshift s;
     counterCircle := counterCircle s;
     counterColorwarp := counterColorwarp s;
     counterSpinner := counterSpinner s;
     counterCpuTemp := counterCpuTemp s;
     counterGpuTemp := counterGpuTemp s;
     colorwarpGeneratedReverse := colorwarpGeneratedReverse s; hue := v;
     wavePosition := wavePosition s |}.

Definition set_wavePosition (s : Session) (v : Z) : Session :=
  {| reverse := reverse s; counterColorpulse := counterColorpulse s;
     counterFlickering := counterFlickering s;
     counterColorshift := counterColorshift s;
     counterCircleshift := counterCircleshift s;
     counterCircle := counterCircle s;
     counterColorwarp := counterColorwarp s;
     counterSpinner := counterSpinner s;
     counterCpuTemp := counterCpuTemp s;
     counterGpuTemp := counterGpuTemp s;
     colorwarpGeneratedReverse := colorwarpGeneratedReverse s;
     hue := hue s; wavePosition := v |}.

Definition newSession : Session :=
  {| reverse := false; counterColorpulse := 0; counterFlickering := 0;
     counterColorshift := 0; counterCircleshift := 0; counterCircle := 0;
     counterColorwarp := 0; counterSpinner := 0; counterCpuTemp := 0;
     counterGpuTemp := 0; colorwarpGeneratedReverse := false; hue := 1;
     wavePosition := 0 |}.

(** Go's [int] on the supported platforms: 64 bits, two's complement. *)
Definition wrapInt (z : Z) : Z := (z + 2 ^ 63) mod 2 ^ 64 - 2 ^ 63.
Definition incr (z : Z) : Z := wrapInt (z + 1).

(** The method of [r] that an effect calls, with its arguments. *)
Inductive RenderCall :=
| Rainbow
| Watercolor
| TemperatureCpu (counter : Z)
| TemperatureGpu (counter : Z)
| Colorpulse (counter : Z)
| Static
| Rotator (hue : Z)
| Wave (wavePosition : Z)
| Storm
| Flickering (counter : Z)
| Colorshift (counter : Z) (reverse : bool)
| Circle (counter : Z)
| Spinner (counter : Z)
| Colorwarp (counter : Z).

Section Animation.

(** Package [rgb] is imported, not part of this package. [R] is the state
    its calls read and write (the profile table, the colours, the clock,
    the sampled temperatures); [Profile] is [rgb.Profile]. *)
Variable R : Type.
Variable Profile : Type.
(** [rgb.GetRgbProfile(name)], [None] for [nil]. *)
Variable GetRgbProfile : string -> R -> option Profile.
(** [r.Smoothness] of the [r] that [rgb.New] builds for the profile
    (from [common.Clamp(profile.Smoothness, 1, 100)]). *)
Variable Smoothness : Profile -> Z.
(** Lines 865-895: [rgb.New] and the choice of colours and brightness for
    [r], with what they leave behind in the state (the brightness is stored
    into the colours that [r] points to). *)
Variable rgbNew : Profile -> R -> R.
(** The call of a method of [r]: the bytes of [r.Output] afterwards. *)
Variable render : Profile -> RenderCall -> R -> list byte * R.
(** Lines 1057-1058: the start colour of [d.activeRgb] becomes its end
    colour, and a random colour the new end colour. *)
Variable regenerate : R -> R.

Record Engine := {
  device : Device;
  rgb : R;
  rendered : list RenderCall     (* the calls made so far, in order *)
}.

Definition liftD {A} (m : Go.M Device A) : Go.M Engine A :=
  fun e => match m (device e) with
           | Some (a, d') =>
               Some (a, {| device := d'; rgb := rgb e; rendered := rendered e |})
           | None => None
           end.

Definition call_r (profile : Profile) (c : RenderCall) : Go.M Engine (list byte) :=
  fun e => let (output, r') := render profile c (rgb e) in
           Some (output, {| device := device e; rgb := r';
                            rendered := rendered e ++ [c] |}).

Definition regenerateColors : Go.M Engine unit :=
  Go.modify (fun e => {| device := device e; rgb := regenerate (rgb e);
                         rendered := rendered e |}).

Definition new_r (profile : Profile) : Go.M Engine unit :=
  Go.modify (fun e => {| device := device e; rgb := rgbNew profile (rgb e);
                         rendered := rendered e |}).

(** [for i := 0; i < d.LEDChannels; i++ { buff = append(buff, 0, 0, 0) }] *)
Definition appendOff (buff : list byte) (channels : Z) : list byte :=
  buff ++ repeat x00 (3 * Z.to_nat channels).

(** The [switch d.DeviceProfile.RGBProfile] of the loop body: the session
    after the case, and [buff] after its [append]. *)
Definition effect (name : string) (profile : Profile) (lightChannels : Z)
    (channels : Z) (s : Session) (buff : list byte)
  : Go.M Engine (Session * list byte) :=
  let Smoothness := Smoothness profile in
  let output (s : Session) (c : RenderCall) : Go.M Engine (Session * list byte) :=
    out <- call_r profile c ;; Go.ret (s, buff ++ out) in
  if String.eqb name "off" then
    Go.ret (s, appendOff buff channels)
  else if String.eqb name "rainbow" then output s Rainbow
  else if String.eqb name "watercolor" then output s Watercolor
  else if String.eqb name "cpu-temperature" then
    let s := set_counterCpuTemp s (incr (counterCpuTemp s)) in
    let s := if counterCpuTemp s >=? Smoothness
             then set_counterCpuTemp s 0 else s in
    output s (TemperatureCpu (counterCpuTemp s))
  else if String.eqb name "gpu-temperature" then
    let s := set_counterGpuTemp s (incr (counterGpuTemp s)) in
    let s := if counterGpuTemp s >=? Smoothness
             then set_counterGpuTemp s 0 else s in
    output s (TemperatureGpu (counterGpuTemp s))
  else if String.eqb name "colorpulse" then
    let s := set_counterColorpulse s (incr (counterColorpulse s)) in
    let s := if counterColorpulse s >=? Smoothness
             then set_counterColorpulse s 0 else s in
    output s (Colorpulse (counterColorpulse s))
  else if String.eqb name "static" then output s Static
  else if String.eqb name "rotator" then output s (Rotator (hue s))
  else if String.eqb name "wave" then output s (Wave (wavePosition s))
  else if String.eqb name "storm" then output s Storm
  else if String.eqb name "flickering" then
    let s := if counterFlickering s >=? Smoothness
             then set_counterFlickering s 0
             else set_counterFlickering s (incr (counterFlickering s)) in
    output s (Flickering (counterFlickering s))
  else if String.eqb name "colorshift" then
    let s := if (counterColorshift s >=? Smoothness) && negb (reverse s)
             then set_reverse (set_counterColorshift s 0) true
             else if (counterColorshift s >=? Smoothness) && reverse s
             then set_reverse (set_counterColorshift s 0) false
             else s in
    out <- call_r profile (Colorshift (counterColorshift s) (reverse s)) ;;
    let s := set_counterColorshift s (incr (counterColorshift s)) in
    Go.ret (s, buff ++ out)
  else if String.eqb name "circleshift" then
    let s := if counterCircleshift s >=? lightChannels
             then set_counterCircleshift s 0
             else set_counterCircleshift s (incr (counterCircleshift s)) in
    output s (Circle (counterCircleshift s))
  else if String.eqb name "circle" then
    let s := if counterCircle s >=? lightChannels
             then set_counterCircle s 0
             else set_counterCircle s (incr (counterCircle s)) in
    output s (Circle (counterCircle s))
  else if String.eqb name "spinner" then
    let s := if counterSpinner s >=? lightChannels
             then set_counterSpinner s 0
             else set_counterSpinner s (incr (counterSpinner s)) in
    output s (Spinner (counterSpinner s))
  else if String.eqb name "colorwarp" then
    s <- (if counterColorwarp s >=? Smoothness then
            s <- (if negb (colorwarpGeneratedReverse s) then
                    regenerateColors ;;;
                    Go.ret (set_colorwarpGeneratedReverse s true)
                  else Go.ret s) ;;
            Go.ret (set_counterColorwarp s 0)
          else if (counterColorwarp s =? 0) && colorwarpGeneratedReverse s then
            Go.ret (set_colorwarpGeneratedReverse s false)
          else
            Go.ret (set_counterColorwarp s (incr (counterColorwarp s)))) ;;
    output s (Colorwarp (counterColorwarp s))
  else Go.ret (s, buff).

(** The loop body. [lightChannels] is the goroutine's argument; the mutex
    [lock] is local to the goroutine and guards nothing here. *)
Definition tick (lightChannels : Z) (s : Session) : Go.M Engine Session :=
  let buff := make 0 in
  e <- Go.get ;;
  dp <- Go.checked (deviceProfile (device e)) ;;
  match GetRgbProfile (RGBProfile dp) (rgb e) with
  | None =>
      let buff := appendOff buff (LEDChannels (device e)) in
      liftD (logger Warn "No such RGB profile found") ;;;
      Go.ret s                                        (* continue *)
  | Some profile =>
      new_r profile ;;;
      sb <- effect (RGBProfile dp) profile lightChannels
              (LEDChannels (device e)) s buff ;;
      let (s, buff) := (sb : Session * list byte) in
      liftD (writeColor buff) ;;;
      (* time.Sleep(20 * time.Millisecond) *)
      let s := set_hue s (incr (hue s)) in
      let s := set_wavePosition s (wavePosition s + 1) in
      Go.ret s
  end.

(** [n] passes through the loop with no exit signal in between. *)
Fixpoint ticks (n : nat) (lightChannels : Z) (s : Session) : Go.M Engine Session :=
  match n with
  | O => Go.ret s
  | S n' => s' <- tick lightChannels s ;; ticks n' lightChannels s'
  end.

End Animation.

(** *** The control dial listener

    [Listener] holds the variables that [controlDialListener] and its
    goroutine keep between reads: [pv], [brightness], and the two buffers
    [buf] and [data], which are made once and reused. *)

Record Listener := {
  pv : bool;
  brightness : Z;            (* uint16 *)
  buf : list byte;
  data : list byte
}.

(** [controlDialListener] up to the first read. *)
Definition dialStart : Go.M Device Listener :=
  d <- Go.get ;;
  dp <- Go.checked (deviceProfile d) ;;
  let brightness := if BrightnessLevel dp =? 0 then 1000 else BrightnessLevel dp in
  Go.ret {| pv := false; brightness := brightness;
            buf := make 2; data := make bufferSize |}.

(** [saveDeviceProfile] writes the profile to its file and loads the
    profiles again. The file system is outside the package and is taken to
    hand back what it was given: with a profile present, [d.DeviceProfile]
    holds the same values afterwards; on the first save ([d.DeviceProfile]
    nil) the default profile is written and becomes the device's profile. *)
Definition saveDeviceProfile : Go.M Device unit :=
  d <- Go.get ;;
  match deviceProfile d with
  | Some p => call (SaveDeviceProfile p)
  | None =>
      let p := {| RGBProfile := "keyboard"; ControlDial := 1;
                  BrightnessLevel := 1000 |} in
      call (SaveDeviceProfile p) ;;;
      Go.modify (fun d => withProfile d (Some p))
  end.

(** The block that ends the brightness case of the listen loop
    ([if d.DeviceProfile != nil { ... }]): the level goes into the profile,
    the profile is saved, and the brightness command is sent from [buf].
    Returns [buf] as the block leaves it. *)
Definition sendLevel (brightness : Z) (buf : list byte) : Go.M Device (list byte) :=
  d <- Go.get ;;
  match deviceProfile d with
  | Some p =>
      Go.modify (fun d =>
        withProfile d (Some (setBrightnessLevelField p brightness))) ;;;
      saveDeviceProfile ;;;
      buf <- Go.checked (PutUint16 buf brightness) ;;
      r <- transfer cmdBrightness buf ;;
      match r with
      | Failed => logger Warn "Unable to change brightness"
      | Replied _ => Go.ret tt
      end ;;;
      Go.ret buf
  | None => Go.ret buf
  end.

(** One pass through the listen loop, for a read that returned [report]. *)
Definition dialEvent (report : list byte) (l : Listener) : Go.M Device Listener :=
  data <- Go.checked (copyInto (data l) 0 (length (data l)) report) ;;
  b4 <- Go.checked (index data 4) ;;
  let value := Z_of_byte b4 in
  press <- (if value =? 0 then
              b19 <- Go.checked (index data 19) ;;
              Go.ret (Z_of_byte b19 =? 2)
            else Go.ret false) ;;
  d <- Go.get ;;
  dp <- Go.checked (deviceProfile d) ;;
  l <- (if ControlDial dp =? 1 then
          (if (press : bool) then
             let pv := negb (pv l) in
             e <- sound (MuteSound pv) ;;
             (if (e : bool) then logger Warn "Unable to change volume level"
              else Go.ret tt) ;;;
             Go.ret {| pv := pv; brightness := brightness l;
                       buf := buf l; data := data |}
           else
             let increases := if value =? 1 then true else false in
             e <- sound (ChangeVolume 5 increases) ;;
             (if (e : bool) then logger Warn "Unable to change volume level"
              else Go.ret tt) ;;;
             Go.ret {| pv := pv l; brightness := brightness l;
                       buf := buf l; data := data |})
        else if ControlDial dp =? 2 then
          let pv' := if press then negb (pv l) else pv l in
          let brightness' :=
            if press then (if pv' then 0 else 1000)
            else if value =? 1 then
              (if brightness l >=? 1000 then 1000 else wrap16 (brightness l + 100))
            else
              (if brightness l <=? 0 then 0 else wrap16 (brightness l - 100)) in
          buf <- sendLevel brightness' (buf l) ;;
          Go.ret {| pv := pv'; brightness := brightness';
                    buf := buf; data := data |}
        else
          Go.ret {| pv := pv l; brightness := brightness l;
                    buf := buf l; data := data |}) ;;
  (* time.Sleep(40 * time.Millisecond) *)
  Go.ret l.

(** The listen loop over the reads that succeed, in order. *)
Fixpoint dialEvents (reports : list (list byte)) (l : Listener)
  : Go.M Device Listener :=
  match reports with
  | [] => Go.ret l
  | report :: rest => l' <- dialEvent report l ;; dialEvents rest l'
  end.

(** [controlDialListener] over a sequence of reads. *)
Definition controlDialListener (reports : list (list byte)) : Go.M Device Listener :=
  l <- dialStart ;; dialEvents reports l.

End K65Plus.

(* ------------------------------------------------------------------ *)
(** ** Package k65plusW (wireless)                                     *)
(* ------------------------------------------------------------------ *)

Module K65PlusW.
Import Common.

Definition dataTypeSubColor : list byte := [x07; x01].
Definition cmdWriteColor : list byte := [x06; x01].
Definition cmdDongle : Z := 8.
Definition cmdKeyboard : Z := 9.
(** The value [dataTypeSetColor] is declared with; [setDeviceColor] assigns
    it anew before each write. *)
Definition dataTypeSetColorInit : list byte := [x7e; x20; x01].

(** The fields of [DeviceProfile] that the functions below read or write. *)
Record DeviceProfile := {
  RGBProfile : string;
  ControlDial : Z;
  BrightnessLevel : Z        (* uint16 *)
}.

Definition setBrightnessLevelField (p : DeviceProfile) (v : Z) : DeviceProfile :=
  {| RGBProfile := RGBProfile p; ControlDial := ControlDial p; BrightnessLevel := v |}.

Inductive External :=
| SaveDeviceProfile (p : DeviceProfile)
| MuteSound (mute : bool)
| ChangeVolume (step : Z) (increase : bool).

(** [Device], with the package variable [dataTypeSetColor], the log and
    the outside world. *)
Record Device := {
  dev : HidDevice;
  deviceProfile : option DeviceProfile;
  dataTypeSetColor : list byte;
  log : list LogEntry;
  external : list External;
  soundErrors : list bool
}.

Definition withDev (d : Device) (h : HidDevice) : Device :=
  {| dev := h; deviceProfile := deviceProfile d;
     dataTypeSetColor := dataTypeSetColor d;
     log := log d; external := external d; soundErrors := soundErrors d |}.

Definition withLog (d : Device) (l : list LogEntry) : Device :=
  {| dev := dev d; deviceProfile := deviceProfile d;
     dataTypeSetColor := dataTypeSetColor d;
     log := l; external := external d; soundErrors := soundErrors d |}.

Definition withProfile (d : Device) (p : option DeviceProfile) : Device :=
  {| dev := dev d; deviceProfile := p;
     dataTypeSetColor := dataTypeSetColor d;
     log := log d; external := external d; soundErrors := soundErrors d |}.

Definition withExternal (d : Device) (x : list External) (e : list bool) : Device :=
  {| dev := dev d; deviceProfile := deviceProfile d;
     dataTypeSetColor := dataTypeSetColor d;
     log := log d; external := x; soundErrors := e |}.

Definition logger (lv : Level) (msg : string) : Go.M Device unit :=
  Go.modify (fun d => withLog d (log d ++ [{| level := lv; message := msg |}])).

Definition call (x : External) : Go.M Device unit :=
  Go.modify (fun d => withExternal d (external d ++ [x]) (soundErrors d)).

Definition sound (x : External) : Go.M Device bool :=
  fun d => Some (hd false (soundErrors d),
                 withExternal d (external d ++ [x]) (tl (soundErrors d))).

Inductive Reply :=
| Replied (bufferR : list byte)
| Failed.

(** [transfer]: as in the wired package, with the command byte a parameter. *)
Definition transfer (endpoint buffer : list byte) (command : byte)
  : Go.M Device Reply :=
  let bufferW := make bufferSizeWrite in
  bufferW <- Go.checked (store bufferW 1 command) ;;
  bufferW <- Go.checked (copyInto bufferW headerSize
                           (headerSize + length endpoint) endpoint) ;;
  bufferW <- (if Nat.ltb 0 (length buffer) then
                Go.checked (copyInto bufferW (headerSize + length endpoint)
                              (headerSize + length endpoint + length buffer) buffer)
              else Go.ret bufferW) ;;
  let bufferR := make bufferSize in
  d <- Go.get ;;
  let (outcome, rest) := nextOutcome (dev d) in
  Go.modify (fun d => withDev d {| written := written (dev d) ++ [bufferW];
                                   pending := rest |}) ;;;
  match outcome with
  | IoWriteErr =>
      logger Error "Unable to write to a device" ;;; Go.ret Failed
  | IoReadErr =>
      logger Error "Unable to read data from device" ;;; Go.ret Failed
  | IoOk reply =>
      bufferR <- Go.checked (copyInto bufferR 0 (length bufferR) reply) ;;
      Go.ret (Replied bufferR)
  end.

(** First half of [writeColor]: the framed buffer, for the current value
    [tag] of [dataTypeSetColor]. The caller's slice is only read. *)
Definition frameColor (tag data : list byte) : option (list byte) :=
  let buffer := make (length tag + length data + headerWriteSize) in
  match PutUint16 buffer (wrap16 (Z.of_nat (length data))) with
  | None => None
  | Some buffer =>
  match copyInto buffer headerWriteSize (headerWriteSize + length tag) tag with
  | None => None
  | Some buffer =>
      copyInto buffer (headerWriteSize + length tag) (length buffer) data
  end end.

(** Second half of [writeColor]: the body of the loop over the chunks, and
    the loop. *)
Definition sendChunk (i : nat) (chunk : list byte) : Go.M Device unit :=
  if Nat.eqb i 0 then
    (* Initial packet is using cmdWriteColor *)
    r <- transfer cmdWriteColor chunk (byte_of_Z cmdKeyboard) ;;
    match r with
    | Failed => logger Error "Unable to write to color endpoint"
    | Replied _ => Go.ret tt
    end
  else
    (* Chunks don't use cmdWriteColor, they use static dataTypeSubColor *)
    r <- transfer dataTypeSubColor chunk (byte_of_Z cmdKeyboard) ;;
    match r with
    | Failed => logger Error "Unable to write to endpoint"
    | Replied _ => Go.ret tt
    end.

Definition sendChunks (chunks : list (list byte)) : Go.M Device unit :=
  Go.forRange chunks sendChunk.

(** [writeColor] *)
Definition writeColor (data : list byte) : Go.M Device unit :=
  d <- Go.get ;;
  buffer <- Go.checked (frameColor (dataTypeSetColor d) data) ;;
  sendChunks (ProcessMultiChunkPacket buffer maxBufferSizePerRequest).

(** *** The control dial listener

    [Listener] holds the variables that [controlDialListener] and its
    goroutine keep between reads: [pv], [brightness], and the two buffers
    [buf] and [data], which are made once and reused. *)

Record Listener := {
  pv : bool;
  brightness : Z;            (* uint16 *)
  buf : list byte;
  data : list byte
}.

(** [controlDialListener] up to the first read. *)
Definition dialStart : Go.M Device Listener :=
  d <- Go.get ;;
  dp <- Go.checked (deviceProfile d) ;;
  let brightness := if BrightnessLevel dp =? 0 then 1000 else BrightnessLevel dp in
  Go.ret {| pv := false; brightness := brightness;
            buf := make 2; data := make bufferSize |}.

(** [saveDeviceProfile] writes the profile to its file and loads the
    profiles again. The file system is outside the package and is taken to
    hand back what it was given: with a profile present, [d.DeviceProfile]
    holds the same values afterwards; on the first save ([d.DeviceProfile]
    nil) the default profile is written and becomes the device's profile. *)
Definition saveDeviceProfile : Go.M Device unit :=
  d <- Go.get ;;
  match deviceProfile d with
  | Some p => call (SaveDeviceProfile p)
  | None =>
      let p := {| RGBProfile := "keyboard"; ControlDial := 1;
                  BrightnessLevel := 1000 |} in
      call (SaveDeviceProfile p) ;;;
      Go.modify (fun d => withProfile d (Some p))
  end.

(** The block that ends the brightness case of the listen loop
    ([if d.DeviceProfile != nil { ... }]): the level goes into the profile,
    the profile is saved, and the brightness command is sent from [buf].
    Returns [buf] as the block leaves it. *)
Definition sendLevel (brightness : Z) (buf : list byte) : Go.M Device (list byte) :=
  d <- Go.get ;;
  match deviceProfile d with
  | Some p =>
      Go.modify (fun d =>
        withProfile d (Some (setBrightnessLevelField p brightness))) ;;;
      saveDeviceProfile ;;;
      buf <- Go.checked (PutUint16 buf brightness) ;;
      r <- transfer cmdBrightness buf (byte_of_Z cmdKeyboard) ;;
      match r with
      | Failed => logger Warn "Unable to change brightness"
      | Replied _ => Go.ret tt
      end ;;;
      Go.ret buf
  | None => Go.ret buf
  end.

(** One pass through the listen loop, for a read that returned [report]. *)
Definition dialEvent (report : list byte) (l : Listener) : Go.M Device Listener :=
  data <- Go.checked (copyInto (data l) 0 (length (data l)) report) ;;
  b4 <- Go.checked (index data 4) ;;
  let value := Z_of_byte b4 in
  press <- (if value =? 0 then
              b19 <- Go.checked (index data 19) ;;
              Go.ret (Z_of_byte b19 =? 2)
            else Go.ret false) ;;
  d <- Go.get ;;
  dp <- Go.checked (deviceProfile d) ;;
  l <- (if ControlDial dp =? 1 then
          (if (press : bool) then
             let pv := negb (pv l) in
             e <- sound (MuteSound pv) ;;
             (if (e : bool) then logger Warn "Unable to change volume level"
              else Go.ret tt) ;;;
             Go.ret {| pv := pv; brightness := brightness l;
                       buf := buf l; data := data |}
           else
             let increases := if value =? 1 then true else false in
             e <- sound (ChangeVolume 5 increases) ;;
             (if (e : bool) then logger Warn "Unable to change volume level"
              else Go.ret tt) ;;;
             Go.ret {| pv := pv l; brightness := brightness l;
                       buf := buf l; data := data |})
        else if ControlDial dp =? 2 then
          let pv' := if press then negb (pv l) else pv l in
          let brightness' :=
            if press then (if pv' then 0 else 1000)
            else if value =? 1 then
              (if brightness l >=? 1000 then 1000 else wrap16 (brightness l + 100))
            else if value =? 255 then
              (if brightness l <=? 0 then 0 else wrap16 (brightness l - 100))
            else brightness l in
          buf <- sendLevel brightness' (buf l) ;;
          Go.ret {| pv := pv'; brightness := brightness';
                    buf := buf; data := data |}
        else
          Go.ret {| pv := pv l; brightness := brightness l;
                    buf := buf l; data := data |}) ;;
  (* time.Sleep(40 * time.Millisecond) *)
  Go.ret l.

(** The listen loop over the reads that succeed, in order. *)
Fixpoint dialEvents (reports : list (list byte)) (l : Listener)
  : Go.M Device Listener :=
  match reports with
  | [] => Go.ret l
  | report :: rest => l' <- dialEvent report l ;; dialEvents rest l'
  end.

(** [controlDialListener] over a sequence of reads. *)
Definition controlDialListener (reports : list (list byte)) : Go.M Device Listener :=
  l <- dialStart ;; dialEvents reports l.

End K65PlusW.

(* ------------------------------------------------------------------ *)
(** ** Vocabulary of the statements                                    *)
(* ------------------------------------------------------------------ *)

Module Wire.
Import Common.

(** The report that [transfer] hands to [Write]: the report-ID slot, the
    command byte, the opcode, the payload, zero padding. *)
Definition reportOf (command : byte) (endpoint buffer : list byte) : list byte :=
  [x00; command] ++ endpoint ++ buffer
    ++ repeat x00 (bufferSizeWrite - headerSize - length endpoint - length buffer).

(** The opcode field of a report, for the two-byte opcodes of colour writes. *)
Definition opcodeOf (report : list byte) : list byte :=
  firstn 2 (skipn headerSize report).

(** The payload field of a report that carries [n] bytes after a two-byte
    opcode. *)
Definition payloadOf (n : nat) (report : list byte) : list byte :=
  firstn n (skipn (headerSize + 2) report).

(** The reports of one colour write, chunk by chunk. *)
Definition colorReports (command : byte) (cmdFirst cmdNext : list byte)
    (chunks : list (list byte)) : list (list byte) :=
  match chunks with
  | [] => []
  | first :: rest =>
      reportOf command cmdFirst first :: map (reportOf command cmdNext) rest
  end.

(** A framed colour buffer: the length field [v] in two bytes, least
    significant first, two zero bytes, the data-type tag, the payload. *)
Definition framed (v : Z) (tag payload : list byte) : list byte :=
  [byte_of_Z v; byte_of_Z (v / 256); x00; x00] ++ tag ++ payload.

(** A slice after its bytes 3, 4 and 5 were set to zero. *)
Definition cleared345 (data : list byte) : list byte :=
  firstn 3 data ++ [x00; x00; x00] ++ skipn 6 data.

(** The animation loop is running the effect [name]: the device has a
    profile, and this is its [RGBProfile]. *)
Definition running {R : Type} (name : string) (e : K65Plus.Engine R) : Prop :=
  exists dp, K65Plus.deviceProfile (K65Plus.device e) = Some dp /\
             K65Plus.RGBProfile dp = name.

(** Dial reports, by the bytes the listener looks at: a turn to the right, a
    turn to the left, a press. *)
Definition increase (report : list byte) : Prop :=
  nth_error report 4 = Some x01.

Definition decrease (report : list byte) : Prop :=
  nth_error report 4 = Some xff.

Definition press (report : list byte) : Prop :=
  nth_error report 4 = Some x00 /\ nth_error report 19 = Some x02.

(** The level that the profile of a device holds. *)
Definition storedLevel (d : K65Plus.Device) : option Z :=
  option_map K65Plus.BrightnessLevel (K65Plus.deviceProfile d).

Definition storedLevelW (d : K65PlusW.Device) : option Z :=
  option_map K65PlusW.BrightnessLevel (K65PlusW.deviceProfile d).

(** Only the device handle and the log differ between [d] and [d']. *)
Definition onlyIO (d d' : K65Plus.Device) : Prop :=
  K65Plus.deviceProfile d' = K65Plus.deviceProfile d /\
  K65Plus.LEDChannels d' = K65Plus.LEDChannels d /\
  K65Plus.external d' = K65Plus.external d /\
  K65Plus.soundErrors d' = K65Plus.soundErrors d.

Definition onlyIOW (d d' : K65PlusW.Device) : Prop :=
  K65PlusW.deviceProfile d' = K65PlusW.deviceProfile d /\
  K65PlusW.dataTypeSetColor d' = K65PlusW.dataTypeSetColor d /\
  K65PlusW.external d' = K65PlusW.external d /\
  K65PlusW.soundErrors d' = K65PlusW.soundErrors d.

End Wire.

(* ------------------------------------------------------------------ *)
(** ** Sample devices and inputs                                       *)
(* ------------------------------------------------------------------ *)

Module Samples.
Import Common.

(** A handle that has written nothing yet and answers every exchange. *)
Definition idle : HidDevice := {| written := []; pending := [] |}.

(** The wired keyboard as [Init] sets it up (123 LED channels), with the
    given effect name, dial binding and brightness level in its profile. *)
Definition wired (effect : string) (dial level : Z) : K65Plus.Device :=
  {| K65Plus.dev := idle;
     K65Plus.deviceProfile :=
       Some {| K65Plus.RGBProfile := effect; K65Plus.ControlDial := dial;
               K65Plus.BrightnessLevel := level |};
     K65Plus.LEDChannels := 123;
     K65Plus.log := []; K65Plus.external := []; K65Plus.soundErrors := [] |}.

Definition wireless (effect : string) (dial level : Z) : K65PlusW.Device :=
  {| K65PlusW.dev := idle;
     K65PlusW.deviceProfile :=
       Some {| K65PlusW.RGBProfile := effect; K65PlusW.ControlDial := dial;
               K65PlusW.BrightnessLevel := level |};
     K65PlusW.dataTypeSetColor := K65PlusW.dataTypeSetColorInit;
     K65PlusW.log := []; K65PlusW.external := []; K65PlusW.soundErrors := [] |}.

(** A full-white colour payload of [n] bytes. *)
Definition white (n : nat) : list byte := repeat xff n.

(** A 64-byte dial report with the given bytes at offsets 4 and 19. *)
Definition dialReport (b4 b19 : byte) : list byte :=
  repeat x00 4 ++ [b4] ++ repeat x00 14 ++ [b19] ++ repeat x00 44.

(** A stand-in for package [rgb]: no state of its own, a profile is its
    smoothness, every effect that is still in the table has smoothness 10,
    every frame rendered is 123 black channels. *)
Definition profiles (name : string) (_ : unit) : option Z :=
  if String.eqb name "deleted" then None else Some 10.

Definition smoothness (p : Z) : Z := p.

Definition black (_ : Z) (_ : K65Plus.RenderCall) (r : unit) : list byte * unit :=
  (repeat x00 369, r).

Definition keep (r : unit) : unit := r.

Definition fresh (_ : Z) (r : unit) : unit := r.

(** The loop body and the loop over this stand-in. *)
Definition tick : Z -> K65Plus.Session -> Go.M (K65Plus.Engine unit) K65Plus.Session :=
  K65Plus.tick profiles smoothness fresh black keep.

Definition ticks (n : nat)
  : Z -> K65Plus.Session -> Go.M (K65Plus.Engine unit) K65Plus.Session :=
  K65Plus.ticks profiles smoothness fresh black keep n.

(** The animation loop about to make its first tick. *)
Definition engine (effect : string) : K65Plus.Engine unit :=
  {| K65Plus.device := wired effect 2 1000; K65Plus.rgb := tt;
     K65Plus.rendered := [] |}.

End Samples.

(* ------------------------------------------------------------------ *)
(** ** Vocabulary of the dial statements                               *)
(* ------------------------------------------------------------------ *)

Module Dial.
Import Common.

(** A level on the scale of the dial: a multiple of 100 from 0 to 1000. *)
Definition onScale (level : Z) : Prop :=
  exists q, level = 100 * q /\ 0 <= q <= 10.

(** The calls of the volume binding. *)
Definition volumeCall (x : K65Plus.External) : bool :=
  match x with
  | K65Plus.MuteSound _ => true
  | K65Plus.ChangeVolume step _ => step =? 5
  | K65Plus.SaveDeviceProfile _ => false
  end.

Definition volumeCallW (x : K65PlusW.External) : bool :=
  match x with
  | K65PlusW.MuteSound _ => true
  | K65PlusW.ChangeVolume step _ => step =? 5
  | K65PlusW.SaveDeviceProfile _ => false
  end.

End Dial.

(* ------------------------------------------------------------------ *)
(** ** Package k65plus: further functions                              *)
(* ------------------------------------------------------------------ *)

Module K65PlusOps.
Import Common K65Plus.

(** [keepAlive] *)
Definition keepAlive : Go.M Device unit :=
  r <- transfer [x12] [] ;;
  match r with
  | Failed => logger Error "Unable to write to a device"
  | Replied _ => Go.ret tt
  end.

Definition setControlDialField (p : DeviceProfile) (v : Z) : DeviceProfile :=
  {| RGBProfile := RGBProfile p; ControlDial := v;
     BrightnessLevel := BrightnessLevel p |}.

(** [UpdateControlDial]; [d.DeviceProfile] nil is a nil dereference. *)
Definition UpdateControlDial (value : Z) : Go.M Device Z :=
  d <- Go.get ;;
  p <- Go.checked (deviceProfile d) ;;
  Go.modify (fun d => withProfile d (Some (setControlDialField p value))) ;;;
  saveDeviceProfile ;;;
  Go.ret 1.

End K65PlusOps.

(* ------------------------------------------------------------------ *)
(** ** Package k65plusW: further functions                             *)
(* ------------------------------------------------------------------ *)

Module K65PlusWOps.
Import Common K65PlusW.

(** [keepAlive]: the dongle first, then the keyboard. *)
Definition keepAlive : Go.M Device unit :=
  (r <- transfer [x12] [] (byte_of_Z cmdDongle) ;;
   match r with
   | Failed => logger Error "Unable to write to a device"
   | Replied _ => Go.ret tt
   end) ;;;
  (r <- transfer [x12] [] (byte_of_Z cmdKeyboard) ;;
   match r with
   | Failed => logger Error "Unable to write to a device"
   | Replied _ => Go.ret tt
   end).

(** [setBrightnessLevel] *)
Definition setBrightnessLevel : Go.M Device unit :=
  d <- Go.get ;;
  match deviceProfile d with
  | Some p =>
      buf <- Go.checked (PutUint16 (make 2) (BrightnessLevel p)) ;;
      r <- transfer cmdBrightness buf (byte_of_Z cmdKeyboard) ;;
      match r with
      | Failed => logger Warn "Unable to change brightness"
      | Replied _ => Go.ret tt
      end
  | None => Go.ret tt
  end.

Definition setControlDialField (p : DeviceProfile) (v : Z) : DeviceProfile :=
  {| RGBProfile := RGBProfile p; ControlDial := v;
     BrightnessLevel := BrightnessLevel p |}.

(** [UpdateControlDial]; [d.DeviceProfile] nil is a nil dereference. *)
Definition UpdateControlDial (value : Z) : Go.M Device Z :=
  d <- Go.get ;;
  p <- Go.checked (deviceProfile d) ;;
  Go.modify (fun d => withProfile d (Some (setControlDialField p value))) ;;;
  saveDeviceProfile ;;;
  Go.ret 1.

End K65PlusWOps.

(* ------------------------------------------------------------------ *)
(** ** Vocabulary of the statements on single exchanges                *)
(* ------------------------------------------------------------------ *)

Module Exchange.
Import Common.

(** The read buffer of [transfer] after [Read] has put [reply] into it: the
    first 64 bytes of the reply, zeroes where the reply ends before. *)
Definition answered (reply : list byte) : list byte :=
  firstn bufferSize reply ++ repeat x00 (bufferSize - length reply).

(** What [transfer] returns on an outcome of the handle. *)
Definition resultW (o : IoOutcome) : K65Plus.Reply :=
  match o with
  | IoOk reply => K65Plus.Replied (answered reply)
  | IoWriteErr | IoReadErr => K65Plus.Failed
  end.

Definition resultWl (o : IoOutcome) : K65PlusW.Reply :=
  match o with
  | IoOk reply => K65PlusW.Replied (answered reply)
  | IoWriteErr | IoReadErr => K65PlusW.Failed
  end.

(** What [transfer] logs on an outcome of the handle. *)
Definition logged (o : IoOutcome) : list LogEntry :=
  match o with
  | IoOk _ => []
  | IoWriteErr => [{| level := Error; message := "Unable to write to a device" |}]
  | IoReadErr => [{| level := Error; message := "Unable to read data from device" |}]
  end.

(** What a caller that logs [msg] at level [lv] on an error adds to that. *)
Definition complained (lv : Level) (msg : string) (o : IoOutcome) : list LogEntry :=
  match o with
  | IoOk _ => []
  | IoWriteErr | IoReadErr => [{| level := lv; message := msg |}]
  end.

(** The outcome of the exchange after the next [n]: the script's, or an
    all-zero reply once the script is exhausted. *)
Definition outcome (n : nat) (h : HidDevice) : IoOutcome :=
  nth n (pending h) (IoOk []).

(** The sample keyboards on a handle that answers from [script]. *)
Definition wired (script : list IoOutcome) (level : Z) : K65Plus.Device :=
  {| K65Plus.dev := {| written := []; pending := script |};
     K65Plus.deviceProfile :=
       Some {| K65Plus.RGBProfile := "static"; K65Plus.ControlDial := 2;
               K65Plus.BrightnessLevel := level |};
     K65Plus.LEDChannels := 123;
     K65Plus.log := []; K65Plus.external := []; K65Plus.soundErrors := [] |}.

Definition wireless (script : list IoOutcome) (level : Z) : K65PlusW.Device :=
  {| K65PlusW.dev := {| written := []; pending := script |};
     K65PlusW.deviceProfile :=
       Some {| K65PlusW.RGBProfile := "static"; K65PlusW.ControlDial := 2;
               K65PlusW.BrightnessLevel := level |};
     K65PlusW.dataTypeSetColor := K65PlusW.dataTypeSetColorInit;
     K65PlusW.log := []; K65PlusW.external := []; K65PlusW.soundErrors := [] |}.

End Exchange.

(* ------------------------------------------------------------------ *)
(** ** Vocabulary of the statements on the animation loop              *)
(* ------------------------------------------------------------------ *)

Module Schedule.
Import Common.

(** The cases of the [switch] in the loop body, in the order of the source. *)
Definition handled : list string :=
  ["off"; "rainbow"; "watercolor"; "cpu-temperature"; "gpu-temperature";
   "colorpulse"; "static"; "rotator"; "wave"; "storm"; "flickering";
   "colorshift"; "circleshift"; "circle"; "spinner"; "colorwarp"]%string.

Section Plays.

Variable R : Type.
Variable Profile : Type.
Variable GetRgbProfile : string -> R -> option Profile.
Variable Smoothness : Profile -> Z.
Variable rgbNew : Profile -> R -> R.
Variable render : Profile -> K65Plus.RenderCall -> R -> list byte * R.
Variable regenerate : R -> R.

(** The loop, started on session [s] with the effect [name] running, goes
    on for any number of ticks, and the call it makes to the renderer on
    tick number [k] (the first tick is number 0) is [frame k]. *)
Definition plays (name : string) (frame : nat -> K65Plus.RenderCall)
    (lightChannels : Z) (s : K65Plus.Session) (e : K65Plus.Engine R) : Prop :=
  forall n : nat,
    exists s' e',
      K65Plus.ticks GetRgbProfile Smoothness rgbNew render regenerate
        n lightChannels s e = Some (s', e') /\
      K65Plus.rendered e' = K65Plus.rendered e ++ map frame (seq 0 n) /\
      Wire.running name e'.

End Plays.

End Schedule.

(* ------------------------------------------------------------------ *)
(** ** Package k65plusW: colour modes, keyboard profiles, sleep timer  *)
(* ------------------------------------------------------------------ *)

Module K65PlusWProfile.
Import Common K65PlusW.

Definition cmdSleep : list byte := [x01; x0e; x00].
Definition defaultLayout : string := "k65plusW-default-US".

(** The keys of [d.RGBModes], as [Init] fills the map; nothing in the
    package writes it afterwards. *)
Definition RGBModes : list string :=
  ["watercolor"; "colorpulse"; "colorshift"; "colorwave"; "rain";
   "rainbowwave"; "spiralrainbow"; "tlk"; "tlr"; "keyboard"; "off"]%string.

(** [slices.Contains] on strings *)
Definition Contains (l : list string) (x : string) : bool :=
  existsb (String.eqb x) l.

(** [uint32(x)] *)
Definition wrap32 (z : Z) : Z := z mod 2 ^ 32.

(** [binary.LittleEndian.PutUint32(b, v)] *)
Definition PutUint32 (b : list byte) (v : Z) : option (list byte) :=
  copyInto b 0 4 [byte_of_Z v; byte_of_Z (v / 256);
                  byte_of_Z (v / 65536); byte_of_Z (v / 16777216)].

(** [binary.LittleEndian.Uint32(b)] *)
Definition Uint32 (b : list byte) : option Z :=
  match b with
  | b0 :: b1 :: b2 :: b3 :: _ =>
      Some (Z_of_byte b0 + 256 * Z_of_byte b1
            + 65536 * Z_of_byte b2 + 16777216 * Z_of_byte b3)
  | _ => None
  end.

(** A Go map with string keys: [None] where the key is absent. *)
Definition Map (V : Type) : Type := string -> option V.

Definition mapSet {V : Type} (m : Map V) (k : string) (v : V) : Map V :=
  fun k' => if String.eqb k' k then Some v else m k'.

Definition mapDelete {V : Type} (m : Map V) (k : string) : Map V :=
  fun k' => if String.eqb k' k then None else m k'.

(** [buf[i] = v] for each pair of the list, in order. *)
Fixpoint stores (buf : list byte) (ivs : list (nat * byte)) : option (list byte) :=
  match ivs with
  | [] => Some buf
  | (i, v) :: rest =>
      match store buf i v with
      | Some buf' => stores buf' rest
      | None => None
      end
  end.

Definition withTag (d : Device) (tag : list byte) : Device :=
  {| dev := dev d; deviceProfile := deviceProfile d; dataTypeSetColor := tag;
     log := log d; external := external d; soundErrors := soundErrors d |}.

Definition setRGBProfileField (p : DeviceProfile) (v : string) : DeviceProfile :=
  {| RGBProfile := v; ControlDial := ControlDial p;
     BrightnessLevel := BrightnessLevel p |}.

Section Profiles.

(** Packages [rgb], [keyboards] and [common] are imported. [F] is [float64]
    and [byteOf] the conversion [byte(x)] of a colour component. *)
Variable F : Type.
Variable byteOf : F -> byte.

(** [rgb.Color], the components that are read here. *)
Record RgbColor := { Red : F; Green : F; Blue : F }.

(** [keyboards.Keyboard], the field that is read or written here. *)
Record Keyboard := { Color : RgbColor }.

(** [keyboards.GetKeyboard(key)], [None] for [nil]. *)
Variable GetKeyboard : string -> option Keyboard.
(** [common.IndexOfString(list, item)] *)
Variable IndexOfString : list string -> string -> Z.

(** The further fields of [DeviceProfile] that the functions below read or
    write. [Keyboards] maps to pointers: [Some None] is a key that holds
    [nil]. *)
Record Settings := {
  Profile : string;
  Profiles : list string;
  Keyboards : Map (option Keyboard);
  SleepMode : Z              (* int *)
}.

(** [Device] with these fields of [d.DeviceProfile]; they mean something
    while [deviceProfile] is not [nil]. *)
Record Keeper := {
  device : Device;
  settings : Settings
}.

Definition liftD {A : Type} (m : Go.M Device A) : Go.M Keeper A :=
  fun k => match m (device k) with
           | Some (a, d') => Some (a, {| device := d'; settings := settings k |})
           | None => None
           end.

Definition setSettings (f : Settings -> Settings) : Go.M Keeper unit :=
  Go.modify (fun k => {| device := device k; settings := f (settings k) |}).

(** [saveDeviceProfile] with the further fields: the first save
    ([d.DeviceProfile] nil) writes the default profile, which becomes the
    device's profile; otherwise the fields are written as they are and read
    back. *)
Definition saveDeviceProfile : Go.M Keeper unit :=
  k <- Go.get ;;
  match deviceProfile (device k) with
  | Some _ => liftD K65PlusW.saveDeviceProfile
  | None =>
      liftD K65PlusW.saveDeviceProfile ;;;
      setSettings (fun _ =>
        {| Profile := "default"; Profiles := ["default"%string];
           Keyboards := mapSet (fun _ => None) "default" (GetKeyboard defaultLayout);
           SleepMode := 15 |})
  end.

(** The body shared by the cases of [setDeviceColor]: the package variable
    [dataTypeSetColor] is set, then [writeColor] is called. *)
Definition sendColor (tag buf : list byte) : Go.M Keeper unit :=
  liftD (Go.modify (fun d => withTag d tag) ;;; writeColor buf).

(** A case of [setDeviceColor] that does not read the keyboard. *)
Definition colorCase (key : option (option Keyboard)) (size : nat)
    (ivs : list (nat * byte)) (tag : list byte) : Go.M Keeper unit :=
  match key with
  | Some _ =>
      buf <- Go.checked (stores (make size) ivs) ;;
      sendColor tag buf
  | None => Go.ret tt
  end.

(** [setDeviceColor] *)
Definition setDeviceColor : Go.M Keeper unit :=
  k <- Go.get ;;
  match deviceProfile (device k) with
  | None =>
      liftD (logger Error "Unable to set color. DeviceProfile is null!")
  | Some dp =>
      let key := Keyboards (settings k) (Profile (settings k)) in
      let name := RGBProfile dp in
      if String.eqb name "off" then
        colorCase key 93 [(3, x01); (4, xff); (5, x00); (6, x00); (7, x00)]%nat
                  [x7e; x20; x01]
      else if String.eqb name "keyboard" then
        match key with
        | Some keyboard =>
            buf <- Go.checked (stores (make 93) [(3, x01); (4, xff)]%nat) ;;
            (* keyboard.Color on a nil keyboard *)
            kb <- Go.checked keyboard ;;
            buf <- Go.checked
                     (stores buf [(5, byteOf (Blue (Color kb)));
                                  (6, byteOf (Green (Color kb)));
                                  (7, byteOf (Red (Color kb)))]%nat) ;;
            sendColor [x7e; x20; x01] buf
        | None => Go.ret tt
        end
      else if String.eqb name "rain" then
        colorCase key 89 [] [x7e; xa0; x02; x04; x01]
      else if String.eqb name "tlk" then
        colorCase key 89 [] [xf9; xb1; x02; x04]
      else if String.eqb name "tlr" then
        colorCase key 89 [] [xa2; x09; x02; x04]
      else if String.eqb name "spiralrainbow" then
        colorCase key 89 [] [x87; xab; x00; x04; x06]
      else if String.eqb name "colorpulse" then
        colorCase key 89 [] [x4f; xad; x02; x04]
      else if String.eqb name "colorshift" then
        colorCase key 89 [] [xfa; xa5; x02; x04]
      else if String.eqb name "colorwave" then
        colorCase key 89 [] [xff; x7b; x02; x04; x04]
      else if String.eqb name "rainbowwave" then
        colorCase key 89 [] [x4c; xb9; x00; x04; x04]
      else if String.eqb name "watercolor" then
        colorCase key 93 [(2, x01); (3, xff); (4, xff); (5, xff); (6, xff)]%nat
                  [x22; x00; x03; x04]
      else Go.ret tt
  end.

(** [UpdateRgbProfile]; [d.activeRgb] is never set in this package, so the
    branch that stops a running effect is not taken. *)
Definition UpdateRgbProfile (profile : string) : Go.M Keeper Z :=
  if negb (Contains RGBModes profile) then
    liftD (logger Warn "Non-existing RGB profile") ;;;
    Go.ret 0
  else
    k <- Go.get ;;
    dp <- Go.checked (deviceProfile (device k)) ;;
    liftD (Go.modify (fun d =>
             withProfile d (Some (setRGBProfileField dp profile)))) ;;;
    saveDeviceProfile ;;;
    setDeviceColor ;;;
    Go.ret 1.

(** [getCurrentKeyboard] *)
Definition getCurrentKeyboard : Go.M Keeper (option Keyboard) :=
  k <- Go.get ;;
  _ <- Go.checked (deviceProfile (device k)) ;;
  match Keyboards (settings k) (Profile (settings k)) with
  | Some keyboard => Go.ret keyboard
  | None => Go.ret None
  end.

(** [SaveKeyboardProfile] *)
Definition SaveKeyboardProfile (profileName : string) (new : bool)
  : Go.M Keeper Z :=
  if new then
    k <- Go.get ;;
    match deviceProfile (device k) with
    | None => Go.ret 0
    | Some _ =>
        if Contains (Profiles (settings k)) profileName then Go.ret 2
        else
          match Keyboards (settings k) profileName with
          | Some _ => Go.ret 2
          | None =>
              setSettings (fun s =>
                {| Profile := Profile s; Profiles := Profiles s ++ [profileName];
                   Keyboards := Keyboards s; SleepMode := SleepMode s |}) ;;;
              cur <- getCurrentKeyboard ;;
              setSettings (fun s =>
                {| Profile := Profile s; Profiles := Profiles s;
                   Keyboards := mapSet (Keyboards s) profileName cur;
                   SleepMode := SleepMode s |}) ;;;
              saveDeviceProfile ;;;
              Go.ret 1
          end
    end
  else
    saveDeviceProfile ;;;
    Go.ret 1.

(** [UpdateKeyboardProfile] *)
Definition UpdateKeyboardProfile (profileName : string) : Go.M Keeper Z :=
  k <- Go.get ;;
  match deviceProfile (device k) with
  | None => Go.ret 0
  | Some _ =>
      if negb (Contains (Profiles (settings k)) profileName) then Go.ret 2
      else
        match Keyboards (settings k) profileName with
        | None => Go.ret 2
        | Some _ =>
            setSettings (fun s =>
              {| Profile := profileName; Profiles := Profiles s;
                 Keyboards := Keyboards s; SleepMode := SleepMode s |}) ;;;
            saveDeviceProfile ;;;
            setDeviceColor ;;;
            Go.ret 1
        end
  end.

(** [append(l[:index], l[index+1:]...)]; the slice expressions panic when
    [index + 1] is beyond the length. *)
Definition removeAt (l : list string) (index : Z) : option (list string) :=
  if (0 <=? index) && (index + 1 <=? Z.of_nat (length l)) then
    Some (firstn (Z.to_nat index) l ++ skipn (Z.to_nat index + 1) l)
  else None.

(** [DeleteKeyboardProfile] *)
Definition DeleteKeyboardProfile (profileName : string) : Go.M Keeper Z :=
  k <- Go.get ;;
  match deviceProfile (device k) with
  | None => Go.ret 0
  | Some _ =>
      if String.eqb profileName "default" then Go.ret 3
      else if negb (Contains (Profiles (settings k)) profileName) then Go.ret 2
      else
        match Keyboards (settings k) profileName with
        | None => Go.ret 2
        | Some _ =>
            let index := IndexOfString (Profiles (settings k)) profileName in
            if index <? 0 then Go.ret 0
            else
              profiles <- Go.checked (removeAt (Profiles (settings k)) index) ;;
              setSettings (fun s =>
                {| Profile := "default"; Profiles := profiles;
                   Keyboards := mapDelete (Keyboards s) profileName;
                   SleepMode := SleepMode s |}) ;;;
              saveDeviceProfile ;;;
              setDeviceColor ;;;
              Go.ret 1
        end
  end.

(** [UpdateDeviceColor]; the assignment to [.Color] goes through the
    pointer that the map holds, a nil dereference when the key holds [nil].
    The profile is not saved. *)
Definition UpdateDeviceColor (keyOption : Z) (color : RgbColor) : Go.M Keeper Z :=
  k <- Go.get ;;
  match deviceProfile (device k) with
  | None => Go.ret 0
  | Some _ =>
      if keyOption =? 2 then
        match Keyboards (settings k) (Profile (settings k)) with
        | Some keyboard =>
            _ <- Go.checked keyboard ;;
            setSettings (fun s =>
              {| Profile := Profile s; Profiles := Profiles s;
                 Keyboards := mapSet (Keyboards s) (Profile s)
                                (Some {| Color := color |});
                 SleepMode := SleepMode s |}) ;;;
            setDeviceColor ;;;
            Go.ret 1
        | None => Go.ret 0
        end
      else Go.ret 0
  end.

(** [setSleepTimer] *)
Definition setSleepTimer : Go.M Keeper Z :=
  k <- Go.get ;;
  match deviceProfile (device k) with
  | Some _ =>
      let sleep := K65Plus.wrapInt (SleepMode (settings k) * (60 * 1000)) in
      buf <- Go.checked (PutUint32 (make 4) (wrap32 sleep)) ;;
      r <- liftD (transfer cmdSleep buf (byte_of_Z cmdKeyboard)) ;;
      match r with
      | Failed =>
          liftD (logger Warn "Unable to change device sleep timer") ;;;
          Go.ret 0
      | Replied _ => Go.ret 1
      end
  | None => Go.ret 0
  end.

(** [UpdateSleepTimer] *)
Definition UpdateSleepTimer (minutes : Z) : Go.M Keeper Z :=
  k <- Go.get ;;
  match deviceProfile (device k) with
  | Some _ =>
      setSettings (fun s =>
        {| Profile := Profile s; Profiles := Profiles s;
           Keyboards := Keyboards s; SleepMode := minutes |}) ;;;
      saveDeviceProfile ;;;
      setSleepTimer ;;;
      Go.ret 1
  | None => Go.ret 0
  end.

End Profiles.

End K65PlusWProfile.

(* ------------------------------------------------------------------ *)
(** ** Vocabulary of the statements on the wireless colour modes       *)
(* ------------------------------------------------------------------ *)

Module Colour.
Import Common.

(** The reports of one colour write of the wireless package, for the tag
    and the payload it frames. *)
Definition packet (tag payload : list byte) : list (list byte) :=
  Wire.colorReports (byte_of_Z K65PlusW.cmdKeyboard)
    K65PlusW.cmdWriteColor K65PlusW.dataTypeSubColor
    (ProcessMultiChunkPacket
       (Wire.framed (wrap16 (Z.of_nat (length payload))) tag payload)
       maxBufferSizePerRequest).

(** A keyboard whose colour is given by its three components. *)
Definition keyboardOf {F : Type} (r g b : F) : K65PlusWProfile.Keyboard F :=
  {| K65PlusWProfile.Color :=
       {| K65PlusWProfile.Red := r; K65PlusWProfile.Green := g;
          K65PlusWProfile.Blue := b |} |}.

(** Colour components that are bytes already, and a package [keyboards]
    that knows no layout. *)
Definition plain (b : byte) : byte := b.

Definition noLayout (_ : string) : option (K65PlusWProfile.Keyboard byte) := None.

(** The sample wireless keyboard with one keyboard profile, "default", that
    holds [keyboard] (or [nil]), a sleep time of 15 minutes, and colour
    components that are bytes already. *)
Definition keeper (effect : string) (keyboard : option (K65PlusWProfile.Keyboard byte))
    (script : list IoOutcome) : K65PlusWProfile.Keeper byte :=
  {| K65PlusWProfile.device :=
       {| K65PlusW.dev := {| written := []; pending := script |};
          K65PlusW.deviceProfile :=
            Some {| K65PlusW.RGBProfile := effect; K65PlusW.ControlDial := 2;
                    K65PlusW.BrightnessLevel := 1000 |};
          K65PlusW.dataTypeSetColor := K65PlusW.dataTypeSetColorInit;
          K65PlusW.log := []; K65PlusW.external := [];
          K65PlusW.soundErrors := [] |};
     K65PlusWProfile.settings :=
       {| K65PlusWProfile.Profile := "default";
          K65PlusWProfile.Profiles := ["default"%string];
          K65PlusWProfile.Keyboards :=
            K65PlusWProfile.mapSet (fun _ => None) "default" keyboard;
          K65PlusWProfile.SleepMode := 15 |} |}.

(** A package [keyboards] that knows the default layout only. *)
Definition usLayout (keyboard : K65PlusWProfile.Keyboard byte) (key : string)
  : option (K65PlusWProfile.Keyboard byte) :=
  if String.eqb key K65PlusWProfile.defaultLayout then Some keyboard else None.

(** A stand-in for [common.IndexOfString]: the first index at which the item
    stands, -1 when it is not in the list. *)
Fixpoint indexFrom (i : Z) (l : list string) (x : string) : Z :=
  match l with
  | [] => -1
  | y :: rest => if String.eqb x y then i else indexFrom (i + 1) rest x
  end.

Definition indexOf (l : list string) (x : string) : Z := indexFrom 0 l x.

(** The same keyboard before its first save: no device profile yet. *)
Definition bare (k : K65PlusWProfile.Keeper byte) : K65PlusWProfile.Keeper byte :=
  {| K65PlusWProfile.device :=
       K65PlusW.withProfile (K65PlusWProfile.device k) None;
     K65PlusWProfile.settings := K65PlusWProfile.settings k |}.

(** The same keyboard with [name] as its current keyboard profile. *)
Definition onProfile (k : K65PlusWProfile.Keeper byte) (name : string)
  : K65PlusWProfile.Keeper byte :=
  {| K65PlusWProfile.device := K65PlusWProfile.device k;
     K65PlusWProfile.settings :=
       {| K65PlusWProfile.Profile := name;
          K65PlusWProfile.Profiles :=
            K65PlusWProfile.Profiles (K65PlusWProfile.settings k);
          K65PlusWProfile.Keyboards :=
            K65PlusWProfile.Keyboards (K65PlusWProfile.settings k);
          K65PlusWProfile.SleepMode :=
            K65PlusWProfile.SleepMode (K65PlusWProfile.settings k) |} |}.

End Colour.

(* ------------------------------------------------------------------ *)
(** ** Both packages: the choice of the device profile                 *)
(* ------------------------------------------------------------------ *)

From Stdlib Require Import Permutation.

Module Stored.

Section GetDeviceProfile.

(** [P] stands for [*DeviceProfile], [Active] for its field. *)
Variable P : Type.
Variable Active : P -> bool.

(** [getDeviceProfile], for the values of [d.UserProfiles] in the order in
    which [range] visits them (Go leaves the order of a map open) and the
    value of [d.DeviceProfile] before the call: [d.DeviceProfile]
    afterwards, and whether the warning was logged. *)
Definition getDeviceProfile (userProfiles : list P) (current : option P)
  : option P * bool :=
  match userProfiles with
  | [] => (current, true)
  | _ :: _ =>
      (fold_left (fun cur pf => if Active pf then Some pf else cur)
                 userProfiles current,
       false)
  end.

End GetDeviceProfile.

End Stored.

(* ================================================================== *)
(** * Properties                                                       *)
(* ================================================================== *)

Import Common.
Unset Implicit Arguments.

(** ** Bytes, slices and the length header *)

Lemma Z_of_byte_of_Z (z : Z) : Z_of_byte (byte_of_Z z) = z mod 256.
Proof.
  unfold Z_of_byte, byte_of_Z.
  assert (Hr : 0 <= z mod 256 < 256) by (apply Z.mod_pos_bound; lia).
  destruct (Byte.of_N (Z.to_N (z mod 256))) as [b|] eqn:E.
  - apply Byte.to_of_N in E. rewrite E. lia.
  - apply Byte.of_N_None_iff in E. lia.
Qed.

Lemma length_make (n : nat) : length (make n) = n.
Proof. apply repeat_length. Qed.

Lemma store_none (s : list byte) (i : nat) (v : byte) :
  (length s <= i)%nat -> store s i v = None.
Proof.
  revert i. induction s as [|b s IH]; intros i Hi; simpl in *; [reflexivity|].
  destruct i as [|i]; [lia|]. rewrite IH by lia. reflexivity.
Qed.

Lemma copyInto_some (dst : list byte) (lo hi : nat) (src : list byte) :
  (lo <= hi <= length dst)%nat ->
  copyInto dst lo hi src
  = Some (firstn lo dst ++ firstn (Nat.min (hi - lo) (length src)) src
            ++ skipn (lo + Nat.min (hi - lo) (length src)) dst).
Proof.
  intros [H1 H2]. unfold copyInto.
  apply Nat.leb_le in H1. apply Nat.leb_le in H2. rewrite H1, H2. reflexivity.
Qed.

Lemma copyInto_length (dst : list byte) (lo hi : nat) (src out : list byte) :
  copyInto dst lo hi src = Some out -> length out = length dst.
Proof.
  unfold copyInto.
  destruct (Nat.leb lo hi && Nat.leb hi (length dst))%bool eqn:E; [|discriminate].
  apply andb_true_iff in E. destruct E as [H1 H2].
  apply Nat.leb_le in H1. apply Nat.leb_le in H2.
  intros H. inversion H; subst; clear H.
  rewrite !length_app, length_firstn, length_firstn, length_skipn. lia.
Qed.

(** A whole-slice copy of as many bytes as the slice holds replaces it. *)
Lemma copyInto_exact (dst : list byte) (lo : nat) (src : list byte) :
  (lo + length src <= length dst)%nat ->
  copyInto dst lo (lo + length src) src
  = Some (firstn lo dst ++ src ++ skipn (lo + length src) dst).
Proof.
  intros H. rewrite copyInto_some by lia.
  replace (lo + length src - lo)%nat with (length src) by lia.
  rewrite Nat.min_id, firstn_all. reflexivity.
Qed.

Lemma skipn_repeat (n k : nat) (b : byte) : skipn k (repeat b n) = repeat b (n - k).
Proof.
  revert k. induction n as [|n IH]; intros [|k]; simpl; auto.
Qed.

Lemma copyInto_inv (dst : list byte) (lo hi : nat) (src out : list byte) :
  copyInto dst lo hi src = Some out ->
  (lo <= hi <= length dst)%nat /\
  out = firstn lo dst ++ firstn (Nat.min (hi - lo) (length src)) src
          ++ skipn (lo + Nat.min (hi - lo) (length src)) dst.
Proof.
  unfold copyInto.
  destruct (Nat.leb lo hi && Nat.leb hi (length dst))%bool eqn:E; [|discriminate].
  apply andb_true_iff in E. destruct E as [H1 H2].
  apply Nat.leb_le in H1. apply Nat.leb_le in H2.
  intros H. inversion H. split; [lia|reflexivity].
Qed.

Lemma little_endian_16 (v : Z) :
  Z_of_byte (byte_of_Z v) + 256 * Z_of_byte (byte_of_Z (v / 256)) = v mod 65536.
Proof.
  rewrite !Z_of_byte_of_Z.
  pose proof (Z.mod_pos_bound (v / 256) 256 ltac:(lia)) as H1.
  pose proof (Z.mod_pos_bound v 256 ltac:(lia)) as H0.
  change 65536 with (256 * 256).
  rewrite Z.rem_mul_r by lia. lia.
Qed.

(** Reading back what [PutUint16] stored gives the value modulo 2^16. *)
Lemma Uint16_PutUint16 (b out : list byte) (v : Z) :
  PutUint16 b v = Some out -> Uint16 out = Some (v mod 65536).
Proof.
  unfold PutUint16. intros H. apply copyInto_inv in H. destruct H as [_ ->].
  cbn [firstn length Nat.sub Nat.min app Uint16].
  now rewrite little_endian_16.
Qed.

(** ** The chunker *)

Lemma chunkLoop_concat (maxChunkSize : nat) :
  (0 < maxChunkSize)%nat ->
  forall fuel data, (length data <= fuel)%nat ->
    concat (chunkLoop fuel data maxChunkSize) = data.
Proof.
  intros Hmax. induction fuel as [|fuel IH]; intros data Hlen.
  - destruct data; simpl in *; [reflexivity|lia].
  - destruct data as [|b rest]; [reflexivity|].
    cbn [chunkLoop].
    destruct (Nat.leb (length (b :: rest)) maxChunkSize) eqn:E.
    + simpl. now rewrite app_nil_r.
    + apply Nat.leb_gt in E.
      cbn [concat]. rewrite IH.
      * apply firstn_skipn.
      * rewrite length_skipn. cbn [length] in *. lia.
Qed.

Lemma chunkLoop_bound (maxChunkSize fuel : nat) (data : list byte) :
  Forall (fun chunk => (length chunk <= maxChunkSize)%nat)
         (chunkLoop fuel data maxChunkSize).
Proof.
  revert data. induction fuel as [|fuel IH]; intros data; [constructor|].
  destruct data as [|b rest]; [constructor|].
  cbn [chunkLoop].
  destruct (Nat.leb (length (b :: rest)) maxChunkSize) eqn:E.
  - apply Nat.leb_le in E. repeat constructor. exact E.
  - constructor; [|apply IH]. rewrite length_firstn. lia.
Qed.

Lemma chunkLoop_single (maxChunkSize fuel : nat) (data : list byte) :
  (0 < length data <= maxChunkSize)%nat -> (0 < fuel)%nat ->
  chunkLoop fuel data maxChunkSize = [data].
Proof.
  intros [H0 H1] Hf. destruct fuel as [|fuel]; [lia|].
  destruct data as [|b rest]; [simpl in H0; lia|].
  cbn [chunkLoop]. apply Nat.leb_le in H1. now rewrite H1.
Qed.

(** The buffer being non-empty, the first chunk is its first
    [maxChunkSize] bytes. *)
Lemma chunkLoop_head (maxChunkSize : nat) (data : list byte) :
  (0 < length data)%nat ->
  exists rest,
    ProcessMultiChunkPacket data maxChunkSize = firstn maxChunkSize data :: rest.
Proof.
  intros H. unfold ProcessMultiChunkPacket.
  destruct data as [|b t]; [simpl in H; lia|].
  cbn [length chunkLoop].
  destruct (Nat.leb (S (length t)) maxChunkSize) eqn:E.
  - apply Nat.leb_le in E. exists []. f_equal.
    symmetry. apply firstn_all2. simpl. lia.
  - eexists. reflexivity.
Qed.

(** ** Reports on the wire *)

Import Wire.

Lemma copyInto_after (pre src : list byte) (n : nat) :
  (length src <= n)%nat ->
  copyInto (pre ++ repeat x00 n) (length pre) (length pre + length src) src
  = Some (pre ++ src ++ repeat x00 (n - length src)).
Proof.
  intros H. rewrite copyInto_exact by (rewrite length_app, repeat_length; lia).
  rewrite firstn_app, firstn_all, Nat.sub_diag, firstn_O, app_nil_r.
  rewrite skipn_app, skipn_all2 by lia.
  replace (length pre + length src - length pre)%nat with (length src) by lia.
  rewrite skipn_repeat. reflexivity.
Qed.

(** The write buffer of [transfer], in closed form; the slice expressions
    stay within the 65 bytes when opcode and payload fit. *)
Lemma bufferW_closed (command : byte) (endpoint buffer : list byte) :
  (length endpoint + length buffer <= 63)%nat ->
  exists w1 w2,
    store (make bufferSizeWrite) 1 command = Some w1 /\
    copyInto w1 headerSize (headerSize + length endpoint) endpoint = Some w2 /\
    (if Nat.ltb 0 (length buffer)
     then copyInto w2 (headerSize + length endpoint)
            (headerSize + length endpoint + length buffer) buffer
     else Some w2) = Some (reportOf command endpoint buffer).
Proof.
  intros H.
  exists ([x00; command] ++ repeat x00 63),
         ([x00; command] ++ endpoint ++ repeat x00 (63 - length endpoint)).
  split; [reflexivity|]. split.
  - change headerSize with (length [x00; command]).
    apply copyInto_after. lia.
  - unfold reportOf. change (bufferSizeWrite - headerSize)%nat with 63%nat.
    destruct (Nat.ltb 0 (length buffer)) eqn:E.
    + rewrite app_assoc.
      replace (headerSize + length endpoint)%nat
        with (length ([x00; command] ++ endpoint))
        by (rewrite length_app; reflexivity).
      rewrite copyInto_after by lia.
      rewrite <- !app_assoc. reflexivity.
    + apply Nat.ltb_ge in E.
      destruct buffer; [|simpl in E; lia].
      simpl length. rewrite Nat.sub_0_r. reflexivity.
Qed.

Lemma opcodeOf_reportOf (command : byte) (endpoint buffer : list byte) :
  length endpoint = 2%nat ->
  opcodeOf (reportOf command endpoint buffer) = endpoint.
Proof.
  intros H. unfold opcodeOf, reportOf. cbn [headerSize app skipn].
  rewrite firstn_app, H, Nat.sub_diag, firstn_O, app_nil_r.
  rewrite <- H. apply firstn_all.
Qed.

Lemma payloadOf_reportOf (command : byte) (endpoint buffer : list byte) :
  length endpoint = 2%nat ->
  payloadOf (length buffer) (reportOf command endpoint buffer) = buffer.
Proof.
  intros H. unfold payloadOf, reportOf.
  destruct endpoint as [|e0 [|e1 [|? ?]]]; try discriminate.
  cbn [headerSize app skipn Nat.add].
  rewrite firstn_app, Nat.sub_diag, firstn_O, app_nil_r. apply firstn_all.
Qed.

Lemma onlyIO_trans (d1 d2 d3 : K65Plus.Device) :
  onlyIO d1 d2 -> onlyIO d2 d3 -> onlyIO d1 d3.
Proof.
  unfold onlyIO. intros (A1 & A2 & A3 & A4) (B1 & B2 & B3 & B4).
  repeat split; congruence.
Qed.

Lemma onlyIOW_trans (d1 d2 d3 : K65PlusW.Device) :
  onlyIOW d1 d2 -> onlyIOW d2 d3 -> onlyIOW d1 d3.
Proof.
  unfold onlyIOW. intros (A1 & A2 & A3 & A4) (B1 & B2 & B3 & B4).
  repeat split; congruence.
Qed.

(** Unfolding of the monad's operations in a goal. *)
Ltac run_monad :=
  cbv beta delta [Go.bind Go.ret Go.checked Go.get Go.modify Go.panic] iota.

(** [transfer] returns whenever opcode and payload fit the report, and hands
    exactly one report to the device. *)
Lemma transfer_wired (endpoint buffer : list byte) (d : K65Plus.Device) :
  (length endpoint + length buffer <= 63)%nat ->
  exists r d',
    K65Plus.transfer endpoint buffer d = Some (r, d') /\
    written (K65Plus.dev d')
      = written (K65Plus.dev d) ++ [reportOf x08 endpoint buffer] /\
    pending (K65Plus.dev d') = snd (nextOutcome (K65Plus.dev d)) /\
    onlyIO d d'.
Proof.
  intros H.
  destruct (bufferW_closed x08 endpoint buffer H) as (w1 & w2 & E1 & E2 & E3).
  unfold K65Plus.transfer. run_monad. rewrite E1, E2.
  assert (E3' : exists w3, w3 = reportOf x08 endpoint buffer /\
             (if Nat.ltb 0 (length buffer)
              then copyInto w2 (headerSize + length endpoint)
                     (headerSize + length endpoint + length buffer) buffer
              else Some w2) = Some w3) by eauto.
  destruct E3' as (w3 & Ew & E3'). clear E3. rewrite <- Ew. clear Ew.
  destruct (Nat.ltb 0 (length buffer));
    [rewrite E3'|injection E3' as ->];
    (destruct (nextOutcome (K65Plus.dev d)) as [outcome rest] eqn:En;
     destruct outcome as [reply| |];
     [ rewrite copyInto_some by (rewrite length_make; lia) | | ];
     eexists _, _; (split; [reflexivity|]); repeat split; reflexivity).
Qed.

(** The same for the wireless package. *)
Lemma transfer_wireless (endpoint buffer : list byte) (command : byte)
    (d : K65PlusW.Device) :
  (length endpoint + length buffer <= 63)%nat ->
  exists r d',
    K65PlusW.transfer endpoint buffer command d = Some (r, d') /\
    written (K65PlusW.dev d')
      = written (K65PlusW.dev d) ++ [reportOf command endpoint buffer] /\
    pending (K65PlusW.dev d') = snd (nextOutcome (K65PlusW.dev d)) /\
    onlyIOW d d'.
Proof.
  intros H.
  destruct (bufferW_closed command endpoint buffer H) as (w1 & w2 & E1 & E2 & E3).
  unfold K65PlusW.transfer. run_monad. rewrite E1, E2.
  assert (E3' : exists w3, w3 = reportOf command endpoint buffer /\
             (if Nat.ltb 0 (length buffer)
              then copyInto w2 (headerSize + length endpoint)
                     (headerSize + length endpoint + length buffer) buffer
              else Some w2) = Some w3) by eauto.
  destruct E3' as (w3 & Ew & E3'). clear E3. rewrite <- Ew. clear Ew.
  destruct (Nat.ltb 0 (length buffer));
    [rewrite E3'|injection E3' as ->];
    (destruct (nextOutcome (K65PlusW.dev d)) as [outcome rest] eqn:En;
     destruct outcome as [reply| |];
     [ rewrite copyInto_some by (rewrite length_make; lia) | | ];
     eexists _, _; (split; [reflexivity|]); repeat split; reflexivity).
Qed.

Lemma sendChunk_wired (i : nat) (chunk : list byte) (d : K65Plus.Device) :
  (length chunk <= maxBufferSizePerRequest)%nat ->
  exists d',
    K65Plus.sendChunk i chunk d = Some (tt, d') /\
    written (K65Plus.dev d')
      = written (K65Plus.dev d)
          ++ [reportOf x08 (if Nat.eqb i 0 then K65Plus.cmdWriteColor
                            else K65Plus.dataTypeSubColor) chunk] /\
    onlyIO d d'.
Proof.
  intros H. unfold maxBufferSizePerRequest in H. unfold K65Plus.sendChunk.
  destruct (Nat.eqb i 0).
  - destruct (transfer_wired K65Plus.cmdWriteColor chunk d)
      as (r & d1 & E & W & _ & K); [simpl; lia|].
    unfold Go.bind. rewrite E.
    destruct r; eexists; (split; [reflexivity|]); split; auto.
  - destruct (transfer_wired K65Plus.dataTypeSubColor chunk d)
      as (r & d1 & E & W & _ & K); [simpl; lia|].
    unfold Go.bind. rewrite E.
    destruct r; eexists; (split; [reflexivity|]); split; auto.
Qed.

Lemma rangeFrom_wired (chunks : list (list byte)) :
  Forall (fun chunk => (length chunk <= maxBufferSizePerRequest)%nat) chunks ->
  forall (k : nat) (d : K65Plus.Device),
  exists d',
    Go.rangeFrom (S k) chunks K65Plus.sendChunk d = Some (tt, d') /\
    written (K65Plus.dev d')
      = written (K65Plus.dev d) ++ map (reportOf x08 K65Plus.dataTypeSubColor) chunks /\
    onlyIO d d'.
Proof.
  induction 1 as [|chunk rest Hc Hrest IH]; intros k d.
  - exists d. cbn. rewrite app_nil_r. repeat split.
  - destruct (sendChunk_wired (S k) chunk d Hc) as (d1 & E1 & W1 & K1).
    destruct (IH (S k) d1) as (d2 & E2 & W2 & K2).
    exists d2. cbn [Go.rangeFrom]. unfold Go.bind at 1. rewrite E1, E2.
    split; [reflexivity|]. split.
    + rewrite W2, W1. cbn [Nat.eqb map]. now rewrite <- app_assoc.
    + eapply onlyIO_trans; eauto.
Qed.

(** The loop of [writeColor] hands one report per chunk to the device, in
    order: the first under [cmdWriteColor], the others under
    [dataTypeSubColor]. *)
Lemma sendChunks_wired (chunks : list (list byte)) (d : K65Plus.Device) :
  Forall (fun chunk => (length chunk <= maxBufferSizePerRequest)%nat) chunks ->
  exists d',
    K65Plus.sendChunks chunks d = Some (tt, d') /\
    written (K65Plus.dev d')
      = written (K65Plus.dev d)
          ++ colorReports x08 K65Plus.cmdWriteColor K65Plus.dataTypeSubColor chunks /\
    onlyIO d d'.
Proof.
  intros H. unfold K65Plus.sendChunks, Go.forRange.
  destruct H as [|chunk rest Hc Hrest].
  - exists d. cbn. rewrite app_nil_r. repeat split.
  - destruct (sendChunk_wired 0 chunk d Hc) as (d1 & E1 & W1 & K1).
    destruct (rangeFrom_wired rest Hrest 0 d1) as (d2 & E2 & W2 & K2).
    exists d2. cbn [Go.rangeFrom]. unfold Go.bind at 1. rewrite E1, E2.
    split; [reflexivity|]. split.
    + rewrite W2, W1. cbn [Nat.eqb colorReports]. now rewrite <- app_assoc.
    + eapply onlyIO_trans; eauto.
Qed.

Lemma sendChunk_wireless (i : nat) (chunk : list byte) (d : K65PlusW.Device) :
  (length chunk <= maxBufferSizePerRequest)%nat ->
  exists d',
    K65PlusW.sendChunk i chunk d = Some (tt, d') /\
    written (K65PlusW.dev d')
      = written (K65PlusW.dev d)
          ++ [reportOf (byte_of_Z K65PlusW.cmdKeyboard) (if Nat.eqb i 0 then K65PlusW.cmdWriteColor
                            else K65PlusW.dataTypeSubColor) chunk] /\
    onlyIOW d d'.
Proof.
  intros H. unfold maxBufferSizePerRequest in H. unfold K65PlusW.sendChunk.
  destruct (Nat.eqb i 0).
  - destruct (transfer_wireless K65PlusW.cmdWriteColor chunk (byte_of_Z K65PlusW.cmdKeyboard) d)
      as (r & d1 & E & W & _ & K); [simpl; lia|].
    unfold Go.bind. rewrite E.
    destruct r; eexists; (split; [reflexivity|]); split; auto.
  - destruct (transfer_wireless K65PlusW.dataTypeSubColor chunk (byte_of_Z K65PlusW.cmdKeyboard) d)
      as (r & d1 & E & W & _ & K); [simpl; lia|].
    unfold Go.bind. rewrite E.
    destruct r; eexists; (split; [reflexivity|]); split; auto.
Qed.

Lemma rangeFrom_wireless (chunks : list (list byte)) :
  Forall (fun chunk => (length chunk <= maxBufferSizePerRequest)%nat) chunks ->
  forall (k : nat) (d : K65PlusW.Device),
  exists d',
    Go.rangeFrom (S k) chunks K65PlusW.sendChunk d = Some (tt, d') /\
    written (K65PlusW.dev d')
      = written (K65PlusW.dev d) ++ map (reportOf (byte_of_Z K65PlusW.cmdKeyboard) K65PlusW.dataTypeSubColor) chunks /\
    onlyIOW d d'.
Proof.
  induction 1 as [|chunk rest Hc Hrest IH]; intros k d.
  - exists d. cbn. rewrite app_nil_r. repeat split.
  - destruct (sendChunk_wireless (S k) chunk d Hc) as (d1 & E1 & W1 & K1).
    destruct (IH (S k) d1) as (d2 & E2 & W2 & K2).
    exists d2. cbn [Go.rangeFrom]. unfold Go.bind at 1. rewrite E1, E2.
    split; [reflexivity|]. split.
    + rewrite W2, W1. cbn [Nat.eqb map]. now rewrite <- app_assoc.
    + eapply onlyIOW_trans; eauto.
Qed.

(** The loop of [writeColor] hands one report per chunk to the device, in
    order: the first under [cmdWriteColor], the others under
    [dataTypeSubColor]. *)
Lemma sendChunks_wireless (chunks : list (list byte)) (d : K65PlusW.Device) :
  Forall (fun chunk => (length chunk <= maxBufferSizePerRequest)%nat) chunks ->
  exists d',
    K65PlusW.sendChunks chunks d = Some (tt, d') /\
    written (K65PlusW.dev d')
      = written (K65PlusW.dev d)
          ++ colorReports (byte_of_Z K65PlusW.cmdKeyboard) K65PlusW.cmdWriteColor K65PlusW.dataTypeSubColor chunks /\
    onlyIOW d d'.
Proof.
  intros H. unfold K65PlusW.sendChunks, Go.forRange.
  destruct H as [|chunk rest Hc Hrest].
  - exists d. cbn. rewrite app_nil_r. repeat split.
  - destruct (sendChunk_wireless 0 chunk d Hc) as (d1 & E1 & W1 & K1).
    destruct (rangeFrom_wireless rest Hrest 0 d1) as (d2 & E2 & W2 & K2).
    exists d2. cbn [Go.rangeFrom]. unfold Go.bind at 1. rewrite E1, E2.
    split; [reflexivity|]. split.
    + rewrite W2, W1. cbn [Nat.eqb colorReports]. now rewrite <- app_assoc.
    + eapply onlyIOW_trans; eauto.
Qed.

(** ** The framed buffer *)

(** The three buffer operations that both [writeColor]s share, in closed
    form: none of the slice expressions is out of range. *)
Lemma frame_closed (tag buf : list byte) (v : Z) :
  exists b1 b2,
    PutUint16 (make (length tag + length buf + headerWriteSize)) v = Some b1 /\
    copyInto b1 headerWriteSize (headerWriteSize + length tag) tag = Some b2 /\
    copyInto b2 (headerWriteSize + length tag) (length b2) buf
      = Some (framed v tag buf).
Proof.
  set (lo := byte_of_Z v). set (hi := byte_of_Z (v / 256)).
  exists ([lo; hi; x00; x00] ++ repeat x00 (length tag + length buf)),
         (([lo; hi; x00; x00] ++ tag) ++ repeat x00 (length buf)).
  split; [|split].
  - unfold PutUint16, make, headerWriteSize.
    replace (length tag + length buf + 4)%nat
      with (S (S (S (S (length tag + length buf))))) by lia.
    reflexivity.
  - change headerWriteSize with (length [lo; hi; x00; x00]).
    rewrite copyInto_after by lia.
    replace (length tag + length buf - length tag)%nat with (length buf) by lia.
    now rewrite app_assoc.
  - replace (headerWriteSize + length tag)%nat
      with (length ([lo; hi; x00; x00] ++ tag))
      by (rewrite length_app; reflexivity).
    replace (length (([lo; hi; x00; x00] ++ tag) ++ repeat x00 (length buf)))
      with (length ([lo; hi; x00; x00] ++ tag) + length buf)%nat
      by (rewrite (length_app _ (repeat _ _)), repeat_length; reflexivity).
    rewrite copyInto_after by lia.
    rewrite Nat.sub_diag. cbn [repeat]. rewrite app_nil_r.
    unfold framed. now rewrite <- app_assoc.
Qed.

Lemma store345 (data : list byte) :
  (6 <= length data)%nat ->
  exists b1 b2,
    store data 3 x00 = Some b1 /\ store b1 4 x00 = Some b2 /\
    store b2 5 x00 = Some (cleared345 data).
Proof.
  intros H.
  destruct data as [|a0 [|a1 [|a2 [|a3 [|a4 [|a5 rest]]]]]];
    cbn [length] in H; try lia.
  eexists _, _. repeat split; reflexivity.
Qed.

Lemma length_cleared345 (data : list byte) :
  (6 <= length data)%nat -> length (cleared345 data) = length data.
Proof.
  intros H. unfold cleared345.
  rewrite !length_app, length_firstn, length_skipn. cbn [length]. lia.
Qed.

(** [writeColor] of the wired package frames exactly the payloads of six
    bytes or more; on a shorter one the first out-of-range store panics. *)
Lemma frameColor_wired (data : list byte) :
  (6 <= length data)%nat ->
  K65Plus.frameColor data
  = Some (cleared345 data,
          framed (wrap16 (Z.of_nat (length data) + 2))
                 K65Plus.dataTypeSetColor (cleared345 data)).
Proof.
  intros H. unfold K65Plus.frameColor.
  destruct (store345 data H) as (b1 & b2 & E1 & E2 & E3).
  rewrite E1, E2, E3.
  destruct (frame_closed K65Plus.dataTypeSetColor (cleared345 data)
              (wrap16 (Z.of_nat (length (cleared345 data)) + 2)))
    as (f1 & f2 & F1 & F2 & F3).
  cbv zeta. rewrite F1, F2, F3.
  now rewrite length_cleared345.
Qed.

Lemma frameColor_wired_short (data : list byte) :
  (length data < 6)%nat -> K65Plus.frameColor data = None.
Proof.
  intros H. unfold K65Plus.frameColor.
  destruct data as [|a0 [|a1 [|a2 [|a3 [|a4 [|a5 rest]]]]]];
    cbn [length] in H; try lia; reflexivity.
Qed.

(** [writeColor] of the wireless package frames every payload. *)
Lemma frameColor_wireless (tag data : list byte) :
  K65PlusW.frameColor tag data
  = Some (framed (wrap16 (Z.of_nat (length data))) tag data).
Proof.
  unfold K65PlusW.frameColor.
  destruct (frame_closed tag data (wrap16 (Z.of_nat (length data))))
    as (f1 & f2 & F1 & F2 & F3).
  cbv zeta. rewrite F1, F2. exact F3.
Qed.

(** ** [writeColor] *)

Lemma chunks_concat (buffer : list byte) :
  concat (ProcessMultiChunkPacket buffer maxBufferSizePerRequest) = buffer.
Proof.
  unfold ProcessMultiChunkPacket. apply chunkLoop_concat.
  - unfold maxBufferSizePerRequest. lia.
  - lia.
Qed.

Lemma chunks_fit (buffer : list byte) :
  Forall (fun chunk => (length chunk <= maxBufferSizePerRequest)%nat)
         (ProcessMultiChunkPacket buffer maxBufferSizePerRequest).
Proof. apply chunkLoop_bound. Qed.

(** Once the payload is framed, [writeColor] of the wired package returns:
    every chunk fits a report. *)
Lemma writeColor_wired_framed (data buf buffer : list byte) (d : K65Plus.Device) :
  K65Plus.frameColor data = Some (buf, buffer) ->
  exists d',
    K65Plus.writeColor data d = Some (buf, d') /\
    written (K65Plus.dev d')
      = written (K65Plus.dev d)
          ++ colorReports x08 K65Plus.cmdWriteColor K65Plus.dataTypeSubColor
               (ProcessMultiChunkPacket buffer maxBufferSizePerRequest) /\
    onlyIO d d'.
Proof.
  intros F.
  destruct (sendChunks_wired _ d (chunks_fit buffer)) as (d' & E & W & K).
  exists d'. unfold K65Plus.writeColor. run_monad. rewrite F, E. auto.
Qed.

Lemma writeColor_wired (data : list byte) (d : K65Plus.Device) :
  (6 <= length data)%nat ->
  exists d',
    K65Plus.writeColor data d = Some (cleared345 data, d') /\
    written (K65Plus.dev d')
      = written (K65Plus.dev d)
          ++ colorReports x08 K65Plus.cmdWriteColor K65Plus.dataTypeSubColor
               (ProcessMultiChunkPacket
                  (framed (wrap16 (Z.of_nat (length data) + 2))
                          K65Plus.dataTypeSetColor (cleared345 data))
                  maxBufferSizePerRequest) /\
    onlyIO d d'.
Proof.
  intros H. apply writeColor_wired_framed. now apply frameColor_wired.
Qed.

Lemma writeColor_wired_short (data : list byte) (d : K65Plus.Device) :
  (length data < 6)%nat -> K65Plus.writeColor data d = None.
Proof.
  intros H. unfold K65Plus.writeColor. run_monad.
  now rewrite frameColor_wired_short.
Qed.

Lemma writeColor_wireless (data : list byte) (d : K65PlusW.Device) :
  exists d',
    K65PlusW.writeColor data d = Some (tt, d') /\
    written (K65PlusW.dev d')
      = written (K65PlusW.dev d)
          ++ colorReports (byte_of_Z K65PlusW.cmdKeyboard)
               K65PlusW.cmdWriteColor K65PlusW.dataTypeSubColor
               (ProcessMultiChunkPacket
                  (framed (wrap16 (Z.of_nat (length data)))
                          (K65PlusW.dataTypeSetColor d) data)
                  maxBufferSizePerRequest) /\
    onlyIOW d d'.
Proof.
  destruct (sendChunks_wireless _ d
              (chunks_fit (framed (wrap16 (Z.of_nat (length data)))
                                  (K65PlusW.dataTypeSetColor d) data)))
    as (d' & E & W & K).
  exists d'. unfold K65PlusW.writeColor. run_monad.
  rewrite frameColor_wireless, E. auto.
Qed.

Lemma subColor_reports (command : byte) (sub first : list byte)
    (rest : list (list byte)) :
  length sub = 2%nat -> sub <> first ->
  Forall (fun report => opcodeOf report = sub /\ opcodeOf report <> first)
         (map (reportOf command sub) rest).
Proof.
  intros Hl Hd. apply Forall_forall. intros report Hin.
  apply in_map_iff in Hin. destruct Hin as (chunk & <- & _).
  rewrite opcodeOf_reportOf by exact Hl. auto.
Qed.

Lemma two_chunks (chunks : list (list byte)) :
  (1 < length chunks)%nat ->
  exists first rest, chunks = first :: rest /\ rest <> [].
Proof.
  destruct chunks as [|first [|second rest]]; cbn [length]; try lia.
  intros _. exists first, (second :: rest). split; [reflexivity|discriminate].
Qed.

(** C1. Whenever [writeColor] splits a framed buffer into more than one
    chunk, the reports handed to the device are, in order, the first chunk
    under [cmdWriteColor] and each later chunk under [dataTypeSubColor]; the
    two opcodes differ, so no later report carries [cmdWriteColor]. Wired
    package first, wireless package second. *)
Theorem C1_first_chunk_write_color_then_sub_color :
  (forall (data buf buffer : list byte) (d : K65Plus.Device),
     K65Plus.frameColor data = Some (buf, buffer) ->
     (1 < length (ProcessMultiChunkPacket buffer maxBufferSizePerRequest))%nat ->
     exists d' first rest,
       K65Plus.writeColor data d = Some (buf, d') /\
       ProcessMultiChunkPacket buffer maxBufferSizePerRequest = first :: rest /\
       rest <> [] /\
       written (K65Plus.dev d')
         = written (K65Plus.dev d)
             ++ reportOf x08 K65Plus.cmdWriteColor first
             :: map (reportOf x08 K65Plus.dataTypeSubColor) rest /\
       opcodeOf (reportOf x08 K65Plus.cmdWriteColor first) = K65Plus.cmdWriteColor /\
       Forall (fun report => opcodeOf report = K65Plus.dataTypeSubColor /\
                             opcodeOf report <> K65Plus.cmdWriteColor)
              (map (reportOf x08 K65Plus.dataTypeSubColor) rest))
  /\
  (forall (data buffer : list byte) (d : K65PlusW.Device),
     K65PlusW.frameColor (K65PlusW.dataTypeSetColor d) data = Some buffer ->
     (1 < length (ProcessMultiChunkPacket buffer maxBufferSizePerRequest))%nat ->
     exists d' first rest,
       K65PlusW.writeColor data d = Some (tt, d') /\
       ProcessMultiChunkPacket buffer maxBufferSizePerRequest = first :: rest /\
       rest <> [] /\
       written (K65PlusW.dev d')
         = written (K65PlusW.dev d)
             ++ reportOf (byte_of_Z K65PlusW.cmdKeyboard) K65PlusW.cmdWriteColor first
             :: map (reportOf (byte_of_Z K65PlusW.cmdKeyboard)
                              K65PlusW.dataTypeSubColor) rest /\
       opcodeOf (reportOf (byte_of_Z K65PlusW.cmdKeyboard)
                          K65PlusW.cmdWriteColor first)
         = K65PlusW.cmdWriteColor /\
       Forall (fun report => opcodeOf report = K65PlusW.dataTypeSubColor /\
                             opcodeOf report <> K65PlusW.cmdWriteColor)
              (map (reportOf (byte_of_Z K65PlusW.cmdKeyboard)
                             K65PlusW.dataTypeSubColor) rest)).
Proof.
  split.
  - intros data buf buffer d F Hn.
    destruct (writeColor_wired_framed data buf buffer d F) as (d' & E & W & _).
    destruct (two_chunks _ Hn) as (first & rest & Hc & Hr).
    exists d', first, rest. rewrite Hc in W. cbn [colorReports] in W.
    repeat apply conj; auto using opcodeOf_reportOf.
    apply subColor_reports; [reflexivity|discriminate].
  - intros data buffer d F Hn.
    destruct (writeColor_wireless data d) as (d' & E & W & _).
    rewrite frameColor_wireless in F. injection F as F. rewrite F in W.
    destruct (two_chunks _ Hn) as (first & rest & Hc & Hr).
    exists d', first, rest. rewrite Hc in W. cbn [colorReports] in W.
    repeat apply conj; auto using opcodeOf_reportOf.
    apply subColor_reports; [reflexivity|discriminate].
Qed.

(** Witness of C1: a full 371-byte frame on the wired keyboard (seven
    chunks) and a 93-byte payload on the wireless one (two chunks). *)
Lemma C1_witness :
  (exists d' first rest,
     K65Plus.writeColor (Samples.white 371) (Samples.wired "static" 2 1000)
       = Some (cleared345 (Samples.white 371), d') /\
     ProcessMultiChunkPacket
       (framed 373 K65Plus.dataTypeSetColor (cleared345 (Samples.white 371)))
       maxBufferSizePerRequest = first :: rest /\
     rest <> [] /\
     written (K65Plus.dev d')
       = written (K65Plus.dev (Samples.wired "static" 2 1000))
           ++ reportOf x08 K65Plus.cmdWriteColor first
           :: map (reportOf x08 K65Plus.dataTypeSubColor) rest /\
     opcodeOf (reportOf x08 K65Plus.cmdWriteColor first) = K65Plus.cmdWriteColor /\
     Forall (fun report => opcodeOf report = K65Plus.dataTypeSubColor /\
                           opcodeOf report <> K65Plus.cmdWriteColor)
            (map (reportOf x08 K65Plus.dataTypeSubColor) rest))
  /\
  (exists d' first rest,
     K65PlusW.writeColor (Samples.white 93) (Samples.wireless "keyboard" 2 1000)
       = Some (tt, d') /\
     ProcessMultiChunkPacket
       (framed 93 K65PlusW.dataTypeSetColorInit (Samples.white 93))
       maxBufferSizePerRequest = first :: rest /\
     rest <> [] /\
     written (K65PlusW.dev d')
       = written (K65PlusW.dev (Samples.wireless "keyboard" 2 1000))
           ++ reportOf (byte_of_Z K65PlusW.cmdKeyboard) K65PlusW.cmdWriteColor first
           :: map (reportOf (byte_of_Z K65PlusW.cmdKeyboard)
                            K65PlusW.dataTypeSubColor) rest /\
     opcodeOf (reportOf (byte_of_Z K65PlusW.cmdKeyboard)
                        K65PlusW.cmdWriteColor first)
       = K65PlusW.cmdWriteColor /\
     Forall (fun report => opcodeOf report = K65PlusW.dataTypeSubColor /\
                           opcodeOf report <> K65PlusW.cmdWriteColor)
            (map (reportOf (byte_of_Z K65PlusW.cmdKeyboard)
                           K65PlusW.dataTypeSubColor) rest)).
Proof.
  split.
  - apply (proj1 C1_first_chunk_write_color_then_sub_color
             (Samples.white 371) (cleared345 (Samples.white 371))
             (framed 373 K65Plus.dataTypeSetColor (cleared345 (Samples.white 371)))
             (Samples.wired "static" 2 1000)).
    + vm_compute. reflexivity.
    + vm_compute. lia.
  - apply (proj2 C1_first_chunk_write_color_then_sub_color
             (Samples.white 93)
             (framed 93 K65PlusW.dataTypeSetColorInit (Samples.white 93))
             (Samples.wireless "keyboard" 2 1000)).
    + vm_compute. reflexivity.
    + vm_compute. lia.
Defined.

(** C2. Concatenating, in emission order, the chunks that
    [ProcessMultiChunkPacket] cuts with the 61-byte bound gives back the
    framed buffer, whatever its length (0, 1, 61, 62, 371, ...). *)
Theorem C2_chunks_concatenate_to_the_buffer (buffer : list byte) :
  concat (ProcessMultiChunkPacket buffer maxBufferSizePerRequest) = buffer.
Proof.
  unfold ProcessMultiChunkPacket, maxBufferSizePerRequest.
  apply chunkLoop_concat.
  - lia.
  - apply Nat.le_refl.
Qed.

(** C3 as stated fails: on a six-byte payload the wired package writes 8 into
    the length field, not the payload length 6, whereas the wireless package
    writes 6, which is not the length of tag and payload together either; the
    two packages do not follow the same rule. *)
Lemma C3_wired_header_counts_the_tag :
  exists buf buffer bufferW,
    K65Plus.frameColor (repeat x00 6) = Some (buf, buffer) /\
    Uint16 buffer = Some 8 /\
    Uint16 buffer <> Some (Z.of_nat (length (repeat x00 6))) /\
    K65PlusW.frameColor K65PlusW.dataTypeSetColorInit (repeat x00 6)
      = Some bufferW /\
    Uint16 bufferW = Some 6 /\
    Uint16 bufferW
      <> Some (Z.of_nat (length (repeat x00 6)
                         + length K65PlusW.dataTypeSetColorInit)) /\
    Uint16 buffer <> Uint16 bufferW.
Proof.
  eexists _, _, _.
  split; [vm_compute; reflexivity|].
  split; [vm_compute; reflexivity|].
  split; [vm_compute; discriminate|].
  split; [vm_compute; reflexivity|].
  split; [vm_compute; reflexivity|].
  split; [vm_compute; discriminate|].
  vm_compute. discriminate.
Qed.

Lemma Uint16_framed (v : Z) (tag payload : list byte) :
  Uint16 (framed v tag payload) = Some (v mod 65536).
Proof.
  unfold framed. cbn [app Uint16]. now rewrite little_endian_16.
Qed.

(** C3, amended. Every framed buffer starts with a 16-bit little-endian length
    field. For the payloads that the wired [writeColor] frames, the field
    holds the payload length plus 2 (the two bytes of the data-type tag are
    counted), modulo 2^16; the wireless [writeColor] frames every payload and
    the field holds the payload length alone, modulo 2^16. *)
Theorem C3_length_header_per_package :
  (forall data buf buffer : list byte,
     K65Plus.frameColor data = Some (buf, buffer) ->
     firstn 2 buffer
       = [byte_of_Z (wrap16 (Z.of_nat (length data) + 2));
          byte_of_Z (wrap16 (Z.of_nat (length data) + 2) / 256)] /\
     Uint16 buffer = Some ((Z.of_nat (length data) + 2) mod 65536))
  /\
  (forall tag data : list byte,
     exists buffer,
       K65PlusW.frameColor tag data = Some buffer /\
       firstn 2 buffer
         = [byte_of_Z (wrap16 (Z.of_nat (length data)));
            byte_of_Z (wrap16 (Z.of_nat (length data)) / 256)] /\
       Uint16 buffer = Some (Z.of_nat (length data) mod 65536)).
Proof.
  split.
  - intros data buf buffer F.
    destruct (Nat.le_gt_cases 6 (length data)) as [H|H].
    + rewrite frameColor_wired in F by exact H. injection F as _ <-.
      split; [reflexivity|].
      rewrite Uint16_framed. unfold wrap16. now rewrite Z.mod_mod.
    + rewrite frameColor_wired_short in F by exact H. discriminate.
  - intros tag data. eexists. split; [apply frameColor_wireless|].
    split; [reflexivity|].
    rewrite Uint16_framed. unfold wrap16. now rewrite Z.mod_mod.
Qed.

(** Witness of the amended C3: a 371-byte payload, header 373 on the wired
    keyboard and 371 on the wireless one. *)
Lemma C3_witness :
  K65Plus.frameColor (Samples.white 371)
    = Some (cleared345 (Samples.white 371),
            framed 373 K65Plus.dataTypeSetColor (cleared345 (Samples.white 371))) /\
  Uint16 (framed 373 K65Plus.dataTypeSetColor (cleared345 (Samples.white 371)))
    = Some ((Z.of_nat (length (Samples.white 371)) + 2) mod 65536).
Proof.
  assert (F : K65Plus.frameColor (Samples.white 371)
              = Some (cleared345 (Samples.white 371),
                      framed 373 K65Plus.dataTypeSetColor
                             (cleared345 (Samples.white 371))))
    by (vm_compute; reflexivity).
  split; [exact F|].
  exact (proj2 (proj1 C3_length_header_per_package _ _ _ F)).
Defined.

(** C4. A zero-length payload: the wired [writeColor] panics on its first
    store ([buf[3] = 0] on an empty slice) and emits nothing; the wireless
    [writeColor] emits exactly one report, under [cmdWriteColor], that carries
    the length header (zero) and the data-type tag only. *)
Theorem C4_zero_length_payload :
  (forall d : K65Plus.Device, K65Plus.writeColor [] d = None)
  /\
  (forall d : K65PlusW.Device,
     (length (K65PlusW.dataTypeSetColor d) <= 5)%nat ->
     exists d',
       K65PlusW.writeColor [] d = Some (tt, d') /\
       written (K65PlusW.dev d')
         = written (K65PlusW.dev d)
             ++ [reportOf (byte_of_Z K65PlusW.cmdKeyboard) K65PlusW.cmdWriteColor
                          (framed 0 (K65PlusW.dataTypeSetColor d) [])]).
Proof.
  split.
  - intros d. apply writeColor_wired_short. cbn. lia.
  - intros d Htag.
    destruct (writeColor_wireless [] d) as (d' & E & W & _).
    exists d'. split; [exact E|]. rewrite W. f_equal.
    unfold ProcessMultiChunkPacket. rewrite chunkLoop_single.
    + reflexivity.
    + unfold framed, maxBufferSizePerRequest.
      rewrite !length_app. cbn [length]. lia.
    + unfold framed. rewrite !length_app. cbn [length]. lia.
Qed.

(** Witness of C4 for the wireless keyboard and its initial tag. *)
Lemma C4_witness :
  exists d',
    K65PlusW.writeColor [] (Samples.wireless "off" 2 1000) = Some (tt, d') /\
    written (K65PlusW.dev d')
      = [reportOf (byte_of_Z K65PlusW.cmdKeyboard) K65PlusW.cmdWriteColor
                  (framed 0 K65PlusW.dataTypeSetColorInit [])].
Proof.
  apply (proj2 C4_zero_length_payload (Samples.wireless "off" 2 1000)).
  vm_compute. lia.
Defined.

Lemma cleared345_zero (data : list byte) :
  (6 <= length data)%nat ->
  nth_error (cleared345 data) 3 = Some x00 /\
  nth_error (cleared345 data) 4 = Some x00 /\
  nth_error (cleared345 data) 5 = Some x00.
Proof.
  intros H.
  destruct data as [|a0 [|a1 [|a2 [|a3 [|a4 [|a5 rest]]]]]];
    cbn [length] in H; try lia.
  repeat split.
Qed.

Lemma cleared345_other (data : list byte) (i : nat) :
  (6 <= length data)%nat -> i <> 3%nat -> i <> 4%nat -> i <> 5%nat ->
  nth_error (cleared345 data) i = nth_error data i.
Proof.
  intros H H3 H4 H5.
  destruct data as [|a0 [|a1 [|a2 [|a3 [|a4 [|a5 rest]]]]]];
    cbn [length] in H; try lia.
  do 6 (destruct i as [|i]; [reflexivity || congruence|]).
  reflexivity.
Qed.

(** The colour payload starts at offset 10 of the first report: after the
    report-ID slot, the command byte, the opcode, the four header bytes and
    the two tag bytes. *)
Lemma first_report_payload (v : Z) (payload : list byte) (i : nat) :
  (i < 6)%nat -> (6 <= length payload)%nat ->
  nth_error (reportOf x08 K65Plus.cmdWriteColor
               (firstn maxBufferSizePerRequest
                  (framed v K65Plus.dataTypeSetColor payload))) (10 + i)
  = nth_error payload i.
Proof.
  intros Hi H.
  destruct payload as [|a0 [|a1 [|a2 [|a3 [|a4 [|a5 rest]]]]]];
    cbn [length] in H; try lia.
  do 6 (destruct i as [|i]; [reflexivity|]). lia.
Qed.

(** C10. For a payload of six bytes or more, the wired [writeColor] returns,
    and the caller's slice afterwards is the payload with bytes 3, 4 and 5
    zero and every other byte as it was. That cleared slice is what is framed
    and chunked: the chunks concatenate to header, tag and cleared payload,
    and in the first report on the wire (payload from offset 10) the bytes of
    payload indices 3, 4 and 5 are zero. *)
Theorem C10_wired_write_clears_bytes_3_4_5 (data : list byte) (d : K65Plus.Device) :
  (6 <= length data)%nat ->
  exists d' payload chunks first rest,
    K65Plus.writeColor data d = Some (payload, d') /\
    length payload = length data /\
    nth_error payload 3 = Some x00 /\
    nth_error payload 4 = Some x00 /\
    nth_error payload 5 = Some x00 /\
    (forall i, i <> 3%nat -> i <> 4%nat -> i <> 5%nat ->
               nth_error payload i = nth_error data i) /\
    concat chunks
      = framed (wrap16 (Z.of_nat (length data) + 2)) K65Plus.dataTypeSetColor payload /\
    colorReports x08 K65Plus.cmdWriteColor K65Plus.dataTypeSubColor chunks
      = first :: rest /\
    written (K65Plus.dev d') = written (K65Plus.dev d) ++ first :: rest /\
    nth_error first 13 = Some x00 /\
    nth_error first 14 = Some x00 /\
    nth_error first 15 = Some x00.
Proof.
  intros H.
  destruct (writeColor_wired data d H) as (d' & E & W & _).
  destruct (cleared345_zero data H) as (Z3 & Z4 & Z5).
  set (buffer := framed (wrap16 (Z.of_nat (length data) + 2))
                        K65Plus.dataTypeSetColor (cleared345 data)) in *.
  destruct (chunkLoop_head maxBufferSizePerRequest buffer) as (more & Hc).
  { unfold buffer, framed. rewrite length_app. cbn [length]. lia. }
  pose proof (length_cleared345 data H) as Hlen.
  exists d', (cleared345 data),
         (ProcessMultiChunkPacket buffer maxBufferSizePerRequest),
         (reportOf x08 K65Plus.cmdWriteColor (firstn maxBufferSizePerRequest buffer)),
         (map (reportOf x08 K65Plus.dataTypeSubColor) more).
  repeat apply conj; auto.
  - intros i. now apply cleared345_other.
  - apply chunks_concat.
  - now rewrite Hc.
  - now rewrite W, Hc.
  - unfold buffer.
    rewrite (first_report_payload _ (cleared345 data) 3) by lia. exact Z3.
  - unfold buffer.
    rewrite (first_report_payload _ (cleared345 data) 4) by lia. exact Z4.
  - unfold buffer.
    rewrite (first_report_payload _ (cleared345 data) 5) by lia. exact Z5.
Qed.

(** Witness of C10: a full-white 371-byte frame. *)
Lemma C10_witness :
  exists d' payload chunks first rest,
    K65Plus.writeColor (Samples.white 371) (Samples.wired "static" 2 1000)
      = Some (payload, d') /\
    length payload = length (Samples.white 371) /\
    nth_error payload 3 = Some x00 /\
    nth_error payload 4 = Some x00 /\
    nth_error payload 5 = Some x00 /\
    (forall i, i <> 3%nat -> i <> 4%nat -> i <> 5%nat ->
               nth_error payload i = nth_error (Samples.white 371) i) /\
    concat chunks
      = framed (wrap16 (Z.of_nat (length (Samples.white 371)) + 2))
               K65Plus.dataTypeSetColor payload /\
    colorReports x08 K65Plus.cmdWriteColor K65Plus.dataTypeSubColor chunks
      = first :: rest /\
    written (K65Plus.dev d')
      = written (K65Plus.dev (Samples.wired "static" 2 1000)) ++ first :: rest /\
    nth_error first 13 = Some x00 /\
    nth_error first 14 = Some x00 /\
    nth_error first 15 = Some x00.
Proof.
  apply (C10_wired_write_clears_bytes_3_4_5
           (Samples.white 371) (Samples.wired "static" 2 1000)).
  vm_compute. lia.
Defined.

(** ** The animation loop *)

Lemma incr_small (z : Z) :
  - 2 ^ 63 <= z + 1 < 2 ^ 63 -> K65Plus.incr z = z + 1.
Proof.
  intros H. unfold K65Plus.incr, K65Plus.wrapInt.
  rewrite Z.mod_small by lia. lia.
Qed.

Section AnimationFacts.

Variable R : Type.
Variable Profile : Type.
Variable GetRgbProfile : string -> R -> option Profile.
Variable Smoothness : Profile -> Z.
Variable rgbNew : Profile -> R -> R.
Variable render : Profile -> K65Plus.RenderCall -> R -> list byte * R.
Variable regenerate : R -> R.

Local Abbreviation tick :=
  (K65Plus.tick GetRgbProfile Smoothness rgbNew render regenerate).
Local Abbreviation ticks :=
  (K65Plus.ticks GetRgbProfile Smoothness rgbNew render regenerate).
Local Abbreviation effect := (K65Plus.effect Smoothness render regenerate).

(** A tick whose profile does not resolve: the zero buffer it builds is
    dropped by [continue]; only the warning is left behind. *)
Lemma tick_unresolved (lightChannels : Z) (s : K65Plus.Session)
    (e : K65Plus.Engine R) (dp : K65Plus.DeviceProfile) :
  K65Plus.deviceProfile (K65Plus.device e) = Some dp ->
  GetRgbProfile (K65Plus.RGBProfile dp) (K65Plus.rgb e) = None ->
  tick lightChannels s e
  = Some (s, {| K65Plus.device :=
                  K65Plus.withLog (K65Plus.device e)
                    (K65Plus.log (K65Plus.device e)
                       ++ [{| level := Warn;
                              message := "No such RGB profile found" |}]);
                K65Plus.rgb := K65Plus.rgb e;
                K65Plus.rendered := K65Plus.rendered e |}).
Proof.
  intros Hdp Hp. unfold K65Plus.tick. run_monad.
  rewrite Hdp, Hp. reflexivity.
Qed.

(** A tick whose profile resolves: the effect's case, then [writeColor] on
    the buffer it appended to, then the two loop counters. *)
Lemma tick_resolved (lightChannels : Z) (s s1 : K65Plus.Session)
    (e e1 : K65Plus.Engine R) (dp : K65Plus.DeviceProfile) (p : Profile)
    (buff : list byte) :
  K65Plus.deviceProfile (K65Plus.device e) = Some dp ->
  GetRgbProfile (K65Plus.RGBProfile dp) (K65Plus.rgb e) = Some p ->
  effect (K65Plus.RGBProfile dp) p lightChannels
         (K65Plus.LEDChannels (K65Plus.device e)) s []
         {| K65Plus.device := K65Plus.device e;
            K65Plus.rgb := rgbNew p (K65Plus.rgb e);
            K65Plus.rendered := K65Plus.rendered e |}
    = Some ((s1, buff), e1) ->
  (6 <= length buff)%nat ->
  exists d',
    tick lightChannels s e
    = Some (K65Plus.set_wavePosition
              (K65Plus.set_hue s1 (K65Plus.incr (K65Plus.hue s1)))
              (K65Plus.wavePosition s1 + 1),
            {| K65Plus.device := d'; K65Plus.rgb := K65Plus.rgb e1;
               K65Plus.rendered := K65Plus.rendered e1 |}) /\
    onlyIO (K65Plus.device e1) d'.
Proof.
  intros Hdp Hp He Hlen.
  destruct (writeColor_wired buff (K65Plus.device e1) Hlen) as (d' & E & _ & K).
  exists d'. split; [|exact K].
  unfold K65Plus.tick, K65Plus.new_r. run_monad. rewrite Hdp, Hp.
  change (make 0) with (@nil byte). rewrite He.
  unfold K65Plus.liftD. rewrite E. reflexivity.
Qed.


Lemma geb_below (c S : Z) : c < S -> (c >=? S) = false.
Proof. intros H. rewrite Z.geb_leb. apply Z.leb_gt. exact H. Qed.

Lemma geb_reached (c S : Z) : S <= c -> (c >=? S) = true.
Proof. intros H. rewrite Z.geb_leb. apply Z.leb_le. exact H. Qed.

Lemma ticks_app (n m : nat) (lightChannels : Z) (s : K65Plus.Session)
    (e : K65Plus.Engine R) :
  ticks (n + m) lightChannels s e
  = match ticks n lightChannels s e with
    | Some (s', e') => ticks m lightChannels s' e'
    | None => None
    end.
Proof.
  revert s e. induction n as [|n IH]; intros s e; [reflexivity|].
  cbn [Nat.add K65Plus.ticks]. unfold Go.bind.
  destruct (tick lightChannels s e) as [[s1 e1]|]; [apply IH|reflexivity].
Qed.

(** *** colorshift *)

Lemma effect_colorshift_below (p : Profile) (lightChannels channels : Z)
    (s : K65Plus.Session) (e : K65Plus.Engine R) :
  K65Plus.counterColorshift s < Smoothness p ->
  effect "colorshift" p lightChannels channels s [] e
  = Some ((K65Plus.set_counterColorshift s
             (K65Plus.incr (K65Plus.counterColorshift s)),
           fst (render p (K65Plus.Colorshift (K65Plus.counterColorshift s)
                                             (K65Plus.reverse s))
                       (K65Plus.rgb e))),
          {| K65Plus.device := K65Plus.device e;
             K65Plus.rgb :=
               snd (render p (K65Plus.Colorshift (K65Plus.counterColorshift s)
                                                 (K65Plus.reverse s))
                           (K65Plus.rgb e));
             K65Plus.rendered :=
               K65Plus.rendered e
                 ++ [K65Plus.Colorshift (K65Plus.counterColorshift s)
                                        (K65Plus.reverse s)] |}).
Proof.
  intros H. unfold K65Plus.effect. cbn [String.eqb Ascii.eqb Bool.eqb].
  rewrite (geb_below _ _ H). cbn [andb].
  unfold K65Plus.call_r. run_monad.
  destruct (render p _ (K65Plus.rgb e)) as [out r']. reflexivity.
Qed.


Lemma effect_colorshift_reached (p : Profile) (lightChannels channels : Z)
    (s : K65Plus.Session) (e : K65Plus.Engine R) :
  Smoothness p <= K65Plus.counterColorshift s ->
  effect "colorshift" p lightChannels channels s [] e
  = Some ((K65Plus.set_counterColorshift
             (K65Plus.set_reverse (K65Plus.set_counterColorshift s 0)
                                  (negb (K65Plus.reverse s)))
             (K65Plus.incr 0),
           fst (render p (K65Plus.Colorshift 0 (negb (K65Plus.reverse s)))
                       (K65Plus.rgb e))),
          {| K65Plus.device := K65Plus.device e;
             K65Plus.rgb :=
               snd (render p (K65Plus.Colorshift 0 (negb (K65Plus.reverse s)))
                           (K65Plus.rgb e));
             K65Plus.rendered :=
               K65Plus.rendered e
                 ++ [K65Plus.Colorshift 0 (negb (K65Plus.reverse s))] |}).
Proof.
  intros H. unfold K65Plus.effect. cbn [String.eqb Ascii.eqb Bool.eqb].
  rewrite (geb_reached _ _ H). cbn [andb].
  unfold K65Plus.call_r. run_monad.
  destruct (K65Plus.reverse s) eqn:Er; cbn [negb];
    destruct (render p _ (K65Plus.rgb e)) as [out r']; reflexivity.
Qed.

Section Colorshift.

Variable p : Profile.
Variable lightChannels : Z.
Hypothesis resolves : forall r, GetRgbProfile "colorshift" r = Some p.
Hypothesis full_frame : forall c r, (6 <= length (fst (render p c r)))%nat.

Lemma tick_colorshift_below (s : K65Plus.Session) (e : K65Plus.Engine R) :
  running "colorshift" e ->
  K65Plus.counterColorshift s < Smoothness p ->
  exists s' e',
    tick lightChannels s e = Some (s', e') /\
    K65Plus.counterColorshift s' = K65Plus.incr (K65Plus.counterColorshift s) /\
    K65Plus.reverse s' = K65Plus.reverse s /\
    K65Plus.rendered e'
      = K65Plus.rendered e
          ++ [K65Plus.Colorshift (K65Plus.counterColorshift s) (K65Plus.reverse s)] /\
    running "colorshift" e'.
Proof.
  intros (dp & Hdp & Hname) Hc.
  pose proof (effect_colorshift_below p lightChannels
                (K65Plus.LEDChannels (K65Plus.device e)) s
                {| K65Plus.device := K65Plus.device e;
                   K65Plus.rgb := rgbNew p (K65Plus.rgb e);
                   K65Plus.rendered := K65Plus.rendered e |} Hc) as He.
  rewrite <- Hname in He at 1.
  assert (Hp : GetRgbProfile (K65Plus.RGBProfile dp) (K65Plus.rgb e) = Some p)
    by (rewrite Hname; apply resolves).
  destruct (tick_resolved lightChannels s _ e _ dp p _ Hdp Hp He (full_frame _ _))
    as (d' & Et & (K1 & _)).
  eexists _, _. split; [exact Et|].
  repeat apply conj; try reflexivity.
  exists dp. split; [|exact Hname]. cbn. now rewrite K1.
Qed.

Lemma tick_colorshift_reached (s : K65Plus.Session) (e : K65Plus.Engine R) :
  running "colorshift" e ->
  Smoothness p <= K65Plus.counterColorshift s ->
  exists s' e',
    tick lightChannels s e = Some (s', e') /\
    K65Plus.counterColorshift s' = K65Plus.incr 0 /\
    K65Plus.reverse s' = negb (K65Plus.reverse s) /\
    K65Plus.rendered e'
      = K65Plus.rendered e
          ++ [K65Plus.Colorshift 0 (negb (K65Plus.reverse s))] /\
    running "colorshift" e'.
Proof.
  intros (dp & Hdp & Hname) Hc.
  pose proof (effect_colorshift_reached p lightChannels
                (K65Plus.LEDChannels (K65Plus.device e)) s
                {| K65Plus.device := K65Plus.device e;
                   K65Plus.rgb := rgbNew p (K65Plus.rgb e);
                   K65Plus.rendered := K65Plus.rendered e |} Hc) as He.
  rewrite <- Hname in He at 1.
  assert (Hp : GetRgbProfile (K65Plus.RGBProfile dp) (K65Plus.rgb e) = Some p)
    by (rewrite Hname; apply resolves).
  destruct (tick_resolved lightChannels s _ e _ dp p _ Hdp Hp He (full_frame _ _))
    as (d' & Et & (K1 & _)).
  eexists _, _. split; [exact Et|].
  repeat apply conj; try reflexivity.
  exists dp. split; [|exact Hname]. cbn. now rewrite K1.
Qed.


(** While the counter is below the smoothness, each tick renders the
    current counter and adds one to it; the direction stays. *)
Lemma ticks_colorshift_ramp (k : nat) :
  forall (s : K65Plus.Session) (e : K65Plus.Engine R),
  running "colorshift" e ->
  0 <= K65Plus.counterColorshift s ->
  K65Plus.counterColorshift s + Z.of_nat k <= Smoothness p ->
  Smoothness p < 2 ^ 63 ->
  exists s' e',
    ticks k lightChannels s e = Some (s', e') /\
    K65Plus.counterColorshift s' = K65Plus.counterColorshift s + Z.of_nat k /\
    K65Plus.reverse s' = K65Plus.reverse s /\
    K65Plus.rendered e'
      = K65Plus.rendered e
          ++ map (fun i => K65Plus.Colorshift
                             (K65Plus.counterColorshift s + Z.of_nat i)
                             (K65Plus.reverse s))
                 (seq 0 k) /\
    running "colorshift" e'.
Proof.
  induction k as [|k IH]; intros s e Hrun H0 Hk Hb.
  - exists s, e. cbn. rewrite Z.add_0_r, app_nil_r. auto.
  - destruct (tick_colorshift_below s e Hrun ltac:(lia))
      as (s1 & e1 & Et & Ec & Er & Hr & Hrun1).
    rewrite incr_small in Ec by lia.
    destruct (IH s1 e1 Hrun1 ltac:(lia) ltac:(lia) Hb)
      as (s2 & e2 & Ets & Ec2 & Er2 & Hr2 & Hrun2).
    exists s2, e2. split.
    { cbn [K65Plus.ticks]. unfold Go.bind. rewrite Et. exact Ets. }
    split; [lia|]. split; [congruence|]. split; [|assumption].
    rewrite Hr2, Hr, <- app_assoc. f_equal.
    cbn [seq map app]. rewrite Z.add_0_r. f_equal.
    rewrite <- seq_shift, map_map. apply map_ext. intros i.
    rewrite Ec, Er. f_equal. lia.
Qed.

End Colorshift.

(** *** colorwarp *)

Lemma effect_colorwarp_below (p : Profile) (lightChannels channels : Z)
    (s : K65Plus.Session) (e : K65Plus.Engine R) :
  K65Plus.counterColorwarp s < Smoothness p ->
  K65Plus.colorwarpGeneratedReverse s = false ->
  effect "colorwarp" p lightChannels channels s [] e
  = Some ((K65Plus.set_counterColorwarp s
             (K65Plus.incr (K65Plus.counterColorwarp s)),
           fst (render p (K65Plus.Colorwarp
                            (K65Plus.incr (K65Plus.counterColorwarp s)))
                       (K65Plus.rgb e))),
          {| K65Plus.device := K65Plus.device e;
             K65Plus.rgb :=
               snd (render p (K65Plus.Colorwarp
                                (K65Plus.incr (K65Plus.counterColorwarp s)))
                           (K65Plus.rgb e));
             K65Plus.rendered :=
               K65Plus.rendered e
                 ++ [K65Plus.Colorwarp
                       (K65Plus.incr (K65Plus.counterColorwarp s))] |}).
Proof.
  intros H Hg. unfold K65Plus.effect. cbn [String.eqb Ascii.eqb Bool.eqb].
  rewrite (geb_below _ _ H), Hg, andb_false_r.
  unfold K65Plus.call_r. run_monad.
  destruct (render p _ (K65Plus.rgb e)) as [out r']. reflexivity.
Qed.

Lemma effect_colorwarp_reached (p : Profile) (lightChannels channels : Z)
    (s : K65Plus.Session) (e : K65Plus.Engine R) :
  Smoothness p <= K65Plus.counterColorwarp s ->
  K65Plus.colorwarpGeneratedReverse s = false ->
  effect "colorwarp" p lightChannels channels s [] e
  = Some ((K65Plus.set_counterColorwarp
             (K65Plus.set_colorwarpGeneratedReverse s true) 0,
           fst (render p (K65Plus.Colorwarp 0) (regenerate (K65Plus.rgb e)))),
          {| K65Plus.device := K65Plus.device e;
             K65Plus.rgb :=
               snd (render p (K65Plus.Colorwarp 0) (regenerate (K65Plus.rgb e)));
             K65Plus.rendered :=
               K65Plus.rendered e ++ [K65Plus.Colorwarp 0] |}).
Proof.
  intros H Hg. unfold K65Plus.effect. cbn [String.eqb Ascii.eqb Bool.eqb].
  rewrite (geb_reached _ _ H), Hg. cbn [negb].
  unfold K65Plus.call_r, K65Plus.regenerateColors. run_monad.
  cbn [K65Plus.rgb K65Plus.device K65Plus.rendered
       K65Plus.counterColorwarp K65Plus.set_counterColorwarp].
  destruct (render p _ (regenerate (K65Plus.rgb e))) as [out r']. reflexivity.
Qed.

(** The tick after the reset: the counter rests at zero and the flag is
    taken down again. *)
Lemma effect_colorwarp_settle (p : Profile) (lightChannels channels : Z)
    (s : K65Plus.Session) (e : K65Plus.Engine R) :
  0 < Smoothness p ->
  K65Plus.counterColorwarp s = 0 ->
  K65Plus.colorwarpGeneratedReverse s = true ->
  effect "colorwarp" p lightChannels channels s [] e
  = Some ((K65Plus.set_colorwarpGeneratedReverse s false,
           fst (render p (K65Plus.Colorwarp 0) (K65Plus.rgb e))),
          {| K65Plus.device := K65Plus.device e;
             K65Plus.rgb := snd (render p (K65Plus.Colorwarp 0) (K65Plus.rgb e));
             K65Plus.rendered :=
               K65Plus.rendered e ++ [K65Plus.Colorwarp 0] |}).
Proof.
  intros H Hc Hg. unfold K65Plus.effect. cbn [String.eqb Ascii.eqb Bool.eqb].
  rewrite Hc, Hg, (geb_below 0 _ H). cbn [Z.eqb andb].
  unfold K65Plus.call_r. run_monad.
  cbn [K65Plus.counterColorwarp K65Plus.set_colorwarpGeneratedReverse].
  rewrite Hc.
  destruct (render p _ (K65Plus.rgb e)) as [out r']. reflexivity.
Qed.

Section Colorwarp.

Variable p : Profile.
Variable lightChannels : Z.
Hypothesis resolves : forall r, GetRgbProfile "colorwarp" r = Some p.
Hypothesis full_frame : forall c r, (6 <= length (fst (render p c r)))%nat.

Lemma tick_colorwarp_below (s : K65Plus.Session) (e : K65Plus.Engine R) :
  running "colorwarp" e ->
  K65Plus.counterColorwarp s < Smoothness p ->
  K65Plus.colorwarpGeneratedReverse s = false ->
  exists s' e',
    tick lightChannels s e = Some (s', e') /\
    K65Plus.counterColorwarp s' = K65Plus.incr (K65Plus.counterColorwarp s) /\
    K65Plus.colorwarpGeneratedReverse s' = false /\
    K65Plus.rendered e'
      = K65Plus.rendered e
          ++ [K65Plus.Colorwarp (K65Plus.incr (K65Plus.counterColorwarp s))] /\
    running "colorwarp" e'.
Proof.
  intros (dp & Hdp & Hname) Hc Hg.
  pose proof (effect_colorwarp_below p lightChannels
                (K65Plus.LEDChannels (K65Plus.device e)) s
                {| K65Plus.device := K65Plus.device e;
                   K65Plus.rgb := rgbNew p (K65Plus.rgb e);
                   K65Plus.rendered := K65Plus.rendered e |} Hc Hg) as He.
  rewrite <- Hname in He at 1.
  assert (Hp : GetRgbProfile (K65Plus.RGBProfile dp) (K65Plus.rgb e) = Some p)
    by (rewrite Hname; apply resolves).
  destruct (tick_resolved lightChannels s _ e _ dp p _ Hdp Hp He (full_frame _ _))
    as (d' & Et & (K1 & _)).
  eexists _, _. split; [exact Et|].
  repeat apply conj; try reflexivity; [exact Hg|].
  exists dp. split; [|exact Hname]. cbn. now rewrite K1.
Qed.

Lemma tick_colorwarp_reached (s : K65Plus.Session) (e : K65Plus.Engine R) :
  running "colorwarp" e ->
  Smoothness p <= K65Plus.counterColorwarp s ->
  K65Plus.colorwarpGeneratedReverse s = false ->
  exists s' e',
    tick lightChannels s e = Some (s', e') /\
    K65Plus.counterColorwarp s' = 0 /\
    K65Plus.colorwarpGeneratedReverse s' = true /\
    K65Plus.rendered e' = K65Plus.rendered e ++ [K65Plus.Colorwarp 0] /\
    running "colorwarp" e'.
Proof.
  intros (dp & Hdp & Hname) Hc Hg.
  pose proof (effect_colorwarp_reached p lightChannels
                (K65Plus.LEDChannels (K65Plus.device e)) s
                {| K65Plus.device := K65Plus.device e;
                   K65Plus.rgb := rgbNew p (K65Plus.rgb e);
                   K65Plus.rendered := K65Plus.rendered e |} Hc Hg) as He.
  rewrite <- Hname in He at 1.
  assert (Hp : GetRgbProfile (K65Plus.RGBProfile dp) (K65Plus.rgb e) = Some p)
    by (rewrite Hname; apply resolves).
  destruct (tick_resolved lightChannels s _ e _ dp p _ Hdp Hp He (full_frame _ _))
    as (d' & Et & (K1 & _)).
  eexists _, _. split; [exact Et|].
  repeat apply conj; try reflexivity.
  exists dp. split; [|exact Hname]. cbn. now rewrite K1.
Qed.

Lemma tick_colorwarp_settle (s : K65Plus.Session) (e : K65Plus.Engine R) :
  running "colorwarp" e ->
  0 < Smoothness p ->
  K65Plus.counterColorwarp s = 0 ->
  K65Plus.colorwarpGeneratedReverse s = true ->
  exists s' e',
    tick lightChannels s e = Some (s', e') /\
    K65Plus.counterColorwarp s' = 0 /\
    K65Plus.colorwarpGeneratedReverse s' = false /\
    K65Plus.rendered e' = K65Plus.rendered e ++ [K65Plus.Colorwarp 0] /\
    running "colorwarp" e'.
Proof.
  intros (dp & Hdp & Hname) Hs Hc Hg.
  pose proof (effect_colorwarp_settle p lightChannels
                (K65Plus.LEDChannels (K65Plus.device e)) s
                {| K65Plus.device := K65Plus.device e;
                   K65Plus.rgb := rgbNew p (K65Plus.rgb e);
                   K65Plus.rendered := K65Plus.rendered e |} Hs Hc Hg) as He.
  rewrite <- Hname in He at 1.
  assert (Hp : GetRgbProfile (K65Plus.RGBProfile dp) (K65Plus.rgb e) = Some p)
    by (rewrite Hname; apply resolves).
  destruct (tick_resolved lightChannels s _ e _ dp p _ Hdp Hp He (full_frame _ _))
    as (d' & Et & (K1 & _)).
  eexists _, _. split; [exact Et|].
  repeat apply conj; try reflexivity; [exact Hc|].
  exists dp. split; [|exact Hname]. cbn. now rewrite K1.
Qed.

(** While the counter is below the smoothness and the flag is down, each
    tick adds one to the counter and renders the new value. *)
Lemma ticks_colorwarp_ramp (k : nat) :
  forall (s : K65Plus.Session) (e : K65Plus.Engine R),
  running "colorwarp" e ->
  K65Plus.colorwarpGeneratedReverse s = false ->
  0 <= K65Plus.counterColorwarp s ->
  K65Plus.counterColorwarp s + Z.of_nat k <= Smoothness p ->
  Smoothness p < 2 ^ 63 ->
  exists s' e',
    ticks k lightChannels s e = Some (s', e') /\
    K65Plus.counterColorwarp s' = K65Plus.counterColorwarp s + Z.of_nat k /\
    K65Plus.colorwarpGeneratedReverse s' = false /\
    K65Plus.rendered e'
      = K65Plus.rendered e
          ++ map (fun i => K65Plus.Colorwarp
                             (K65Plus.counterColorwarp s + 1 + Z.of_nat i))
                 (seq 0 k) /\
    running "colorwarp" e'.
Proof.
  induction k as [|k IH]; intros s e Hrun Hg H0 Hk Hb.
  - exists s, e. cbn. rewrite Z.add_0_r, app_nil_r. auto.
  - destruct (tick_colorwarp_below s e Hrun ltac:(lia) Hg)
      as (s1 & e1 & Et & Ec & Eg & Hr & Hrun1).
    rewrite incr_small in Ec, Hr by lia.
    destruct (IH s1 e1 Hrun1 Eg ltac:(lia) ltac:(lia) Hb)
      as (s2 & e2 & Ets & Ec2 & Eg2 & Hr2 & Hrun2).
    exists s2, e2. split.
    { cbn [K65Plus.ticks]. unfold Go.bind. rewrite Et. exact Ets. }
    split; [lia|]. split; [assumption|]. split; [|assumption].
    rewrite Hr2, Hr, <- app_assoc. f_equal.
    cbn [seq map app]. rewrite Z.add_0_r. f_equal.
    rewrite <- seq_shift, map_map. apply map_ext. intros i.
    rewrite Ec. f_equal. lia.
Qed.

End Colorwarp.

(** An effect that the table of package [rgb] resolves but the [switch] does
    not list leaves [buff] empty, and [writeColor] panics on it: a zero-length
    payload does reach the wired [writeColor]. *)
Lemma tick_unlisted_effect_panics (lightChannels : Z) (s : K65Plus.Session)
    (e : K65Plus.Engine R) (dp : K65Plus.DeviceProfile) (p : Profile) :
  K65Plus.deviceProfile (K65Plus.device e) = Some dp ->
  K65Plus.RGBProfile dp = "marquee"%string ->
  GetRgbProfile "marquee" (K65Plus.rgb e) = Some p ->
  tick lightChannels s e = None.
Proof.
  intros Hdp Hname Hp. unfold K65Plus.tick. run_monad.
  rewrite Hdp, Hname, Hp. reflexivity.
Qed.

(** C5. On a tick whose profile name does not resolve, the loop does not
    panic, logs the warning and goes on with the session as it was; but the
    all-zero buffer it has built is dropped by [continue] before
    [writeColor]: nothing is handed to the device. *)
Theorem C5_unresolved_profile_tick_writes_nothing (lightChannels : Z)
    (s : K65Plus.Session) (e : K65Plus.Engine R) (dp : K65Plus.DeviceProfile) :
  K65Plus.deviceProfile (K65Plus.device e) = Some dp ->
  GetRgbProfile (K65Plus.RGBProfile dp) (K65Plus.rgb e) = None ->
  exists e',
    tick lightChannels s e = Some (s, e') /\
    written (K65Plus.dev (K65Plus.device e'))
      = written (K65Plus.dev (K65Plus.device e)) /\
    K65Plus.log (K65Plus.device e')
      = K65Plus.log (K65Plus.device e)
          ++ [{| level := Warn; message := "No such RGB profile found" |}] /\
    K65Plus.rendered e' = K65Plus.rendered e.
Proof.
  intros Hdp Hp. eexists. split; [apply (tick_unresolved _ _ _ dp Hdp Hp)|].
  repeat apply conj; reflexivity.
Qed.

(** C6, amended. With smoothness 10, from counter 0 and flag down: after each
    of the first ten ticks the flag is still down and the counter equals the
    number of ticks made, 10 after the tenth. The eleventh tick resets the
    counter and raises the flag for the first time: colorshift renders it at
    counter 0 with [reverse] set and leaves the counter at 1; colorwarp leaves
    the counter at 0 with [colorwarpGeneratedReverse] set. *)
Theorem C6_reset_and_toggle_on_the_eleventh_tick (p : Profile)
    (lightChannels : Z) (s : K65Plus.Session) (e : K65Plus.Engine R) :
  Smoothness p = 10 ->
  (forall c r, (6 <= length (fst (render p c r)))%nat) ->
  (running "colorshift" e ->
   (forall r, GetRgbProfile "colorshift" r = Some p) ->
   K65Plus.counterColorshift s = 0 -> K65Plus.reverse s = false ->
   (forall k, (k <= 10)%nat ->
      exists s' e',
        ticks k lightChannels s e = Some (s', e') /\
        K65Plus.counterColorshift s' = Z.of_nat k /\
        K65Plus.reverse s' = false) /\
   (exists s' e',
      ticks 11 lightChannels s e = Some (s', e') /\
      K65Plus.counterColorshift s' = 1 /\
      K65Plus.reverse s' = true /\
      K65Plus.rendered e'
        = K65Plus.rendered e
            ++ [K65Plus.Colorshift 0 false; K65Plus.Colorshift 1 false;
                K65Plus.Colorshift 2 false; K65Plus.Colorshift 3 false;
                K65Plus.Colorshift 4 false; K65Plus.Colorshift 5 false;
                K65Plus.Colorshift 6 false; K65Plus.Colorshift 7 false;
                K65Plus.Colorshift 8 false; K65Plus.Colorshift 9 false;
                K65Plus.Colorshift 0 true]))
  /\
  (running "colorwarp" e ->
   (forall r, GetRgbProfile "colorwarp" r = Some p) ->
   K65Plus.counterColorwarp s = 0 ->
   K65Plus.colorwarpGeneratedReverse s = false ->
   (forall k, (k <= 10)%nat ->
      exists s' e',
        ticks k lightChannels s e = Some (s', e') /\
        K65Plus.counterColorwarp s' = Z.of_nat k /\
        K65Plus.colorwarpGeneratedReverse s' = false) /\
   (exists s' e',
      ticks 11 lightChannels s e = Some (s', e') /\
      K65Plus.counterColorwarp s' = 0 /\
      K65Plus.colorwarpGeneratedReverse s' = true /\
      K65Plus.rendered e'
        = K65Plus.rendered e
            ++ [K65Plus.Colorwarp 1; K65Plus.Colorwarp 2; K65Plus.Colorwarp 3;
                K65Plus.Colorwarp 4; K65Plus.Colorwarp 5; K65Plus.Colorwarp 6;
                K65Plus.Colorwarp 7; K65Plus.Colorwarp 8; K65Plus.Colorwarp 9;
                K65Plus.Colorwarp 10; K65Plus.Colorwarp 0])).
Proof.
  intros HS Hf. split.
  - intros Hrun Hres Hc Hr. split.
    + intros k Hk.
      destruct (ticks_colorshift_ramp p lightChannels Hres Hf k s e Hrun
                  ltac:(lia) ltac:(lia) ltac:(lia))
        as (s' & e' & Et & Ec & Er & _ & _).
      exists s', e'. repeat apply conj; [exact Et|lia|congruence].
    + destruct (ticks_colorshift_ramp p lightChannels Hres Hf 10 s e Hrun
                  ltac:(lia) ltac:(lia) ltac:(lia))
        as (s1 & e1 & Et & Ec & Er & Hrend & Hrun1).
      destruct (tick_colorshift_reached p lightChannels Hres Hf s1 e1 Hrun1
                  ltac:(lia))
        as (s2 & e2 & Et2 & Ec2 & Er2 & Hrend2 & _).
      exists s2, e2. split.
      { change 11%nat with (10 + 1)%nat. rewrite ticks_app, Et.
        cbn [K65Plus.ticks]. unfold Go.bind. now rewrite Et2. }
      split; [rewrite Ec2; reflexivity|].
      split; [rewrite Er2, Er, Hr; reflexivity|].
      rewrite Hrend2, Hrend, Er, Hr, Hc, <- app_assoc. reflexivity.
  - intros Hrun Hres Hc Hg. split.
    + intros k Hk.
      destruct (ticks_colorwarp_ramp p lightChannels Hres Hf k s e Hrun Hg
                  ltac:(lia) ltac:(lia) ltac:(lia))
        as (s' & e' & Et & Ec & Eg & _ & _).
      exists s', e'. repeat apply conj; [exact Et|lia|exact Eg].
    + destruct (ticks_colorwarp_ramp p lightChannels Hres Hf 10 s e Hrun Hg
                  ltac:(lia) ltac:(lia) ltac:(lia))
        as (s1 & e1 & Et & Ec & Eg & Hrend & Hrun1).
      destruct (tick_colorwarp_reached p lightChannels Hres Hf s1 e1 Hrun1
                  ltac:(lia) Eg)
        as (s2 & e2 & Et2 & Ec2 & Eg2 & Hrend2 & _).
      exists s2, e2. split.
      { change 11%nat with (10 + 1)%nat. rewrite ticks_app, Et.
        cbn [K65Plus.ticks]. unfold Go.bind. now rewrite Et2. }
      split; [exact Ec2|]. split; [exact Eg2|].
      rewrite Hrend2, Hrend, Hc, <- app_assoc. reflexivity.
Qed.

End AnimationFacts.

(** Witness of C5: the wired keyboard, its profile naming an effect that the
    table of package [rgb] no longer holds. *)
Lemma C5_witness :
  exists e',
    Samples.tick 123 K65Plus.newSession (Samples.engine "deleted")
      = Some (K65Plus.newSession, e') /\
    written (K65Plus.dev (K65Plus.device e')) = [] /\
    K65Plus.log (K65Plus.device e')
      = [{| level := Warn; message := "No such RGB profile found" |}] /\
    K65Plus.rendered e' = [].
Proof.
  eapply (C5_unresolved_profile_tick_writes_nothing unit Z
            Samples.profiles Samples.smoothness Samples.fresh
            Samples.black Samples.keep
            123 K65Plus.newSession (Samples.engine "deleted")).
  - reflexivity.
  - reflexivity.
Defined.

(** C6 as stated fails: after exactly ten ticks at smoothness 10 the counter
    stands at 10, not 0, and the flag has not moved, for colorshift and for
    colorwarp alike. *)
Lemma C6_after_ten_ticks_counter_is_ten :
  (exists s' e',
     Samples.ticks 10 123 K65Plus.newSession (Samples.engine "colorshift") = Some (s', e') /\
     K65Plus.counterColorshift s' = 10 /\
     K65Plus.counterColorshift s' <> 0 /\
     K65Plus.reverse s' = false)
  /\
  (exists s' e',
     Samples.ticks 10 123 K65Plus.newSession (Samples.engine "colorwarp") = Some (s', e') /\
     K65Plus.counterColorwarp s' = 10 /\
     K65Plus.counterColorwarp s' <> 0 /\
     K65Plus.colorwarpGeneratedReverse s' = false).
Proof.
  split; eexists _, _; (split; [vm_compute; reflexivity|]);
    repeat apply conj; try reflexivity; discriminate.
Qed.

(** Witness of the amended C6 on the wired keyboard: the eleventh tick. *)
Lemma C6_witness :
  (exists s' e',
     Samples.ticks 11 123 K65Plus.newSession (Samples.engine "colorshift") = Some (s', e') /\
     K65Plus.counterColorshift s' = 1 /\
     K65Plus.reverse s' = true /\
     K65Plus.rendered e'
       = K65Plus.rendered (Samples.engine "colorshift")
           ++ [K65Plus.Colorshift 0 false; K65Plus.Colorshift 1 false;
               K65Plus.Colorshift 2 false; K65Plus.Colorshift 3 false;
               K65Plus.Colorshift 4 false; K65Plus.Colorshift 5 false;
               K65Plus.Colorshift 6 false; K65Plus.Colorshift 7 false;
               K65Plus.Colorshift 8 false; K65Plus.Colorshift 9 false;
               K65Plus.Colorshift 0 true])
  /\
  (exists s' e',
     Samples.ticks 11 123 K65Plus.newSession (Samples.engine "colorwarp") = Some (s', e') /\
     K65Plus.counterColorwarp s' = 0 /\
     K65Plus.colorwarpGeneratedReverse s' = true /\
     K65Plus.rendered e'
       = K65Plus.rendered (Samples.engine "colorwarp")
           ++ [K65Plus.Colorwarp 1; K65Plus.Colorwarp 2; K65Plus.Colorwarp 3;
               K65Plus.Colorwarp 4; K65Plus.Colorwarp 5; K65Plus.Colorwarp 6;
               K65Plus.Colorwarp 7; K65Plus.Colorwarp 8; K65Plus.Colorwarp 9;
               K65Plus.Colorwarp 10; K65Plus.Colorwarp 0]).
Proof.
  assert (Hf : forall c r,
             (6 <= length (fst (Samples.black 10 c r)))%nat)
    by (intros c r; vm_compute; lia).
  split.
  - apply (proj1 (C6_reset_and_toggle_on_the_eleventh_tick unit Z
                    Samples.profiles Samples.smoothness Samples.fresh
                    Samples.black Samples.keep
                    10 123 K65Plus.newSession (Samples.engine "colorshift")
                    eq_refl Hf));
      try reflexivity.
    eexists. split; reflexivity.
  - apply (proj2 (C6_reset_and_toggle_on_the_eleventh_tick unit Z
                    Samples.profiles Samples.smoothness Samples.fresh
                    Samples.black Samples.keep
                    10 123 K65Plus.newSession (Samples.engine "colorwarp")
                    eq_refl Hf));
      try reflexivity.
    eexists. split; reflexivity.
Defined.

(** ** The dial listener *)

(** What [d.listener.Read(data)] leaves in [data]: every byte of the report
    that falls within the 64 is where the report has it. *)
Lemma read_into (data report : list byte) :
  length data = bufferSize ->
  exists data',
    copyInto data 0 (length data) report = Some data' /\
    length data' = bufferSize /\
    forall i b, nth_error report i = Some b -> (i < bufferSize)%nat ->
                index data' i = Some b.
Proof.
  intros Hlen.
  destruct (copyInto data 0 (length data) report) as [data'|] eqn:E.
  - exists data'. split; [reflexivity|]. split.
    + rewrite (copyInto_length _ _ _ _ _ E). exact Hlen.
    + intros i b Hi Hlt. apply copyInto_inv in E. destruct E as [_ ->].
      assert (Hir : (i < length report)%nat)
        by (apply nth_error_Some; congruence).
      unfold index. cbn [firstn app].
      rewrite nth_error_app1
        by (rewrite length_firstn; rewrite Hlen in *; unfold bufferSize in *; lia).
      rewrite nth_error_firstn.
      destruct (Nat.ltb i (Nat.min (length data - 0) (length report))) eqn:El;
        [exact Hi|].
      apply Nat.ltb_ge in El. rewrite Hlen in El. unfold bufferSize in *. lia.
  - rewrite copyInto_some in E by lia. discriminate.
Qed.

Lemma PutUint16_pair (buf : list byte) (v : Z) :
  length buf = 2%nat ->
  PutUint16 buf v = Some [byte_of_Z v; byte_of_Z (v / 256)].
Proof.
  intros H. destruct buf as [|x [|y [|z rest]]]; try discriminate. reflexivity.
Qed.


Lemma sendLevel_wired (level : Z) (buf : list byte) (d : K65Plus.Device)
    (dp : K65Plus.DeviceProfile) :
  K65Plus.deviceProfile d = Some dp ->
  length buf = 2%nat ->
  exists d',
    K65Plus.sendLevel level buf d
      = Some ([byte_of_Z level; byte_of_Z (level / 256)], d') /\
    K65Plus.deviceProfile d' = Some (K65Plus.setBrightnessLevelField dp level) /\
    written (K65Plus.dev d')
      = written (K65Plus.dev d)
          ++ [reportOf x08 cmdBrightness
                       [byte_of_Z level; byte_of_Z (level / 256)]] /\
    K65Plus.external d'
      = K65Plus.external d
          ++ [K65Plus.SaveDeviceProfile (K65Plus.setBrightnessLevelField dp level)].
Proof.
  intros Hdp Hbuf. unfold K65Plus.sendLevel, K65Plus.saveDeviceProfile, K65Plus.call.
  run_monad. rewrite Hdp. cbn [K65Plus.deviceProfile K65Plus.withProfile].
  rewrite (PutUint16_pair buf level Hbuf).
  match goal with
  | |- context [K65Plus.transfer ?ep ?b ?d0] =>
      destruct (transfer_wired ep b d0) as (r & d1 & E & W & _ & K);
        [cbn; lia|]; rewrite E
  end.
  destruct K as (K1 & _ & K3 & _).
  destruct r; eexists; (split; [reflexivity|]); cbn;
    rewrite ?K1, ?W, ?K3; repeat apply conj; reflexivity.
Qed.

(** One event under the brightness binding, by kind of report. The buffers
    keep their sizes, so the next event finds the listener as it must be. *)
Lemma dialEvent_increase_wired (report : list byte) (l : K65Plus.Listener)
    (d : K65Plus.Device) (dp : K65Plus.DeviceProfile) :
  K65Plus.deviceProfile d = Some dp ->
  K65Plus.ControlDial dp = 2 ->
  length (K65Plus.data l) = bufferSize ->
  length (K65Plus.buf l) = 2%nat ->
  increase report ->
  exists l' d',
    K65Plus.dialEvent report l d = Some (l', d') /\
    K65Plus.brightness l'
      = (if K65Plus.brightness l >=? 1000 then 1000
         else wrap16 (K65Plus.brightness l + 100)) /\
    K65Plus.pv l' = K65Plus.pv l /\
    K65Plus.deviceProfile d'
      = Some (K65Plus.setBrightnessLevelField dp (K65Plus.brightness l')) /\
    length (K65Plus.data l') = bufferSize /\
    length (K65Plus.buf l') = 2%nat.
Proof.
  intros Hdp Hcd Hlen Hbuf Hinc.
  destruct (read_into (K65Plus.data l) report Hlen) as (data' & E & Hl' & Hidx).
  unfold K65Plus.dialEvent. run_monad. rewrite E.
  rewrite (Hidx 4%nat x01 Hinc ltac:(unfold bufferSize; lia)).
  change (Z_of_byte x01) with 1. cbn [Z.eqb].
  rewrite Hdp, Hcd. cbn [Z.eqb Pos.eqb].
  match goal with
  | |- context [K65Plus.sendLevel ?v ?b ?d0] =>
      destruct (sendLevel_wired v b d0 dp Hdp Hbuf) as (d' & Es & Hp & _);
        rewrite Es
  end.
  eexists _, _. split; [reflexivity|]. repeat apply conj; auto.
Qed.

Lemma dialEvent_decrease_wired (report : list byte) (l : K65Plus.Listener)
    (d : K65Plus.Device) (dp : K65Plus.DeviceProfile) :
  K65Plus.deviceProfile d = Some dp ->
  K65Plus.ControlDial dp = 2 ->
  length (K65Plus.data l) = bufferSize ->
  length (K65Plus.buf l) = 2%nat ->
  decrease report ->
  exists l' d',
    K65Plus.dialEvent report l d = Some (l', d') /\
    K65Plus.brightness l'
      = (if K65Plus.brightness l <=? 0 then 0
         else wrap16 (K65Plus.brightness l - 100)) /\
    K65Plus.pv l' = K65Plus.pv l /\
    K65Plus.deviceProfile d'
      = Some (K65Plus.setBrightnessLevelField dp (K65Plus.brightness l')) /\
    length (K65Plus.data l') = bufferSize /\
    length (K65Plus.buf l') = 2%nat.
Proof.
  intros Hdp Hcd Hlen Hbuf Hdec.
  destruct (read_into (K65Plus.data l) report Hlen) as (data' & E & Hl' & Hidx).
  unfold K65Plus.dialEvent. run_monad. rewrite E.
  rewrite (Hidx 4%nat xff Hdec ltac:(unfold bufferSize; lia)).
  change (Z_of_byte xff) with 255. cbn [Z.eqb Pos.eqb].
  rewrite Hdp, Hcd. cbn [Z.eqb Pos.eqb].
  match goal with
  | |- context [K65Plus.sendLevel ?v ?b ?d0] =>
      destruct (sendLevel_wired v b d0 dp Hdp Hbuf) as (d' & Es & Hp & _);
        rewrite Es
  end.
  eexists _, _. split; [reflexivity|]. repeat apply conj; auto.
Qed.

Lemma dialEvent_press_wired (report : list byte) (l : K65Plus.Listener)
    (d : K65Plus.Device) (dp : K65Plus.DeviceProfile) :
  K65Plus.deviceProfile d = Some dp ->
  K65Plus.ControlDial dp = 2 ->
  length (K65Plus.data l) = bufferSize ->
  length (K65Plus.buf l) = 2%nat ->
  press report ->
  exists l' d',
    K65Plus.dialEvent report l d = Some (l', d') /\
    K65Plus.brightness l' = (if negb (K65Plus.pv l) then 0 else 1000) /\
    K65Plus.pv l' = negb (K65Plus.pv l) /\
    K65Plus.deviceProfile d'
      = Some (K65Plus.setBrightnessLevelField dp (K65Plus.brightness l')) /\
    length (K65Plus.data l') = bufferSize /\
    length (K65Plus.buf l') = 2%nat.
Proof.
  intros Hdp Hcd Hlen Hbuf [H4 H19].
  destruct (read_into (K65Plus.data l) report Hlen) as (data' & E & Hl' & Hidx).
  unfold K65Plus.dialEvent. run_monad. rewrite E.
  rewrite (Hidx 4%nat x00 H4 ltac:(unfold bufferSize; lia)).
  change (Z_of_byte x00) with 0. cbn [Z.eqb].
  rewrite (Hidx 19%nat x02 H19 ltac:(unfold bufferSize; lia)).
  change (Z_of_byte x02) with 2. cbn [Z.eqb Pos.eqb].
  rewrite Hdp, Hcd. cbn [Z.eqb Pos.eqb].
  match goal with
  | |- context [K65Plus.sendLevel ?v ?b ?d0] =>
      destruct (sendLevel_wired v b d0 dp Hdp Hbuf) as (d' & Es & Hp & _);
        rewrite Es
  end.
  eexists _, _. split; [reflexivity|]. repeat apply conj; auto.
Qed.

Lemma ControlDial_kept_wired (dp : K65Plus.DeviceProfile) (v : Z) :
  K65Plus.ControlDial (K65Plus.setBrightnessLevelField dp v) = K65Plus.ControlDial dp.
Proof. reflexivity. Qed.

(** Turns to the right from a level that is a multiple of 100 within
    [0, 1000]: one step of 100 each, held at 1000. *)
Lemma dialEvents_increase_wired (reports : list (list byte)) :
  Forall increase reports ->
  forall (l : K65Plus.Listener) (d : K65Plus.Device) (dp : K65Plus.DeviceProfile) (q : Z),
  K65Plus.deviceProfile d = Some dp ->
  K65Plus.ControlDial dp = 2 ->
  length (K65Plus.data l) = bufferSize ->
  length (K65Plus.buf l) = 2%nat ->
  K65Plus.brightness l = 100 * q -> 0 <= q <= 10 ->
  K65Plus.BrightnessLevel dp = K65Plus.brightness l ->
  exists l' d' dp',
    K65Plus.dialEvents reports l d = Some (l', d') /\
    K65Plus.brightness l'
      = Z.min 1000 (K65Plus.brightness l + 100 * Z.of_nat (length reports)) /\
    K65Plus.deviceProfile d' = Some dp' /\
    K65Plus.BrightnessLevel dp' = K65Plus.brightness l'.
Proof.
  induction 1 as [|report rest Hr Hrest IH]; intros l d dp q Hdp Hcd Hlen Hbuf Hq Hrange Hlvl.
  - exists l, d, dp. cbn [K65Plus.dialEvents length Z.of_nat]. unfold Go.ret.
    repeat apply conj; auto. lia.
  - destruct (dialEvent_increase_wired report l d dp Hdp Hcd Hlen Hbuf Hr)
      as (l1 & d1 & E1 & Hb1 & _ & Hp1 & Hlen1 & Hbuf1).
    assert (Hstep : K65Plus.brightness l1 = 100 * Z.min 10 (q + 1)).
    { rewrite Hb1, Hq. destruct (100 * q >=? 1000) eqn:Eg.
      - rewrite Z.geb_leb in Eg. apply Z.leb_le in Eg. lia.
      - rewrite Z.geb_leb in Eg. apply Z.leb_gt in Eg.
        unfold wrap16. rewrite Z.mod_small by lia. lia. }
    destruct (IH l1 d1 _ (Z.min 10 (q + 1)) Hp1
                ltac:(rewrite ControlDial_kept_wired; exact Hcd)
                Hlen1 Hbuf1 Hstep ltac:(lia) eq_refl)
      as (l2 & d2 & dp2 & E2 & Hb2 & Hp2 & Hl2).
    exists l2, d2, dp2. split.
    { cbn [K65Plus.dialEvents]. unfold Go.bind. rewrite E1. exact E2. }
    repeat apply conj; auto.
    rewrite Hb2, Hstep, Hq. cbn [length]. lia.
Qed.

(** Turns to the left: one step of 100 each, held at 0; the unsigned level
    never wraps below zero. *)
Lemma dialEvents_decrease_wired (reports : list (list byte)) :
  Forall decrease reports ->
  forall (l : K65Plus.Listener) (d : K65Plus.Device) (dp : K65Plus.DeviceProfile) (q : Z),
  K65Plus.deviceProfile d = Some dp ->
  K65Plus.ControlDial dp = 2 ->
  length (K65Plus.data l) = bufferSize ->
  length (K65Plus.buf l) = 2%nat ->
  K65Plus.brightness l = 100 * q -> 0 <= q <= 10 ->
  K65Plus.BrightnessLevel dp = K65Plus.brightness l ->
  exists l' d' dp',
    K65Plus.dialEvents reports l d = Some (l', d') /\
    K65Plus.brightness l'
      = Z.max 0 (K65Plus.brightness l - 100 * Z.of_nat (length reports)) /\
    K65Plus.deviceProfile d' = Some dp' /\
    K65Plus.BrightnessLevel dp' = K65Plus.brightness l'.
Proof.
  induction 1 as [|report rest Hr Hrest IH]; intros l d dp q Hdp Hcd Hlen Hbuf Hq Hrange Hlvl.
  - exists l, d, dp. cbn [K65Plus.dialEvents length Z.of_nat]. unfold Go.ret.
    repeat apply conj; auto. lia.
  - destruct (dialEvent_decrease_wired report l d dp Hdp Hcd Hlen Hbuf Hr)
      as (l1 & d1 & E1 & Hb1 & _ & Hp1 & Hlen1 & Hbuf1).
    assert (Hstep : K65Plus.brightness l1 = 100 * Z.max 0 (q - 1)).
    { rewrite Hb1, Hq. destruct (100 * q <=? 0) eqn:Eg.
      - apply Z.leb_le in Eg. lia.
      - apply Z.leb_gt in Eg.
        unfold wrap16. rewrite Z.mod_small by lia. lia. }
    destruct (IH l1 d1 _ (Z.max 0 (q - 1)) Hp1
                ltac:(rewrite ControlDial_kept_wired; exact Hcd)
                Hlen1 Hbuf1 Hstep ltac:(lia) eq_refl)
      as (l2 & d2 & dp2 & E2 & Hb2 & Hp2 & Hl2).
    exists l2, d2, dp2. split.
    { cbn [K65Plus.dialEvents]. unfold Go.bind. rewrite E1. exact E2. }
    repeat apply conj; auto.
    rewrite Hb2, Hstep, Hq. cbn [length]. lia.
Qed.

Lemma dialStart_wired (d : K65Plus.Device) (dp : K65Plus.DeviceProfile) :
  K65Plus.deviceProfile d = Some dp ->
  K65Plus.dialStart d
  = Some ({| K65Plus.pv := false;
             K65Plus.brightness :=
               if K65Plus.BrightnessLevel dp =? 0 then 1000
               else K65Plus.BrightnessLevel dp;
             K65Plus.buf := make 2; K65Plus.data := make bufferSize |}, d).
Proof.
  intros Hdp. unfold K65Plus.dialStart. run_monad. now rewrite Hdp.
Qed.

Lemma sendLevel_wireless (level : Z) (buf : list byte) (d : K65PlusW.Device)
    (dp : K65PlusW.DeviceProfile) :
  K65PlusW.deviceProfile d = Some dp ->
  length buf = 2%nat ->
  exists d',
    K65PlusW.sendLevel level buf d
      = Some ([byte_of_Z level; byte_of_Z (level / 256)], d') /\
    K65PlusW.deviceProfile d' = Some (K65PlusW.setBrightnessLevelField dp level) /\
    written (K65PlusW.dev d')
      = written (K65PlusW.dev d)
          ++ [reportOf (byte_of_Z K65PlusW.cmdKeyboard) cmdBrightness
                       [byte_of_Z level; byte_of_Z (level / 256)]] /\
    K65PlusW.external d'
      = K65PlusW.external d
          ++ [K65PlusW.SaveDeviceProfile (K65PlusW.setBrightnessLevelField dp level)].
Proof.
  intros Hdp Hbuf. unfold K65PlusW.sendLevel, K65PlusW.saveDeviceProfile, K65PlusW.call.
  run_monad. rewrite Hdp. cbn [K65PlusW.deviceProfile K65PlusW.withProfile].
  rewrite (PutUint16_pair buf level Hbuf).
  match goal with
  | |- context [K65PlusW.transfer ?ep ?b ?c ?d0] =>
      destruct (transfer_wireless ep b c d0) as (r & d1 & E & W & _ & K);
        [cbn; lia|]; rewrite E
  end.
  destruct K as (K1 & _ & K3 & _).
  destruct r; eexists; (split; [reflexivity|]); cbn;
    rewrite ?K1, ?W, ?K3; repeat apply conj; reflexivity.
Qed.

(** One event under the brightness binding, by kind of report. The buffers
    keep their sizes, so the next event finds the listener as it must be. *)
Lemma dialEvent_increase_wireless (report : list byte) (l : K65PlusW.Listener)
    (d : K65PlusW.Device) (dp : K65PlusW.DeviceProfile) :
  K65PlusW.deviceProfile d = Some dp ->
  K65PlusW.ControlDial dp = 2 ->
  length (K65PlusW.data l) = bufferSize ->
  length (K65PlusW.buf l) = 2%nat ->
  increase report ->
  exists l' d',
    K65PlusW.dialEvent report l d = Some (l', d') /\
    K65PlusW.brightness l'
      = (if K65PlusW.brightness l >=? 1000 then 1000
         else wrap16 (K65PlusW.brightness l + 100)) /\
    K65PlusW.pv l' = K65PlusW.pv l /\
    K65PlusW.deviceProfile d'
      = Some (K65PlusW.setBrightnessLevelField dp (K65PlusW.brightness l')) /\
    length (K65PlusW.data l') = bufferSize /\
    length (K65PlusW.buf l') = 2%nat.
Proof.
  intros Hdp Hcd Hlen Hbuf Hinc.
  destruct (read_into (K65PlusW.data l) report Hlen) as (data' & E & Hl' & Hidx).
  unfold K65PlusW.dialEvent. run_monad. rewrite E.
  rewrite (Hidx 4%nat x01 Hinc ltac:(unfold bufferSize; lia)).
  change (Z_of_byte x01) with 1. cbn [Z.eqb].
  rewrite Hdp, Hcd. cbn [Z.eqb Pos.eqb].
  match goal with
  | |- context [K65PlusW.sendLevel ?v ?b ?d0] =>
      destruct (sendLevel_wireless v b d0 dp Hdp Hbuf) as (d' & Es & Hp & _);
        rewrite Es
  end.
  eexists _, _. split; [reflexivity|]. repeat apply conj; auto.
Qed.

Lemma dialEvent_decrease_wireless (report : list byte) (l : K65PlusW.Listener)
    (d : K65PlusW.Device) (dp : K65PlusW.DeviceProfile) :
  K65PlusW.deviceProfile d = Some dp ->
  K65PlusW.ControlDial dp = 2 ->
  length (K65PlusW.data l) = bufferSize ->
  length (K65PlusW.buf l) = 2%nat ->
  decrease report ->
  exists l' d',
    K65PlusW.dialEvent report l d = Some (l', d') /\
    K65PlusW.brightness l'
      = (if K65PlusW.brightness l <=? 0 then 0
         else wrap16 (K65PlusW.brightness l - 100)) /\
    K65PlusW.pv l' = K65PlusW.pv l /\
    K65PlusW.deviceProfile d'
      = Some (K65PlusW.setBrightnessLevelField dp (K65PlusW.brightness l')) /\
    length (K65PlusW.data l') = bufferSize /\
    length (K65PlusW.buf l') = 2%nat.
Proof.
  intros Hdp Hcd Hlen Hbuf Hdec.
  destruct (read_into (K65PlusW.data l) report Hlen) as (data' & E & Hl' & Hidx).
  unfold K65PlusW.dialEvent. run_monad. rewrite E.
  rewrite (Hidx 4%nat xff Hdec ltac:(unfold bufferSize; lia)).
  change (Z_of_byte xff) with 255. cbn [Z.eqb Pos.eqb].
  rewrite Hdp, Hcd. cbn [Z.eqb Pos.eqb].
  match goal with
  | |- context [K65PlusW.sendLevel ?v ?b ?d0] =>
      destruct (sendLevel_wireless v b d0 dp Hdp Hbuf) as (d' & Es & Hp & _);
        rewrite Es
  end.
  eexists _, _. split; [reflexivity|]. repeat apply conj; auto.
Qed.

Lemma dialEvent_press_wireless (report : list byte) (l : K65PlusW.Listener)
    (d : K65PlusW.Device) (dp : K65PlusW.DeviceProfile) :
  K65PlusW.deviceProfile d = Some dp ->
  K65PlusW.ControlDial dp = 2 ->
  length (K65PlusW.data l) = bufferSize ->
  length (K65PlusW.buf l) = 2%nat ->
  press report ->
  exists l' d',
    K65PlusW.dialEvent report l d = Some (l', d') /\
    K65PlusW.brightness l' = (if negb (K65PlusW.pv l) then 0 else 1000) /\
    K65PlusW.pv l' = negb (K65PlusW.pv l) /\
    K65PlusW.deviceProfile d'
      = Some (K65PlusW.setBrightnessLevelField dp (K65PlusW.brightness l')) /\
    length (K65PlusW.data l') = bufferSize /\
    length (K65PlusW.buf l') = 2%nat.
Proof.
  intros Hdp Hcd Hlen Hbuf [H4 H19].
  destruct (read_into (K65PlusW.data l) report Hlen) as (data' & E & Hl' & Hidx).
  unfold K65PlusW.dialEvent. run_monad. rewrite E.
  rewrite (Hidx 4%nat x00 H4 ltac:(unfold bufferSize; lia)).
  change (Z_of_byte x00) with 0. cbn [Z.eqb].
  rewrite (Hidx 19%nat x02 H19 ltac:(unfold bufferSize; lia)).
  change (Z_of_byte x02) with 2. cbn [Z.eqb Pos.eqb].
  rewrite Hdp, Hcd. cbn [Z.eqb Pos.eqb].
  match goal with
  | |- context [K65PlusW.sendLevel ?v ?b ?d0] =>
      destruct (sendLevel_wireless v b d0 dp Hdp Hbuf) as (d' & Es & Hp & _);
        rewrite Es
  end.
  eexists _, _. split; [reflexivity|]. repeat apply conj; auto.
Qed.

Lemma ControlDial_kept_wireless (dp : K65PlusW.DeviceProfile) (v : Z) :
  K65PlusW.ControlDial (K65PlusW.setBrightnessLevelField dp v) = K65PlusW.ControlDial dp.
Proof. reflexivity. Qed.

(** Turns to the right from a level that is a multiple of 100 within
    [0, 1000]: one step of 100 each, held at 1000. *)
Lemma dialEvents_increase_wireless (reports : list (list byte)) :
  Forall increase reports ->
  forall (l : K65PlusW.Listener) (d : K65PlusW.Device) (dp : K65PlusW.DeviceProfile) (q : Z),
  K65PlusW.deviceProfile d = Some dp ->
  K65PlusW.ControlDial dp = 2 ->
  length (K65PlusW.data l) = bufferSize ->
  length (K65PlusW.buf l) = 2%nat ->
  K65PlusW.brightness l = 100 * q -> 0 <= q <= 10 ->
  K65PlusW.BrightnessLevel dp = K65PlusW.brightness l ->
  exists l' d' dp',
    K65PlusW.dialEvents reports l d = Some (l', d') /\
    K65PlusW.brightness l'
      = Z.min 1000 (K65PlusW.brightness l + 100 * Z.of_nat (length reports)) /\
    K65PlusW.deviceProfile d' = Some dp' /\
    K65PlusW.BrightnessLevel dp' = K65PlusW.brightness l'.
Proof.
  induction 1 as [|report rest Hr Hrest IH]; intros l d dp q Hdp Hcd Hlen Hbuf Hq Hrange Hlvl.
  - exists l, d, dp. cbn [K65PlusW.dialEvents length Z.of_nat]. unfold Go.ret.
    repeat apply conj; auto. lia.
  - destruct (dialEvent_increase_wireless report l d dp Hdp Hcd Hlen Hbuf Hr)
      as (l1 & d1 & E1 & Hb1 & _ & Hp1 & Hlen1 & Hbuf1).
    assert (Hstep : K65PlusW.brightness l1 = 100 * Z.min 10 (q + 1)).
    { rewrite Hb1, Hq. destruct (100 * q >=? 1000) eqn:Eg.
      - rewrite Z.geb_leb in Eg. apply Z.leb_le in Eg. lia.
      - rewrite Z.geb_leb in Eg. apply Z.leb_gt in Eg.
        unfold wrap16. rewrite Z.mod_small by lia. lia. }
    destruct (IH l1 d1 _ (Z.min 10 (q + 1)) Hp1
                ltac:(rewrite ControlDial_kept_wireless; exact Hcd)
                Hlen1 Hbuf1 Hstep ltac:(lia) eq_refl)
      as (l2 & d2 & dp2 & E2 & Hb2 & Hp2 & Hl2).
    exists l2, d2, dp2. split.
    { cbn [K65PlusW.dialEvents]. unfold Go.bind. rewrite E1. exact E2. }
    repeat apply conj; auto.
    rewrite Hb2, Hstep, Hq. cbn [length]. lia.
Qed.

(** Turns to the left: one step of 100 each, held at 0; the unsigned level
    never wraps below zero. *)
Lemma dialEvents_decrease_wireless (reports : list (list byte)) :
  Forall decrease reports ->
  forall (l : K65PlusW.Listener) (d : K65PlusW.Device) (dp : K65PlusW.DeviceProfile) (q : Z),
  K65PlusW.deviceProfile d = Some dp ->
  K65PlusW.ControlDial dp = 2 ->
  length (K65PlusW.data l) = bufferSize ->
  length (K65PlusW.buf l) = 2%nat ->
  K65PlusW.brightness l = 100 * q -> 0 <= q <= 10 ->
  K65PlusW.BrightnessLevel dp = K65PlusW.brightness l ->
  exists l' d' dp',
    K65PlusW.dialEvents reports l d = Some (l', d') /\
    K65PlusW.brightness l'
      = Z.max 0 (K65PlusW.brightness l - 100 * Z.of_nat (length reports)) /\
    K65PlusW.deviceProfile d' = Some dp' /\
    K65PlusW.BrightnessLevel dp' = K65PlusW.brightness l'.
Proof.
  induction 1 as [|report rest Hr Hrest IH]; intros l d dp q Hdp Hcd Hlen Hbuf Hq Hrange Hlvl.
  - exists l, d, dp. cbn [K65PlusW.dialEvents length Z.of_nat]. unfold Go.ret.
    repeat apply conj; auto. lia.
  - destruct (dialEvent_decrease_wireless report l d dp Hdp Hcd Hlen Hbuf Hr)
      as (l1 & d1 & E1 & Hb1 & _ & Hp1 & Hlen1 & Hbuf1).
    assert (Hstep : K65PlusW.brightness l1 = 100 * Z.max 0 (q - 1)).
    { rewrite Hb1, Hq. destruct (100 * q <=? 0) eqn:Eg.
      - apply Z.leb_le in Eg. lia.
      - apply Z.leb_gt in Eg.
        unfold wrap16. rewrite Z.mod_small by lia. lia. }
    destruct (IH l1 d1 _ (Z.max 0 (q - 1)) Hp1
                ltac:(rewrite ControlDial_kept_wireless; exact Hcd)
                Hlen1 Hbuf1 Hstep ltac:(lia) eq_refl)
      as (l2 & d2 & dp2 & E2 & Hb2 & Hp2 & Hl2).
    exists l2, d2, dp2. split.
    { cbn [K65PlusW.dialEvents]. unfold Go.bind. rewrite E1. exact E2. }
    repeat apply conj; auto.
    rewrite Hb2, Hstep, Hq. cbn [length]. lia.
Qed.

Lemma dialStart_wireless (d : K65PlusW.Device) (dp : K65PlusW.DeviceProfile) :
  K65PlusW.deviceProfile d = Some dp ->
  K65PlusW.dialStart d
  = Some ({| K65PlusW.pv := false;
             K65PlusW.brightness :=
               if K65PlusW.BrightnessLevel dp =? 0 then 1000
               else K65PlusW.BrightnessLevel dp;
             K65PlusW.buf := make 2; K65PlusW.data := make bufferSize |}, d).
Proof.
  intros Hdp. unfold K65PlusW.dialStart. run_monad. now rewrite Hdp.
Qed.

(** C7. Under the brightness binding, with the listener started on a stored
    level of 500, turns to the right move the level by 100 each up to 1000
    and hold it there: 800 after three, 1000 from the fifth on. Started on
    200, turns to the left move it by 100 each down to 0 and hold it there:
    0 after three, and never outside [0, 200]. Wired package first, wireless
    package second. *)
Theorem C7_dial_brightness_steps_and_clamps :
  (forall (d : K65Plus.Device) (dp : K65Plus.DeviceProfile)
          (reports : list (list byte)),
     K65Plus.deviceProfile d = Some dp ->
     K65Plus.ControlDial dp = 2 ->
     (K65Plus.BrightnessLevel dp = 500 -> Forall increase reports ->
      exists l' d',
        K65Plus.controlDialListener reports d = Some (l', d') /\
        K65Plus.brightness l' = Z.min 1000 (500 + 100 * Z.of_nat (length reports)) /\
        storedLevel d' = Some (K65Plus.brightness l') /\
        (length reports = 3%nat -> storedLevel d' = Some 800) /\
        ((5 <= length reports)%nat -> storedLevel d' = Some 1000)) /\
     (K65Plus.BrightnessLevel dp = 200 -> Forall decrease reports ->
      exists l' d',
        K65Plus.controlDialListener reports d = Some (l', d') /\
        K65Plus.brightness l' = Z.max 0 (200 - 100 * Z.of_nat (length reports)) /\
        storedLevel d' = Some (K65Plus.brightness l') /\
        (length reports = 3%nat -> storedLevel d' = Some 0) /\
        0 <= K65Plus.brightness l' <= 200))
  /\
  (forall (d : K65PlusW.Device) (dp : K65PlusW.DeviceProfile)
          (reports : list (list byte)),
     K65PlusW.deviceProfile d = Some dp ->
     K65PlusW.ControlDial dp = 2 ->
     (K65PlusW.BrightnessLevel dp = 500 -> Forall increase reports ->
      exists l' d',
        K65PlusW.controlDialListener reports d = Some (l', d') /\
        K65PlusW.brightness l' = Z.min 1000 (500 + 100 * Z.of_nat (length reports)) /\
        storedLevelW d' = Some (K65PlusW.brightness l') /\
        (length reports = 3%nat -> storedLevelW d' = Some 800) /\
        ((5 <= length reports)%nat -> storedLevelW d' = Some 1000)) /\
     (K65PlusW.BrightnessLevel dp = 200 -> Forall decrease reports ->
      exists l' d',
        K65PlusW.controlDialListener reports d = Some (l', d') /\
        K65PlusW.brightness l' = Z.max 0 (200 - 100 * Z.of_nat (length reports)) /\
        storedLevelW d' = Some (K65PlusW.brightness l') /\
        (length reports = 3%nat -> storedLevelW d' = Some 0) /\
        0 <= K65PlusW.brightness l' <= 200)).
Proof.
  split.
  - intros d dp reports Hdp Hcd. split.
    + intros Hlvl Hall.
      destruct (dialEvents_increase_wired reports Hall
                  {| K65Plus.pv := false; K65Plus.brightness := 500;
                     K65Plus.buf := make 2; K65Plus.data := make bufferSize |}
                  d dp 5 Hdp Hcd eq_refl eq_refl eq_refl ltac:(lia) Hlvl)
        as (l' & d' & dp' & E & Hb & Hp & Hl).
      exists l', d'. cbn [K65Plus.brightness] in Hb.
      unfold K65Plus.controlDialListener, Go.bind.
      rewrite (dialStart_wired d dp Hdp), Hlvl. cbn [Z.eqb].
      split; [exact E|]. split; [exact Hb|].
      unfold storedLevel. rewrite Hp. cbn [option_map]. rewrite Hl.
      split; [reflexivity|]. rewrite Hb.
      split; intros Hn; f_equal; lia.
    + intros Hlvl Hall.
      destruct (dialEvents_decrease_wired reports Hall
                  {| K65Plus.pv := false; K65Plus.brightness := 200;
                     K65Plus.buf := make 2; K65Plus.data := make bufferSize |}
                  d dp 2 Hdp Hcd eq_refl eq_refl eq_refl ltac:(lia) Hlvl)
        as (l' & d' & dp' & E & Hb & Hp & Hl).
      exists l', d'. cbn [K65Plus.brightness] in Hb.
      unfold K65Plus.controlDialListener, Go.bind.
      rewrite (dialStart_wired d dp Hdp), Hlvl. cbn [Z.eqb].
      split; [exact E|]. split; [exact Hb|].
      unfold storedLevel. rewrite Hp. cbn [option_map]. rewrite Hl.
      split; [reflexivity|]. rewrite Hb.
      split; [intros Hn; f_equal; lia|lia].
  - intros d dp reports Hdp Hcd. split.
    + intros Hlvl Hall.
      destruct (dialEvents_increase_wireless reports Hall
                  {| K65PlusW.pv := false; K65PlusW.brightness := 500;
                     K65PlusW.buf := make 2; K65PlusW.data := make bufferSize |}
                  d dp 5 Hdp Hcd eq_refl eq_refl eq_refl ltac:(lia) Hlvl)
        as (l' & d' & dp' & E & Hb & Hp & Hl).
      exists l', d'. cbn [K65PlusW.brightness] in Hb.
      unfold K65PlusW.controlDialListener, Go.bind.
      rewrite (dialStart_wireless d dp Hdp), Hlvl. cbn [Z.eqb].
      split; [exact E|]. split; [exact Hb|].
      unfold storedLevelW. rewrite Hp. cbn [option_map]. rewrite Hl.
      split; [reflexivity|]. rewrite Hb.
      split; intros Hn; f_equal; lia.
    + intros Hlvl Hall.
      destruct (dialEvents_decrease_wireless reports Hall
                  {| K65PlusW.pv := false; K65PlusW.brightness := 200;
                     K65PlusW.buf := make 2; K65PlusW.data := make bufferSize |}
                  d dp 2 Hdp Hcd eq_refl eq_refl eq_refl ltac:(lia) Hlvl)
        as (l' & d' & dp' & E & Hb & Hp & Hl).
      exists l', d'. cbn [K65PlusW.brightness] in Hb.
      unfold K65PlusW.controlDialListener, Go.bind.
      rewrite (dialStart_wireless d dp Hdp), Hlvl. cbn [Z.eqb].
      split; [exact E|]. split; [exact Hb|].
      unfold storedLevelW. rewrite Hp. cbn [option_map]. rewrite Hl.
      split; [reflexivity|]. rewrite Hb.
      split; [intros Hn; f_equal; lia|lia].
Qed.

(** Witness of C7: three and seven turns to the right from 500, three turns
    to the left from 200, on either keyboard. *)
Lemma C7_witness :
  (  (exists l' d',
     K65Plus.controlDialListener (repeat (Samples.dialReport x01 x00) 3)
       (Samples.wired "static" 2 500) = Some (l', d') /\
     storedLevel d' = Some 800)
  /\
  (exists l' d',
     K65Plus.controlDialListener (repeat (Samples.dialReport x01 x00) 7)
       (Samples.wired "static" 2 500) = Some (l', d') /\
     storedLevel d' = Some 1000)
  /\
  (exists l' d',
     K65Plus.controlDialListener (repeat (Samples.dialReport xff x00) 3)
       (Samples.wired "static" 2 200) = Some (l', d') /\
     storedLevel d' = Some 0))
  /\
  (  (exists l' d',
     K65PlusW.controlDialListener (repeat (Samples.dialReport x01 x00) 3)
       (Samples.wireless "static" 2 500) = Some (l', d') /\
     storedLevelW d' = Some 800)
  /\
  (exists l' d',
     K65PlusW.controlDialListener (repeat (Samples.dialReport x01 x00) 7)
       (Samples.wireless "static" 2 500) = Some (l', d') /\
     storedLevelW d' = Some 1000)
  /\
  (exists l' d',
     K65PlusW.controlDialListener (repeat (Samples.dialReport xff x00) 3)
       (Samples.wireless "static" 2 200) = Some (l', d') /\
     storedLevelW d' = Some 0)).
Proof.
  split; (split; [|split]).
  - destruct (proj1 (proj1 C7_dial_brightness_steps_and_clamps
                         (Samples.wired "static" 2 500) _
                         (repeat (Samples.dialReport x01 x00) 3)
                         eq_refl eq_refl) eq_refl)
      as (l' & d' & E & _ & _ & H3 & _).
    { repeat constructor. }
    exists l', d'. split; [exact E|]. apply H3. reflexivity.
  - destruct (proj1 (proj1 C7_dial_brightness_steps_and_clamps
                         (Samples.wired "static" 2 500) _
                         (repeat (Samples.dialReport x01 x00) 7)
                         eq_refl eq_refl) eq_refl)
      as (l' & d' & E & _ & _ & _ & H5).
    { repeat constructor. }
    exists l', d'. split; [exact E|]. apply H5. vm_compute. lia.
  - destruct (proj2 (proj1 C7_dial_brightness_steps_and_clamps
                         (Samples.wired "static" 2 200) _
                         (repeat (Samples.dialReport xff x00) 3)
                         eq_refl eq_refl) eq_refl)
      as (l' & d' & E & _ & _ & H3 & _).
    { repeat constructor. }
    exists l', d'. split; [exact E|]. apply H3. reflexivity.
  - destruct (proj1 (proj2 C7_dial_brightness_steps_and_clamps
                         (Samples.wireless "static" 2 500) _
                         (repeat (Samples.dialReport x01 x00) 3)
                         eq_refl eq_refl) eq_refl)
      as (l' & d' & E & _ & _ & H3 & _).
    { repeat constructor. }
    exists l', d'. split; [exact E|]. apply H3. reflexivity.
  - destruct (proj1 (proj2 C7_dial_brightness_steps_and_clamps
                         (Samples.wireless "static" 2 500) _
                         (repeat (Samples.dialReport x01 x00) 7)
                         eq_refl eq_refl) eq_refl)
      as (l' & d' & E & _ & _ & _ & H5).
    { repeat constructor. }
    exists l', d'. split; [exact E|]. apply H5. vm_compute. lia.
  - destruct (proj2 (proj2 C7_dial_brightness_steps_and_clamps
                         (Samples.wireless "static" 2 200) _
                         (repeat (Samples.dialReport xff x00) 3)
                         eq_refl eq_refl) eq_refl)
      as (l' & d' & E & _ & _ & H3 & _).
    { repeat constructor. }
    exists l', d'. split; [exact E|]. apply H3. reflexivity.
Defined.

(** C8 as stated fails: from a stored level of 500, two presses leave the
    level at 1000, not back at 500. *)
Lemma C8_second_press_gives_full_brightness :
  (storedLevel (Samples.wired "static" 2 500) = Some 500 /\
   exists l' d',
     K65Plus.controlDialListener
       [Samples.dialReport x00 x02; Samples.dialReport x00 x02]
       (Samples.wired "static" 2 500) = Some (l', d') /\
     storedLevel d' = Some 1000 /\
     storedLevel d' <> storedLevel (Samples.wired "static" 2 500))
  /\
  (storedLevelW (Samples.wireless "static" 2 500) = Some 500 /\
   exists l' d',
     K65PlusW.controlDialListener
       [Samples.dialReport x00 x02; Samples.dialReport x00 x02]
       (Samples.wireless "static" 2 500) = Some (l', d') /\
     storedLevelW d' = Some 1000 /\
     storedLevelW d' <> storedLevelW (Samples.wireless "static" 2 500)).
Proof.
  split; (split; [reflexivity|]); eexists _, _;
    (split; [vm_compute; reflexivity|]);
    (split; [reflexivity|vm_compute; discriminate]).
Qed.

(** C8, amended. Under the brightness binding, whatever level the profile
    holds when the listener starts, the first press stores level 0 and the
    second press stores level 1000: the press toggles between zero and full
    brightness, no earlier level is kept. Wired package first, wireless
    package second. *)
Theorem C8_press_toggles_between_zero_and_full :
  (forall (d : K65Plus.Device) (dp : K65Plus.DeviceProfile)
          (first second : list byte),
     K65Plus.deviceProfile d = Some dp ->
     K65Plus.ControlDial dp = 2 ->
     press first -> press second ->
     (exists l' d',
        K65Plus.controlDialListener [first] d = Some (l', d') /\
        storedLevel d' = Some 0) /\
     (exists l' d',
        K65Plus.controlDialListener [first; second] d = Some (l', d') /\
        storedLevel d' = Some 1000))
  /\
  (forall (d : K65PlusW.Device) (dp : K65PlusW.DeviceProfile)
          (first second : list byte),
     K65PlusW.deviceProfile d = Some dp ->
     K65PlusW.ControlDial dp = 2 ->
     press first -> press second ->
     (exists l' d',
        K65PlusW.controlDialListener [first] d = Some (l', d') /\
        storedLevelW d' = Some 0) /\
     (exists l' d',
        K65PlusW.controlDialListener [first; second] d = Some (l', d') /\
        storedLevelW d' = Some 1000)).
Proof.
  split.
  - intros d dp first second Hdp Hcd H1 H2.
    pose proof (dialStart_wired d dp Hdp) as Es.
    set (l0 := {| K65Plus.pv := false;
                  K65Plus.brightness :=
                    if K65Plus.BrightnessLevel dp =? 0 then 1000
                    else K65Plus.BrightnessLevel dp;
                  K65Plus.buf := make 2; K65Plus.data := make bufferSize |}) in Es.
    destruct (dialEvent_press_wired first l0 d dp Hdp Hcd eq_refl eq_refl H1)
      as (l1 & d1 & E1 & Hb1 & Hpv1 & Hp1 & Hlen1 & Hbuf1).
    destruct (dialEvent_press_wired second l1 d1 _ Hp1
                ltac:(rewrite ControlDial_kept_wired; exact Hcd) Hlen1 Hbuf1 H2)
      as (l2 & d2 & E2 & Hb2 & Hpv2 & Hp2 & _ & _).
    cbn [K65Plus.pv l0 negb] in Hb1, Hpv1. rewrite Hpv1 in Hb2. cbn [negb] in Hb2.
    split.
    + exists l1, d1. unfold K65Plus.controlDialListener, Go.bind. rewrite Es.
      cbn [K65Plus.dialEvents]. unfold Go.bind. rewrite E1. split; [reflexivity|].
      unfold storedLevel. rewrite Hp1, Hb1. reflexivity.
    + exists l2, d2. unfold K65Plus.controlDialListener, Go.bind. rewrite Es.
      cbn [K65Plus.dialEvents]. unfold Go.bind. rewrite E1, E2. split; [reflexivity|].
      unfold storedLevel. rewrite Hp2, Hb2. reflexivity.
  - intros d dp first second Hdp Hcd H1 H2.
    pose proof (dialStart_wireless d dp Hdp) as Es.
    set (l0 := {| K65PlusW.pv := false;
                  K65PlusW.brightness :=
                    if K65PlusW.BrightnessLevel dp =? 0 then 1000
                    else K65PlusW.BrightnessLevel dp;
                  K65PlusW.buf := make 2; K65PlusW.data := make bufferSize |}) in Es.
    destruct (dialEvent_press_wireless first l0 d dp Hdp Hcd eq_refl eq_refl H1)
      as (l1 & d1 & E1 & Hb1 & Hpv1 & Hp1 & Hlen1 & Hbuf1).
    destruct (dialEvent_press_wireless second l1 d1 _ Hp1
                ltac:(rewrite ControlDial_kept_wireless; exact Hcd) Hlen1 Hbuf1 H2)
      as (l2 & d2 & E2 & Hb2 & Hpv2 & Hp2 & _ & _).
    cbn [K65PlusW.pv l0 negb] in Hb1, Hpv1. rewrite Hpv1 in Hb2. cbn [negb] in Hb2.
    split.
    + exists l1, d1. unfold K65PlusW.controlDialListener, Go.bind. rewrite Es.
      cbn [K65PlusW.dialEvents]. unfold Go.bind. rewrite E1. split; [reflexivity|].
      unfold storedLevelW. rewrite Hp1, Hb1. reflexivity.
    + exists l2, d2. unfold K65PlusW.controlDialListener, Go.bind. rewrite Es.
      cbn [K65PlusW.dialEvents]. unfold Go.bind. rewrite E1, E2. split; [reflexivity|].
      unfold storedLevelW. rewrite Hp2, Hb2. reflexivity.
Qed.

(** Witness of the amended C8: two presses from a stored level of 500. *)
Lemma C8_witness :
  (exists l' d',
     K65Plus.controlDialListener
       [Samples.dialReport x00 x02; Samples.dialReport x00 x02]
       (Samples.wired "static" 2 500) = Some (l', d') /\
     storedLevel d' = Some 1000)
  /\
  (exists l' d',
     K65PlusW.controlDialListener
       [Samples.dialReport x00 x02; Samples.dialReport x00 x02]
       (Samples.wireless "static" 2 500) = Some (l', d') /\
     storedLevelW d' = Some 1000).
Proof.
  split.
  - apply (proj1 C8_press_toggles_between_zero_and_full
             (Samples.wired "static" 2 500) _
             (Samples.dialReport x00 x02) (Samples.dialReport x00 x02)
             eq_refl eq_refl); split; reflexivity.
  - apply (proj2 C8_press_toggles_between_zero_and_full
             (Samples.wireless "static" 2 500) _
             (Samples.dialReport x00 x02) (Samples.dialReport x00 x02)
             eq_refl eq_refl); split; reflexivity.
Defined.

(* ================================================================== *)
(** * Further properties                                               *)
(* ================================================================== *)

(** ** The dial listener on arbitrary reports *)

Import Dial.

Lemma index_in_range (data : list byte) (i : nat) :
  (i < length data)%nat -> exists b, index data i = Some b.
Proof.
  intros H. unfold index. destruct (nth_error data i) as [b|] eqn:E.
  - now exists b.
  - apply nth_error_None in E. lia.
Qed.

(** One event under the brightness binding, for any report at all: the
    listener returns, the new level is stored in the profile, saved, and sent
    in one brightness report. [value] is byte 4 of the read buffer, [pressed]
    tells whether the event counted as a press. *)
Lemma dialEvent_brightness_wired (report : list byte) (l : K65Plus.Listener)
    (d : K65Plus.Device) (dp : K65Plus.DeviceProfile) :
  K65Plus.deviceProfile d = Some dp ->
  K65Plus.ControlDial dp = 2 ->
  length (K65Plus.data l) = bufferSize ->
  length (K65Plus.buf l) = 2%nat ->
  exists l' d' (value : Z) (pressed : bool),
    K65Plus.dialEvent report l d = Some (l', d') /\
    (forall b, nth_error report 4 = Some b -> value = Z_of_byte b) /\
    (pressed = true -> value = 0) /\
    K65Plus.pv l' = (if pressed then negb (K65Plus.pv l) else K65Plus.pv l) /\
    K65Plus.brightness l'
      = (if pressed then (if negb (K65Plus.pv l) then 0 else 1000)
         else if value =? 1 then
           (if K65Plus.brightness l >=? 1000 then 1000
            else wrap16 (K65Plus.brightness l + 100))
         else (if K65Plus.brightness l <=? 0 then 0 else wrap16 (K65Plus.brightness l - 100))) /\
    K65Plus.deviceProfile d'
      = Some (K65Plus.setBrightnessLevelField dp (K65Plus.brightness l')) /\
    length (K65Plus.data l') = bufferSize /\
    length (K65Plus.buf l') = 2%nat /\
    written (K65Plus.dev d')
      = written (K65Plus.dev d)
          ++ [reportOf x08 cmdBrightness
                [byte_of_Z (K65Plus.brightness l');
                 byte_of_Z (K65Plus.brightness l' / 256)]] /\
    K65Plus.external d'
      = K65Plus.external d
          ++ [K65Plus.SaveDeviceProfile
                (K65Plus.setBrightnessLevelField dp (K65Plus.brightness l'))].
Proof.
  intros Hdp Hcd Hlen Hbuf.
  destruct (read_into (K65Plus.data l) report Hlen) as (data' & E & Hl' & Hidx).
  destruct (index_in_range data' 4) as (b4 & H4);
    [rewrite Hl'; unfold bufferSize; lia|].
  destruct (index_in_range data' 19) as (b19 & H19);
    [rewrite Hl'; unfold bufferSize; lia|].
  assert (Hval : forall b, nth_error report 4 = Some b -> Z_of_byte b4 = Z_of_byte b).
  { intros b Hb. specialize (Hidx 4%nat b Hb ltac:(unfold bufferSize; lia)).
    congruence. }
  unfold K65Plus.dialEvent. run_monad. rewrite E, H4.
  destruct (Z_of_byte b4 =? 0) eqn:E0.
  - rewrite H19. apply Z.eqb_eq in E0.
    destruct (Z_of_byte b19 =? 2) eqn:E2.
    + rewrite Hdp, Hcd. cbn [Z.eqb Pos.eqb].
      match goal with
      | |- context [K65Plus.sendLevel ?v ?b ?d0] =>
          destruct (sendLevel_wired v b d0 dp Hdp Hbuf) as (d' & Es & Hp & Hw & Hx);
            rewrite Es
      end.
      eexists _, d', (Z_of_byte b4), true. split; [reflexivity|].
      repeat apply conj; auto.
    + rewrite Hdp, Hcd. cbn [Z.eqb Pos.eqb].
      match goal with
      | |- context [K65Plus.sendLevel ?v ?b ?d0] =>
          destruct (sendLevel_wired v b d0 dp Hdp Hbuf) as (d' & Es & Hp & Hw & Hx);
            rewrite Es
      end.
      eexists _, d', (Z_of_byte b4), false. split; [reflexivity|].
      repeat apply conj; auto; discriminate.
  - rewrite Hdp, Hcd. cbn [Z.eqb Pos.eqb].
    match goal with
    | |- context [K65Plus.sendLevel ?v ?b ?d0] =>
        destruct (sendLevel_wired v b d0 dp Hdp Hbuf) as (d' & Es & Hp & Hw & Hx);
          rewrite Es
    end.
    eexists _, d', (Z_of_byte b4), false. split; [reflexivity|].
    repeat apply conj; auto; discriminate.
Qed.

(** One event under the brightness binding, for any report at all: the
    listener returns, the new level is stored in the profile, saved, and sent
    in one brightness report. [value] is byte 4 of the read buffer, [pressed]
    tells whether the event counted as a press. *)
Lemma dialEvent_brightness_wireless (report : list byte) (l : K65PlusW.Listener)
    (d : K65PlusW.Device) (dp : K65PlusW.DeviceProfile) :
  K65PlusW.deviceProfile d = Some dp ->
  K65PlusW.ControlDial dp = 2 ->
  length (K65PlusW.data l) = bufferSize ->
  length (K65PlusW.buf l) = 2%nat ->
  exists l' d' (value : Z) (pressed : bool),
    K65PlusW.dialEvent report l d = Some (l', d') /\
    (forall b, nth_error report 4 = Some b -> value = Z_of_byte b) /\
    (pressed = true -> value = 0) /\
    K65PlusW.pv l' = (if pressed then negb (K65PlusW.pv l) else K65PlusW.pv l) /\
    K65PlusW.brightness l'
      = (if pressed then (if negb (K65PlusW.pv l) then 0 else 1000)
         else if value =? 1 then
           (if K65PlusW.brightness l >=? 1000 then 1000
            else wrap16 (K65PlusW.brightness l + 100))
         else if value =? 255 then
              (if K65PlusW.brightness l <=? 0 then 0 else wrap16 (K65PlusW.brightness l - 100))
            else K65PlusW.brightness l) /\
    K65PlusW.deviceProfile d'
      = Some (K65PlusW.setBrightnessLevelField dp (K65PlusW.brightness l')) /\
    length (K65PlusW.data l') = bufferSize /\
    length (K65PlusW.buf l') = 2%nat /\
    written (K65PlusW.dev d')
      = written (K65PlusW.dev d)
          ++ [reportOf (byte_of_Z K65PlusW.cmdKeyboard) cmdBrightness
                [byte_of_Z (K65PlusW.brightness l');
                 byte_of_Z (K65PlusW.brightness l' / 256)]] /\
    K65PlusW.external d'
      = K65PlusW.external d
          ++ [K65PlusW.SaveDeviceProfile
                (K65PlusW.setBrightnessLevelField dp (K65PlusW.brightness l'))].
Proof.
  intros Hdp Hcd Hlen Hbuf.
  destruct (read_into (K65PlusW.data l) report Hlen) as (data' & E & Hl' & Hidx).
  destruct (index_in_range data' 4) as (b4 & H4);
    [rewrite Hl'; unfold bufferSize; lia|].
  destruct (index_in_range data' 19) as (b19 & H19);
    [rewrite Hl'; unfold bufferSize; lia|].
  assert (Hval : forall b, nth_error report 4 = Some b -> Z_of_byte b4 = Z_of_byte b).
  { intros b Hb. specialize (Hidx 4%nat b Hb ltac:(unfold bufferSize; lia)).
    congruence. }
  unfold K65PlusW.dialEvent. run_monad. rewrite E, H4.
  destruct (Z_of_byte b4 =? 0) eqn:E0.
  - rewrite H19. apply Z.eqb_eq in E0.
    destruct (Z_of_byte b19 =? 2) eqn:E2.
    + rewrite Hdp, Hcd. cbn [Z.eqb Pos.eqb].
      match goal with
      | |- context [K65PlusW.sendLevel ?v ?b ?d0] =>
          destruct (sendLevel_wireless v b d0 dp Hdp Hbuf) as (d' & Es & Hp & Hw & Hx);
            rewrite Es
      end.
      eexists _, d', (Z_of_byte b4), true. split; [reflexivity|].
      repeat apply conj; auto.
    + rewrite Hdp, Hcd. cbn [Z.eqb Pos.eqb].
      match goal with
      | |- context [K65PlusW.sendLevel ?v ?b ?d0] =>
          destruct (sendLevel_wireless v b d0 dp Hdp Hbuf) as (d' & Es & Hp & Hw & Hx);
            rewrite Es
      end.
      eexists _, d', (Z_of_byte b4), false. split; [reflexivity|].
      repeat apply conj; auto; discriminate.
  - rewrite Hdp, Hcd. cbn [Z.eqb Pos.eqb].
    match goal with
    | |- context [K65PlusW.sendLevel ?v ?b ?d0] =>
        destruct (sendLevel_wireless v b d0 dp Hdp Hbuf) as (d' & Es & Hp & Hw & Hx);
          rewrite Es
    end.
    eexists _, d', (Z_of_byte b4), false. split; [reflexivity|].
    repeat apply conj; auto; discriminate.
Qed.

Lemma last_cons (A : Type) (x d : A) (l : list A) : last (x :: l) d = last l x.
Proof.
  revert x d. induction l as [|y l IH]; intros x d; [reflexivity|].
  change (last (x :: y :: l) d) with (last (y :: l) d).
  now rewrite !IH.
Qed.

(** The scale is closed under every move of the brightness case: a press,
    a step up held at 1000, a step down held at 0, or no move. *)
Lemma step_onScale (level value : Z) (pressed pv : bool) :
  onScale level ->
  onScale (if pressed then (if negb pv then 0 else 1000)
           else if value =? 1 then
             (if level >=? 1000 then 1000 else wrap16 (level + 100))
           else (if level <=? 0 then 0 else wrap16 (level - 100)))
  /\
  onScale (if pressed then (if negb pv then 0 else 1000)
           else if value =? 1 then
             (if level >=? 1000 then 1000 else wrap16 (level + 100))
           else if value =? 255 then
             (if level <=? 0 then 0 else wrap16 (level - 100))
           else level).
Proof.
  intros (q & -> & Hq).
  assert (H0 : onScale 0) by (exists 0; lia).
  assert (H1000 : onScale 1000) by (exists 10; lia).
  assert (Hup : onScale (if 100 * q >=? 1000 then 1000 else wrap16 (100 * q + 100))).
  { destruct (100 * q >=? 1000) eqn:E; [exact H1000|].
    rewrite Z.geb_leb in E. apply Z.leb_gt in E.
    unfold wrap16. rewrite Z.mod_small by lia. exists (q + 1). lia. }
  assert (Hdown : onScale (if 100 * q <=? 0 then 0 else wrap16 (100 * q - 100))).
  { destruct (100 * q <=? 0) eqn:E; [exact H0|].
    apply Z.leb_gt in E.
    unfold wrap16. rewrite Z.mod_small by lia. exists (q - 1). lia. }
  assert (Hsame : onScale (100 * q)) by (exists q; lia).
  split; destruct pressed; try (destruct pv; assumption);
    destruct (value =? 1); try assumption;
    destruct (value =? 255); assumption.
Qed.

Lemma set_level_twice_wired (dp : K65Plus.DeviceProfile) (a b : Z) :
  K65Plus.setBrightnessLevelField (K65Plus.setBrightnessLevelField dp a) b
  = K65Plus.setBrightnessLevelField dp b.
Proof. reflexivity. Qed.

Lemma set_level_same_wired (dp : K65Plus.DeviceProfile) :
  K65Plus.setBrightnessLevelField dp (K65Plus.BrightnessLevel dp) = dp.
Proof. now destruct dp. Qed.

(** Any sequence of reports under the brightness binding, from a level on
    the scale: [levels] are the levels after each event. *)
Lemma dialEvents_brightness_wired (reports : list (list byte)) :
  forall (l : K65Plus.Listener) (d : K65Plus.Device) (dp : K65Plus.DeviceProfile),
  K65Plus.deviceProfile d = Some dp ->
  K65Plus.ControlDial dp = 2 ->
  length (K65Plus.data l) = bufferSize ->
  length (K65Plus.buf l) = 2%nat ->
  onScale (K65Plus.brightness l) ->
  exists l' d' levels,
    K65Plus.dialEvents reports l d = Some (l', d') /\
    length levels = length reports /\
    Forall onScale levels /\
    K65Plus.brightness l' = last levels (K65Plus.brightness l) /\
    K65Plus.deviceProfile d'
      = Some (K65Plus.setBrightnessLevelField dp
                (last levels (K65Plus.BrightnessLevel dp))) /\
    written (K65Plus.dev d')
      = written (K65Plus.dev d)
          ++ map (fun level => reportOf x08 cmdBrightness
                                 [byte_of_Z level; byte_of_Z (level / 256)])
                 levels /\
    K65Plus.external d'
      = K65Plus.external d
          ++ map (fun level => K65Plus.SaveDeviceProfile
                                 (K65Plus.setBrightnessLevelField dp level))
                 levels.
Proof.
  induction reports as [|report rest IH]; intros l d dp Hdp Hcd Hlen Hbuf Hs.
  - exists l, d, []. cbn [K65Plus.dialEvents map last length]. unfold Go.ret.
    rewrite set_level_same_wired, !app_nil_r. repeat apply conj; auto.
  - destruct (dialEvent_brightness_wired report l d dp Hdp Hcd Hlen Hbuf)
      as (l1 & d1 & value & pressed & E1 & _ & _ & _ & Hb1 & Hp1 & Hlen1
          & Hbuf1 & Hw1 & Hx1).
    assert (Hs1 : onScale (K65Plus.brightness l1)).
    { rewrite Hb1. apply (proj1 (step_onScale _ value pressed (K65Plus.pv l) Hs)). }
    destruct (IH l1 d1 _ Hp1 Hcd Hlen1 Hbuf1 Hs1)
      as (l2 & d2 & levels & E2 & Hn & Hall & Hb2 & Hp2 & Hw2 & Hx2).
    exists l2, d2, (K65Plus.brightness l1 :: levels).
    split. { cbn [K65Plus.dialEvents]. unfold Go.bind. rewrite E1. exact E2. }
    split; [cbn [length]; now rewrite Hn|].
    split; [now constructor|].
    split; [now rewrite last_cons|].
    split. { rewrite Hp2, last_cons. reflexivity. }
    split.
    + rewrite Hw2, Hw1, <- app_assoc. reflexivity.
    + rewrite Hx2, Hx1, <- app_assoc. reflexivity.
Qed.

Lemma set_level_twice_wireless (dp : K65PlusW.DeviceProfile) (a b : Z) :
  K65PlusW.setBrightnessLevelField (K65PlusW.setBrightnessLevelField dp a) b
  = K65PlusW.setBrightnessLevelField dp b.
Proof. reflexivity. Qed.

Lemma set_level_same_wireless (dp : K65PlusW.DeviceProfile) :
  K65PlusW.setBrightnessLevelField dp (K65PlusW.BrightnessLevel dp) = dp.
Proof. now destruct dp. Qed.

(** Any sequence of reports under the brightness binding, from a level on
    the scale: [levels] are the levels after each event. *)
Lemma dialEvents_brightness_wireless (reports : list (list byte)) :
  forall (l : K65PlusW.Listener) (d : K65PlusW.Device) (dp : K65PlusW.DeviceProfile),
  K65PlusW.deviceProfile d = Some dp ->
  K65PlusW.ControlDial dp = 2 ->
  length (K65PlusW.data l) = bufferSize ->
  length (K65PlusW.buf l) = 2%nat ->
  onScale (K65PlusW.brightness l) ->
  exists l' d' levels,
    K65PlusW.dialEvents reports l d = Some (l', d') /\
    length levels = length reports /\
    Forall onScale levels /\
    K65PlusW.brightness l' = last levels (K65PlusW.brightness l) /\
    K65PlusW.deviceProfile d'
      = Some (K65PlusW.setBrightnessLevelField dp
                (last levels (K65PlusW.BrightnessLevel dp))) /\
    written (K65PlusW.dev d')
      = written (K65PlusW.dev d)
          ++ map (fun level => reportOf (byte_of_Z K65PlusW.cmdKeyboard) cmdBrightness
                                 [byte_of_Z level; byte_of_Z (level / 256)])
                 levels /\
    K65PlusW.external d'
      = K65PlusW.external d
          ++ map (fun level => K65PlusW.SaveDeviceProfile
                                 (K65PlusW.setBrightnessLevelField dp level))
                 levels.
Proof.
  induction reports as [|report rest IH]; intros l d dp Hdp Hcd Hlen Hbuf Hs.
  - exists l, d, []. cbn [K65PlusW.dialEvents map last length]. unfold Go.ret.
    rewrite set_level_same_wireless, !app_nil_r. repeat apply conj; auto.
  - destruct (dialEvent_brightness_wireless report l d dp Hdp Hcd Hlen Hbuf)
      as (l1 & d1 & value & pressed & E1 & _ & _ & _ & Hb1 & Hp1 & Hlen1
          & Hbuf1 & Hw1 & Hx1).
    assert (Hs1 : onScale (K65PlusW.brightness l1)).
    { rewrite Hb1. apply (proj2 (step_onScale _ value pressed (K65PlusW.pv l) Hs)). }
    destruct (IH l1 d1 _ Hp1 Hcd Hlen1 Hbuf1 Hs1)
      as (l2 & d2 & levels & E2 & Hn & Hall & Hb2 & Hp2 & Hw2 & Hx2).
    exists l2, d2, (K65PlusW.brightness l1 :: levels).
    split. { cbn [K65PlusW.dialEvents]. unfold Go.bind. rewrite E1. exact E2. }
    split; [cbn [length]; now rewrite Hn|].
    split; [now constructor|].
    split; [now rewrite last_cons|].
    split. { rewrite Hp2, last_cons. reflexivity. }
    split.
    + rewrite Hw2, Hw1, <- app_assoc. reflexivity.
    + rewrite Hx2, Hx1, <- app_assoc. reflexivity.
Qed.

(** One event under the volume binding, for any report: one call of the
    volume control, and nothing else but a warning when the call fails. *)
Lemma dialEvent_volume_wired (report : list byte) (l : K65Plus.Listener)
    (d : K65Plus.Device) (dp : K65Plus.DeviceProfile) :
  K65Plus.deviceProfile d = Some dp ->
  K65Plus.ControlDial dp = 1 ->
  length (K65Plus.data l) = bufferSize ->
  exists l' d' x,
    K65Plus.dialEvent report l d = Some (l', d') /\
    volumeCall x = true /\
    K65Plus.external d' = K65Plus.external d ++ [x] /\
    K65Plus.dev d' = K65Plus.dev d /\
    K65Plus.deviceProfile d' = Some dp /\
    K65Plus.brightness l' = K65Plus.brightness l /\
    length (K65Plus.data l') = bufferSize.
Proof.
  intros Hdp Hcd Hlen.
  destruct (read_into (K65Plus.data l) report Hlen) as (data' & E & Hl' & Hidx).
  destruct (index_in_range data' 4) as (b4 & H4);
    [rewrite Hl'; unfold bufferSize; lia|].
  destruct (index_in_range data' 19) as (b19 & H19);
    [rewrite Hl'; unfold bufferSize; lia|].
  unfold K65Plus.dialEvent. run_monad. rewrite E, H4.
  destruct (Z_of_byte b4 =? 0) eqn:E0;
    [rewrite H19; destruct (Z_of_byte b19 =? 2) eqn:E2|];
    rewrite Hdp, Hcd; cbn [Z.eqb Pos.eqb]; unfold K65Plus.sound, K65Plus.logger;
    run_monad; destruct (hd false (K65Plus.soundErrors d));
    eexists _, _, _; (split; [reflexivity|]); repeat apply conj;
    try reflexivity; auto.
Qed.

Lemma dialEvents_volume_wired (reports : list (list byte)) :
  forall (l : K65Plus.Listener) (d : K65Plus.Device) (dp : K65Plus.DeviceProfile),
  K65Plus.deviceProfile d = Some dp ->
  K65Plus.ControlDial dp = 1 ->
  length (K65Plus.data l) = bufferSize ->
  exists l' d' calls,
    K65Plus.dialEvents reports l d = Some (l', d') /\
    K65Plus.external d' = K65Plus.external d ++ calls /\
    length calls = length reports /\
    forallb volumeCall calls = true /\
    K65Plus.dev d' = K65Plus.dev d /\
    K65Plus.deviceProfile d' = Some dp /\
    K65Plus.brightness l' = K65Plus.brightness l.
Proof.
  induction reports as [|report rest IH]; intros l d dp Hdp Hcd Hlen.
  - exists l, d, []. cbn. rewrite app_nil_r. repeat apply conj; auto.
  - destruct (dialEvent_volume_wired report l d dp Hdp Hcd Hlen)
      as (l1 & d1 & x & E1 & Hv & Hx1 & Hd1 & Hp1 & Hb1 & Hlen1).
    destruct (IH l1 d1 dp Hp1 Hcd Hlen1)
      as (l2 & d2 & calls & E2 & Hx2 & Hn & Hall & Hd2 & Hp2 & Hb2).
    exists l2, d2, (x :: calls).
    split. { cbn [K65Plus.dialEvents]. unfold Go.bind. rewrite E1. exact E2. }
    repeat apply conj.
    + rewrite Hx2, Hx1, <- app_assoc. reflexivity.
    + cbn [length]. now rewrite Hn.
    + cbn [forallb]. now rewrite Hv, Hall.
    + congruence.
    + exact Hp2.
    + congruence.
Qed.

(** One event under a binding that is neither volume nor brightness: the
    report is read and dropped. *)
Lemma dialEvent_unbound_wired (report : list byte) (l : K65Plus.Listener)
    (d : K65Plus.Device) (dp : K65Plus.DeviceProfile) :
  K65Plus.deviceProfile d = Some dp ->
  K65Plus.ControlDial dp <> 1 ->
  K65Plus.ControlDial dp <> 2 ->
  length (K65Plus.data l) = bufferSize ->
  exists l',
    K65Plus.dialEvent report l d = Some (l', d) /\
    K65Plus.brightness l' = K65Plus.brightness l /\
    K65Plus.pv l' = K65Plus.pv l /\
    length (K65Plus.data l') = bufferSize.
Proof.
  intros Hdp H1 H2 Hlen.
  destruct (read_into (K65Plus.data l) report Hlen) as (data' & E & Hl' & Hidx).
  destruct (index_in_range data' 4) as (b4 & H4);
    [rewrite Hl'; unfold bufferSize; lia|].
  destruct (index_in_range data' 19) as (b19 & H19);
    [rewrite Hl'; unfold bufferSize; lia|].
  apply Z.eqb_neq in H1. apply Z.eqb_neq in H2.
  unfold K65Plus.dialEvent. run_monad. rewrite E, H4.
  destruct (Z_of_byte b4 =? 0) eqn:E0;
    [rewrite H19; destruct (Z_of_byte b19 =? 2) eqn:E2|];
    rewrite Hdp, H1, H2; eexists; (split; [reflexivity|]);
    repeat apply conj; auto.
Qed.

Lemma dialEvents_unbound_wired (reports : list (list byte)) :
  forall (l : K65Plus.Listener) (d : K65Plus.Device) (dp : K65Plus.DeviceProfile),
  K65Plus.deviceProfile d = Some dp ->
  K65Plus.ControlDial dp <> 1 ->
  K65Plus.ControlDial dp <> 2 ->
  length (K65Plus.data l) = bufferSize ->
  exists l',
    K65Plus.dialEvents reports l d = Some (l', d) /\
    K65Plus.brightness l' = K65Plus.brightness l /\
    K65Plus.pv l' = K65Plus.pv l.
Proof.
  induction reports as [|report rest IH]; intros l d dp Hdp H1 H2 Hlen.
  - exists l. repeat split.
  - destruct (dialEvent_unbound_wired report l d dp Hdp H1 H2 Hlen)
      as (l1 & E1 & Hb1 & Hpv1 & Hlen1).
    destruct (IH l1 d dp Hdp H1 H2 Hlen1) as (l2 & E2 & Hb2 & Hpv2).
    exists l2. split.
    { cbn [K65Plus.dialEvents]. unfold Go.bind. rewrite E1. exact E2. }
    split; congruence.
Qed.

(** One event under the volume binding, for any report: one call of the
    volume control, and nothing else but a warning when the call fails. *)
Lemma dialEvent_volume_wireless (report : list byte) (l : K65PlusW.Listener)
    (d : K65PlusW.Device) (dp : K65PlusW.DeviceProfile) :
  K65PlusW.deviceProfile d = Some dp ->
  K65PlusW.ControlDial dp = 1 ->
  length (K65PlusW.data l) = bufferSize ->
  exists l' d' x,
    K65PlusW.dialEvent report l d = Some (l', d') /\
    volumeCallW x = true /\
    K65PlusW.external d' = K65PlusW.external d ++ [x] /\
    K65PlusW.dev d' = K65PlusW.dev d /\
    K65PlusW.deviceProfile d' = Some dp /\
    K65PlusW.brightness l' = K65PlusW.brightness l /\
    length (K65PlusW.data l') = bufferSize.
Proof.
  intros Hdp Hcd Hlen.
  destruct (read_into (K65PlusW.data l) report Hlen) as (data' & E & Hl' & Hidx).
  destruct (index_in_range data' 4) as (b4 & H4);
    [rewrite Hl'; unfold bufferSize; lia|].
  destruct (index_in_range data' 19) as (b19 & H19);
    [rewrite Hl'; unfold bufferSize; lia|].
  unfold K65PlusW.dialEvent. run_monad. rewrite E, H4.
  destruct (Z_of_byte b4 =? 0) eqn:E0;
    [rewrite H19; destruct (Z_of_byte b19 =? 2) eqn:E2|];
    rewrite Hdp, Hcd; cbn [Z.eqb Pos.eqb]; unfold K65PlusW.sound, K65PlusW.logger;
    run_monad; destruct (hd false (K65PlusW.soundErrors d));
    eexists _, _, _; (split; [reflexivity|]); repeat apply conj;
    try reflexivity; auto.
Qed.

Lemma dialEvents_volume_wireless (reports : list (list byte)) :
  forall (l : K65PlusW.Listener) (d : K65PlusW.Device) (dp : K65PlusW.DeviceProfile),
  K65PlusW.deviceProfile d = Some dp ->
  K65PlusW.ControlDial dp = 1 ->
  length (K65PlusW.data l) = bufferSize ->
  exists l' d' calls,
    K65PlusW.dialEvents reports l d = Some (l', d') /\
    K65PlusW.external d' = K65PlusW.external d ++ calls /\
    length calls = length reports /\
    forallb volumeCallW calls = true /\
    K65PlusW.dev d' = K65PlusW.dev d /\
    K65PlusW.deviceProfile d' = Some dp /\
    K65PlusW.brightness l' = K65PlusW.brightness l.
Proof.
  induction reports as [|report rest IH]; intros l d dp Hdp Hcd Hlen.
  - exists l, d, []. cbn. rewrite app_nil_r. repeat apply conj; auto.
  - destruct (dialEvent_volume_wireless report l d dp Hdp Hcd Hlen)
      as (l1 & d1 & x & E1 & Hv & Hx1 & Hd1 & Hp1 & Hb1 & Hlen1).
    destruct (IH l1 d1 dp Hp1 Hcd Hlen1)
      as (l2 & d2 & calls & E2 & Hx2 & Hn & Hall & Hd2 & Hp2 & Hb2).
    exists l2, d2, (x :: calls).
    split. { cbn [K65PlusW.dialEvents]. unfold Go.bind. rewrite E1. exact E2. }
    repeat apply conj.
    + rewrite Hx2, Hx1, <- app_assoc. reflexivity.
    + cbn [length]. now rewrite Hn.
    + cbn [forallb]. now rewrite Hv, Hall.
    + congruence.
    + exact Hp2.
    + congruence.
Qed.

(** One event under a binding that is neither volume nor brightness: the
    report is read and dropped. *)
Lemma dialEvent_unbound_wireless (report : list byte) (l : K65PlusW.Listener)
    (d : K65PlusW.Device) (dp : K65PlusW.DeviceProfile) :
  K65PlusW.deviceProfile d = Some dp ->
  K65PlusW.ControlDial dp <> 1 ->
  K65PlusW.ControlDial dp <> 2 ->
  length (K65PlusW.data l) = bufferSize ->
  exists l',
    K65PlusW.dialEvent report l d = Some (l', d) /\
    K65PlusW.brightness l' = K65PlusW.brightness l /\
    K65PlusW.pv l' = K65PlusW.pv l /\
    length (K65PlusW.data l') = bufferSize.
Proof.
  intros Hdp H1 H2 Hlen.
  destruct (read_into (K65PlusW.data l) report Hlen) as (data' & E & Hl' & Hidx).
  destruct (index_in_range data' 4) as (b4 & H4);
    [rewrite Hl'; unfold bufferSize; lia|].
  destruct (index_in_range data' 19) as (b19 & H19);
    [rewrite Hl'; unfold bufferSize; lia|].
  apply Z.eqb_neq in H1. apply Z.eqb_neq in H2.
  unfold K65PlusW.dialEvent. run_monad. rewrite E, H4.
  destruct (Z_of_byte b4 =? 0) eqn:E0;
    [rewrite H19; destruct (Z_of_byte b19 =? 2) eqn:E2|];
    rewrite Hdp, H1, H2; eexists; (split; [reflexivity|]);
    repeat apply conj; auto.
Qed.

Lemma dialEvents_unbound_wireless (reports : list (list byte)) :
  forall (l : K65PlusW.Listener) (d : K65PlusW.Device) (dp : K65PlusW.DeviceProfile),
  K65PlusW.deviceProfile d = Some dp ->
  K65PlusW.ControlDial dp <> 1 ->
  K65PlusW.ControlDial dp <> 2 ->
  length (K65PlusW.data l) = bufferSize ->
  exists l',
    K65PlusW.dialEvents reports l d = Some (l', d) /\
    K65PlusW.brightness l' = K65PlusW.brightness l /\
    K65PlusW.pv l' = K65PlusW.pv l.
Proof.
  induction reports as [|report rest IH]; intros l d dp Hdp H1 H2 Hlen.
  - exists l. repeat split.
  - destruct (dialEvent_unbound_wireless report l d dp Hdp H1 H2 Hlen)
      as (l1 & E1 & Hb1 & Hpv1 & Hlen1).
    destruct (IH l1 d dp Hdp H1 H2 Hlen1) as (l2 & E2 & Hb2 & Hpv2).
    exists l2. split.
    { cbn [K65PlusW.dialEvents]. unfold Go.bind. rewrite E1. exact E2. }
    split; congruence.
Qed.

Lemma last_Forall (A : Type) (P : A -> Prop) (l : list A) (d : A) :
  Forall P l -> P d -> P (last l d).
Proof.
  intros H. revert d. induction H as [|x l Hx Hl IH]; intros d Hd; [exact Hd|].
  rewrite last_cons. now apply IH.
Qed.

Lemma start_onScale (level : Z) :
  onScale level -> onScale (if level =? 0 then 1000 else level).
Proof.
  intros H. destruct (level =? 0); [exists 10; lia|exact H].
Qed.

Lemma Uint16_onScale (level : Z) :
  onScale level ->
  Uint16 [byte_of_Z level; byte_of_Z (level / 256)] = Some level.
Proof.
  intros (q & -> & Hq). cbn [Uint16]. rewrite little_endian_16.
  now rewrite Z.mod_small by lia.
Qed.

(** X1. Under the brightness binding, started on a stored level that is a
    multiple of 100 between 0 and 1000, the listener gets through any
    sequence of reports whatever their bytes, and the level it keeps and the
    level the profile holds are again multiples of 100 between 0 and 1000.
    Wired package first, wireless package second. *)
Theorem dial_level_stays_on_scale :
  (forall (d : K65Plus.Device) (dp : K65Plus.DeviceProfile)
          (reports : list (list byte)),
     K65Plus.deviceProfile d = Some dp ->
     K65Plus.ControlDial dp = 2 ->
     onScale (K65Plus.BrightnessLevel dp) ->
     exists l' d' level,
       K65Plus.controlDialListener reports d = Some (l', d') /\
       onScale (K65Plus.brightness l') /\
       storedLevel d' = Some level /\
       onScale level)
  /\
  (forall (d : K65PlusW.Device) (dp : K65PlusW.DeviceProfile)
          (reports : list (list byte)),
     K65PlusW.deviceProfile d = Some dp ->
     K65PlusW.ControlDial dp = 2 ->
     onScale (K65PlusW.BrightnessLevel dp) ->
     exists l' d' level,
       K65PlusW.controlDialListener reports d = Some (l', d') /\
       onScale (K65PlusW.brightness l') /\
       storedLevelW d' = Some level /\
       onScale level).
Proof.
  split.
  - intros d dp reports Hdp Hcd Hs.
    destruct (dialEvents_brightness_wired reports
                {| K65Plus.pv := false;
                   K65Plus.brightness :=
                     if K65Plus.BrightnessLevel dp =? 0 then 1000
                     else K65Plus.BrightnessLevel dp;
                   K65Plus.buf := make 2; K65Plus.data := make bufferSize |}
                d dp Hdp Hcd eq_refl eq_refl (start_onScale _ Hs))
      as (l' & d' & levels & E & _ & Hall & Hb & Hp & _ & _).
    exists l', d', (last levels (K65Plus.BrightnessLevel dp)).
    unfold K65Plus.controlDialListener, Go.bind.
    rewrite (dialStart_wired d dp Hdp).
    split; [exact E|]. split.
    { rewrite Hb. apply last_Forall; [exact Hall|]. now apply start_onScale. }
    split; [unfold storedLevel; rewrite Hp; reflexivity|].
    now apply last_Forall.
  - intros d dp reports Hdp Hcd Hs.
    destruct (dialEvents_brightness_wireless reports
                {| K65PlusW.pv := false;
                   K65PlusW.brightness :=
                     if K65PlusW.BrightnessLevel dp =? 0 then 1000
                     else K65PlusW.BrightnessLevel dp;
                   K65PlusW.buf := make 2; K65PlusW.data := make bufferSize |}
                d dp Hdp Hcd eq_refl eq_refl (start_onScale _ Hs))
      as (l' & d' & levels & E & _ & Hall & Hb & Hp & _ & _).
    exists l', d', (last levels (K65PlusW.BrightnessLevel dp)).
    unfold K65PlusW.controlDialListener, Go.bind.
    rewrite (dialStart_wireless d dp Hdp).
    split; [exact E|]. split.
    { rewrite Hb. apply last_Forall; [exact Hall|]. now apply start_onScale. }
    split; [unfold storedLevelW; rewrite Hp; reflexivity|].
    now apply last_Forall.
Qed.

(** Witness of X1: a press, a stray report, two turns to the left, a
    five-byte report, a turn to the right, from a stored level of 100. *)
Lemma dial_level_stays_on_scale_witness :
  (exists l' d' level,
     K65Plus.controlDialListener
       [Samples.dialReport x00 x02; Samples.dialReport x07 x00;
        Samples.dialReport xff x00; Samples.dialReport xff x00;
        [x00; x00; x00; x00; x01]; Samples.dialReport x01 x00]
       (Samples.wired "static" 2 100) = Some (l', d') /\
     onScale (K65Plus.brightness l') /\
     storedLevel d' = Some level /\
     onScale level)
  /\
  (exists l' d' level,
     K65PlusW.controlDialListener
       [Samples.dialReport x00 x02; Samples.dialReport x07 x00;
        Samples.dialReport xff x00; Samples.dialReport xff x00;
        [x00; x00; x00; x00; x01]; Samples.dialReport x01 x00]
       (Samples.wireless "static" 2 100) = Some (l', d') /\
     onScale (K65PlusW.brightness l') /\
     storedLevelW d' = Some level /\
     onScale level).
Proof.
  split.
  - apply (proj1 dial_level_stays_on_scale (Samples.wired "static" 2 100) _ _
             eq_refl eq_refl).
    exists 1. cbn. lia.
  - apply (proj2 dial_level_stays_on_scale (Samples.wireless "static" 2 100) _ _
             eq_refl eq_refl).
    exists 1. cbn. lia.
Defined.

(** X2. Under the brightness binding, started on a level on the scale,
    every report read, whatever its bytes, makes the listener save the
    profile once and hand exactly one brightness report to the device; both
    carry the level after that event, and the two payload bytes of the report
    read back, little-endian, as that level. The profile ends with the last
    of these levels. *)
Theorem dial_event_saves_and_sends_level :
  (forall (d : K65Plus.Device) (dp : K65Plus.DeviceProfile)
          (reports : list (list byte)),
     K65Plus.deviceProfile d = Some dp ->
     K65Plus.ControlDial dp = 2 ->
     onScale (K65Plus.BrightnessLevel dp) ->
     exists l' d' levels,
       K65Plus.controlDialListener reports d = Some (l', d') /\
       length levels = length reports /\
       written (K65Plus.dev d')
         = written (K65Plus.dev d)
             ++ map (fun level => reportOf x08 cmdBrightness
                                    [byte_of_Z level; byte_of_Z (level / 256)])
                    levels /\
       K65Plus.external d'
         = K65Plus.external d
             ++ map (fun level => K65Plus.SaveDeviceProfile
                                    (K65Plus.setBrightnessLevelField dp level))
                    levels /\
       Forall (fun level =>
                 Uint16 [byte_of_Z level; byte_of_Z (level / 256)] = Some level)
              levels /\
       storedLevel d' = Some (last levels (K65Plus.BrightnessLevel dp)))
  /\
  (forall (d : K65PlusW.Device) (dp : K65PlusW.DeviceProfile)
          (reports : list (list byte)),
     K65PlusW.deviceProfile d = Some dp ->
     K65PlusW.ControlDial dp = 2 ->
     onScale (K65PlusW.BrightnessLevel dp) ->
     exists l' d' levels,
       K65PlusW.controlDialListener reports d = Some (l', d') /\
       length levels = length reports /\
       written (K65PlusW.dev d')
         = written (K65PlusW.dev d)
             ++ map (fun level => reportOf (byte_of_Z K65PlusW.cmdKeyboard) cmdBrightness
                                    [byte_of_Z level; byte_of_Z (level / 256)])
                    levels /\
       K65PlusW.external d'
         = K65PlusW.external d
             ++ map (fun level => K65PlusW.SaveDeviceProfile
                                    (K65PlusW.setBrightnessLevelField dp level))
                    levels /\
       Forall (fun level =>
                 Uint16 [byte_of_Z level; byte_of_Z (level / 256)] = Some level)
              levels /\
       storedLevelW d' = Some (last levels (K65PlusW.BrightnessLevel dp))).
Proof.
  split.
  - intros d dp reports Hdp Hcd Hs.
    destruct (dialEvents_brightness_wired reports
                {| K65Plus.pv := false;
                   K65Plus.brightness :=
                     if K65Plus.BrightnessLevel dp =? 0 then 1000
                     else K65Plus.BrightnessLevel dp;
                   K65Plus.buf := make 2; K65Plus.data := make bufferSize |}
                d dp Hdp Hcd eq_refl eq_refl (start_onScale _ Hs))
      as (l' & d' & levels & E & Hn & Hall & Hb & Hp & Hw & Hx).
    exists l', d', levels.
    unfold K65Plus.controlDialListener, Go.bind.
    rewrite (dialStart_wired d dp Hdp).
    repeat apply conj; auto.
    + eapply Forall_impl; [|exact Hall]. intros level. apply Uint16_onScale.
    + unfold storedLevel. rewrite Hp. reflexivity.
  - intros d dp reports Hdp Hcd Hs.
    destruct (dialEvents_brightness_wireless reports
                {| K65PlusW.pv := false;
                   K65PlusW.brightness :=
                     if K65PlusW.BrightnessLevel dp =? 0 then 1000
                     else K65PlusW.BrightnessLevel dp;
                   K65PlusW.buf := make 2; K65PlusW.data := make bufferSize |}
                d dp Hdp Hcd eq_refl eq_refl (start_onScale _ Hs))
      as (l' & d' & levels & E & Hn & Hall & Hb & Hp & Hw & Hx).
    exists l', d', levels.
    unfold K65PlusW.controlDialListener, Go.bind.
    rewrite (dialStart_wireless d dp Hdp).
    repeat apply conj; auto.
    + eapply Forall_impl; [|exact Hall]. intros level. apply Uint16_onScale.
    + unfold storedLevelW. rewrite Hp. reflexivity.
Qed.

(** Witness of X2: three turns to the right from a stored level of 500. *)
Lemma dial_event_saves_and_sends_level_witness :
  exists l' d' levels,
    K65Plus.controlDialListener (repeat (Samples.dialReport x01 x00) 3)
      (Samples.wired "static" 2 500) = Some (l', d') /\
    length levels = 3%nat /\
    written (K65Plus.dev d')
      = map (fun level => reportOf x08 cmdBrightness
                            [byte_of_Z level; byte_of_Z (level / 256)])
            levels /\
    storedLevel d' = Some (last levels 500).
Proof.
  destruct (proj1 dial_event_saves_and_sends_level
              (Samples.wired "static" 2 500) _
              (repeat (Samples.dialReport x01 x00) 3) eq_refl eq_refl)
    as (l' & d' & levels & E & Hn & Hw & _ & _ & Hs).
  { exists 5. cbn. lia. }
  exists l', d', levels. repeat apply conj; auto.
Defined.



(** X4. A stored level of 0 is taken for 1000 when the listener starts:
    under the brightness binding the first turn to the left then stores 900,
    and the first turn to the right stores 1000. *)
Theorem dial_stored_zero_starts_at_full :
  (forall (d : K65Plus.Device) (dp : K65Plus.DeviceProfile) (report : list byte),
     K65Plus.deviceProfile d = Some dp ->
     K65Plus.ControlDial dp = 2 ->
     K65Plus.BrightnessLevel dp = 0 ->
     (decrease report ->
      exists l' d',
        K65Plus.controlDialListener [report] d = Some (l', d') /\
        storedLevel d' = Some 900) /\
     (increase report ->
      exists l' d',
        K65Plus.controlDialListener [report] d = Some (l', d') /\
        storedLevel d' = Some 1000))
  /\
  (forall (d : K65PlusW.Device) (dp : K65PlusW.DeviceProfile) (report : list byte),
     K65PlusW.deviceProfile d = Some dp ->
     K65PlusW.ControlDial dp = 2 ->
     K65PlusW.BrightnessLevel dp = 0 ->
     (decrease report ->
      exists l' d',
        K65PlusW.controlDialListener [report] d = Some (l', d') /\
        storedLevelW d' = Some 900) /\
     (increase report ->
      exists l' d',
        K65PlusW.controlDialListener [report] d = Some (l', d') /\
        storedLevelW d' = Some 1000)).
Proof.
  split.
  - intros d dp report Hdp Hcd Hb.
    pose proof (dialStart_wired d dp Hdp) as Es.
    rewrite Hb in Es. cbn [Z.eqb] in Es.
    split; intros Hr.
    + match type of Es with
      | _ = Some (?l0, _) =>
          destruct (dialEvent_decrease_wired report l0 d dp Hdp Hcd eq_refl eq_refl Hr)
            as (l1 & d1 & E1 & Hb1 & _ & Hp1 & _ & _)
      end.
      exists l1, d1. unfold K65Plus.controlDialListener, Go.bind. rewrite Es.
      cbn [K65Plus.dialEvents]. unfold Go.bind. rewrite E1.
      split; [reflexivity|]. unfold storedLevel. rewrite Hp1, Hb1. reflexivity.
    + match type of Es with
      | _ = Some (?l0, _) =>
          destruct (dialEvent_increase_wired report l0 d dp Hdp Hcd eq_refl eq_refl Hr)
            as (l1 & d1 & E1 & Hb1 & _ & Hp1 & _ & _)
      end.
      exists l1, d1. unfold K65Plus.controlDialListener, Go.bind. rewrite Es.
      cbn [K65Plus.dialEvents]. unfold Go.bind. rewrite E1.
      split; [reflexivity|]. unfold storedLevel. rewrite Hp1, Hb1. reflexivity.
  - intros d dp report Hdp Hcd Hb.
    pose proof (dialStart_wireless d dp Hdp) as Es.
    rewrite Hb in Es. cbn [Z.eqb] in Es.
    split; intros Hr.
    + match type of Es with
      | _ = Some (?l0, _) =>
          destruct (dialEvent_decrease_wireless report l0 d dp Hdp Hcd eq_refl eq_refl Hr)
            as (l1 & d1 & E1 & Hb1 & _ & Hp1 & _ & _)
      end.
      exists l1, d1. unfold K65PlusW.controlDialListener, Go.bind. rewrite Es.
      cbn [K65PlusW.dialEvents]. unfold Go.bind. rewrite E1.
      split; [reflexivity|]. unfold storedLevelW. rewrite Hp1, Hb1. reflexivity.
    + match type of Es with
      | _ = Some (?l0, _) =>
          destruct (dialEvent_increase_wireless report l0 d dp Hdp Hcd eq_refl eq_refl Hr)
            as (l1 & d1 & E1 & Hb1 & _ & Hp1 & _ & _)
      end.
      exists l1, d1. unfold K65PlusW.controlDialListener, Go.bind. rewrite Es.
      cbn [K65PlusW.dialEvents]. unfold Go.bind. rewrite E1.
      split; [reflexivity|]. unfold storedLevelW. rewrite Hp1, Hb1. reflexivity.
Qed.

(** Witness of X4: a turn to the left on a profile that stores level 0. *)
Lemma dial_stored_zero_starts_at_full_witness :
  (exists l' d',
     K65Plus.controlDialListener [Samples.dialReport xff x00]
       (Samples.wired "static" 2 0) = Some (l', d') /\
     storedLevel d' = Some 900)
  /\
  (exists l' d',
     K65PlusW.controlDialListener [Samples.dialReport xff x00]
       (Samples.wireless "static" 2 0) = Some (l', d') /\
     storedLevelW d' = Some 900).
Proof.
  split.
  - apply (proj1 (proj1 dial_stored_zero_starts_at_full
                    (Samples.wired "static" 2 0) _
                    (Samples.dialReport xff x00) eq_refl eq_refl eq_refl)).
    reflexivity.
  - apply (proj1 (proj2 dial_stored_zero_starts_at_full
                    (Samples.wireless "static" 2 0) _
                    (Samples.dialReport xff x00) eq_refl eq_refl eq_refl)).
    reflexivity.
Defined.





(** X7. With a profile whose dial binding is neither 1 (volume) nor 2
    (brightness), the listener reads every report and does nothing with it:
    the device, its profile, the log and the outside world are exactly as
    before, and the listener's level and press state are as at its start. *)
Theorem dial_unbound_ignores_reports :
  (forall (d : K65Plus.Device) (dp : K65Plus.DeviceProfile)
          (reports : list (list byte)),
     K65Plus.deviceProfile d = Some dp ->
     K65Plus.ControlDial dp <> 1 ->
     K65Plus.ControlDial dp <> 2 ->
     exists l',
       K65Plus.controlDialListener reports d = Some (l', d) /\
       K65Plus.pv l' = false /\
       K65Plus.brightness l'
         = (if K65Plus.BrightnessLevel dp =? 0 then 1000
            else K65Plus.BrightnessLevel dp))
  /\
  (forall (d : K65PlusW.Device) (dp : K65PlusW.DeviceProfile)
          (reports : list (list byte)),
     K65PlusW.deviceProfile d = Some dp ->
     K65PlusW.ControlDial dp <> 1 ->
     K65PlusW.ControlDial dp <> 2 ->
     exists l',
       K65PlusW.controlDialListener reports d = Some (l', d) /\
       K65PlusW.pv l' = false /\
       K65PlusW.brightness l'
         = (if K65PlusW.BrightnessLevel dp =? 0 then 1000
            else K65PlusW.BrightnessLevel dp)).
Proof.
  split.
  - intros d dp reports Hdp H1 H2.
    pose proof (dialStart_wired d dp Hdp) as Es.
    match type of Es with
    | _ = Some (?l0, _) =>
        destruct (dialEvents_unbound_wired reports l0 d dp Hdp H1 H2 eq_refl)
          as (l' & E & Hb & Hpv)
    end.
    exists l'. unfold K65Plus.controlDialListener, Go.bind. rewrite Es.
    repeat apply conj; auto.
  - intros d dp reports Hdp H1 H2.
    pose proof (dialStart_wireless d dp Hdp) as Es.
    match type of Es with
    | _ = Some (?l0, _) =>
        destruct (dialEvents_unbound_wireless reports l0 d dp Hdp H1 H2 eq_refl)
          as (l' & E & Hb & Hpv)
    end.
    exists l'. unfold K65PlusW.controlDialListener, Go.bind. rewrite Es.
    repeat apply conj; auto.
Qed.

(** Witness of X7: binding 0, a press and a turn. *)
Lemma dial_unbound_witness :
  (exists l',
     K65Plus.controlDialListener
       [Samples.dialReport x00 x02; Samples.dialReport x01 x00]
       (Samples.wired "static" 0 500) = Some (l', Samples.wired "static" 0 500) /\
     K65Plus.pv l' = false /\
     K65Plus.brightness l' = 500)
  /\
  (exists l',
     K65PlusW.controlDialListener
       [Samples.dialReport x00 x02; Samples.dialReport x01 x00]
       (Samples.wireless "static" 0 500) = Some (l', Samples.wireless "static" 0 500) /\
     K65PlusW.pv l' = false /\
     K65PlusW.brightness l' = 500).
Proof.
  split.
  - apply (proj1 dial_unbound_ignores_reports (Samples.wired "static" 0 500) _
             [Samples.dialReport x00 x02; Samples.dialReport x01 x00]
             eq_refl); discriminate.
  - apply (proj2 dial_unbound_ignores_reports (Samples.wireless "static" 0 500) _
             [Samples.dialReport x00 x02; Samples.dialReport x01 x00]
             eq_refl); discriminate.
Defined.

(** ** Single exchanges with the device *)

Import Exchange.

Lemma copyInto_none (dst : list byte) (lo hi : nat) (src : list byte) :
  (length dst < hi)%nat -> copyInto dst lo hi src = None.
Proof.
  intros H. unfold copyInto.
  apply Nat.leb_gt in H. rewrite H, andb_false_r. reflexivity.
Qed.

Lemma read_answered (reply : list byte) :
  copyInto (make bufferSize) 0 (length (make bufferSize)) reply
  = Some (answered reply).
Proof.
  rewrite copyInto_some by lia. unfold answered.
  rewrite length_make, Nat.sub_0_r. cbn [firstn app Nat.add]. f_equal.
  unfold make. rewrite skipn_repeat.
  destruct (Nat.le_gt_cases (length reply) bufferSize) as [H|H].
  - rewrite Nat.min_r by exact H.
    rewrite firstn_all, (firstn_all2 reply) by exact H. reflexivity.
  - rewrite Nat.min_l by lia.
    replace (bufferSize - length reply)%nat with (bufferSize - bufferSize)%nat by lia.
    reflexivity.
Qed.

Lemma length_answered (reply : list byte) : length (answered reply) = bufferSize.
Proof.
  unfold answered. rewrite length_app, length_firstn, repeat_length. lia.
Qed.

Lemma answered_layout (reply : list byte) :
  length (answered reply) = 64%nat /\
  firstn (length reply) (answered reply) = firstn 64 reply /\
  skipn (length reply) (answered reply) = repeat x00 (64 - length reply).
Proof.
  split; [apply length_answered|]. unfold answered, bufferSize.
  destruct (Nat.le_gt_cases (length reply) 64) as [H|H].
  - rewrite (firstn_all2 reply) by exact H.
    rewrite firstn_app, firstn_all, Nat.sub_diag, firstn_O, app_nil_r.
    rewrite skipn_app, skipn_all, Nat.sub_diag. auto.
  - replace (64 - length reply)%nat with 0%nat by lia.
    cbn [repeat]. rewrite app_nil_r. split.
    + apply firstn_all2. rewrite length_firstn. lia.
    + apply skipn_all2. rewrite length_firstn. lia.
Qed.

Lemma snd_nextOutcome (h : HidDevice) : snd (nextOutcome h) = tl (pending h).
Proof. unfold nextOutcome. now destruct (pending h). Qed.

Lemma fst_nextOutcome (h : HidDevice) : fst (nextOutcome h) = outcome 0 h.
Proof. unfold nextOutcome, outcome. now destruct (pending h). Qed.

Lemma outcome_tl (n : nat) (h h' : HidDevice) :
  pending h' = tl (pending h) -> outcome n h' = outcome (S n) h.
Proof.
  unfold outcome. intros ->. destruct (pending h); [now destruct n|reflexivity].
Qed.

(** [transfer] in full: what it returns, writes, consumes and logs. *)
Lemma transfer_wired_full (endpoint buffer : list byte) (d : K65Plus.Device) :
  (length endpoint + length buffer <= 63)%nat ->
  exists d',
    K65Plus.transfer endpoint buffer d = Some (resultW (outcome 0 (K65Plus.dev d)), d') /\
    written (K65Plus.dev d')
      = written (K65Plus.dev d) ++ [reportOf x08 endpoint buffer] /\
    pending (K65Plus.dev d') = tl (pending (K65Plus.dev d)) /\
    K65Plus.log d' = K65Plus.log d ++ logged (outcome 0 (K65Plus.dev d)) /\
    onlyIO d d'.
Proof.
  intros H.
  destruct (bufferW_closed x08 endpoint buffer H) as (w1 & w2 & E1 & E2 & E3).
  unfold K65Plus.transfer. run_monad. rewrite E1, E2.
  assert (E3' : exists w3, w3 = reportOf x08 endpoint buffer /\
             (if Nat.ltb 0 (length buffer)
              then copyInto w2 (headerSize + length endpoint)
                     (headerSize + length endpoint + length buffer) buffer
              else Some w2) = Some w3) by eauto.
  destruct E3' as (w3 & Ew & E3'). clear E3. rewrite <- Ew. clear Ew.
  rewrite <- snd_nextOutcome, <- !fst_nextOutcome.
  destruct (Nat.ltb 0 (length buffer));
    [rewrite E3'|injection E3' as ->];
    (destruct (nextOutcome (K65Plus.dev d)) as [outcome rest] eqn:En;
     destruct outcome as [reply| |];
     [ rewrite read_answered | | ];
     eexists; (split; [reflexivity|]); cbn;
     rewrite ?app_nil_r; repeat apply conj; reflexivity).
Qed.

Lemma transfer_wireless_full (endpoint buffer : list byte) (command : byte)
    (d : K65PlusW.Device) :
  (length endpoint + length buffer <= 63)%nat ->
  exists d',
    K65PlusW.transfer endpoint buffer command d
      = Some (resultWl (outcome 0 (K65PlusW.dev d)), d') /\
    written (K65PlusW.dev d')
      = written (K65PlusW.dev d) ++ [reportOf command endpoint buffer] /\
    pending (K65PlusW.dev d') = tl (pending (K65PlusW.dev d)) /\
    K65PlusW.log d' = K65PlusW.log d ++ logged (outcome 0 (K65PlusW.dev d)) /\
    onlyIOW d d'.
Proof.
  intros H.
  destruct (bufferW_closed command endpoint buffer H) as (w1 & w2 & E1 & E2 & E3).
  unfold K65PlusW.transfer. run_monad. rewrite E1, E2.
  assert (E3' : exists w3, w3 = reportOf command endpoint buffer /\
             (if Nat.ltb 0 (length buffer)
              then copyInto w2 (headerSize + length endpoint)
                     (headerSize + length endpoint + length buffer) buffer
              else Some w2) = Some w3) by eauto.
  destruct E3' as (w3 & Ew & E3'). clear E3. rewrite <- Ew. clear Ew.
  rewrite <- snd_nextOutcome, <- !fst_nextOutcome.
  destruct (Nat.ltb 0 (length buffer));
    [rewrite E3'|injection E3' as ->];
    (destruct (nextOutcome (K65PlusW.dev d)) as [outcome rest] eqn:En;
     destruct outcome as [reply| |];
     [ rewrite read_answered | | ];
     eexists; (split; [reflexivity|]); cbn;
     rewrite ?app_nil_r; repeat apply conj; reflexivity).
Qed.

(** The slice expressions of [transfer] fail when opcode and payload do not
    fit behind the two header bytes. *)
Lemma bufferW_overflow (command : byte) (endpoint buffer : list byte) :
  (63 < length endpoint + length buffer)%nat ->
  forall w2,
    copyInto ([x00; command] ++ repeat x00 63) headerSize
      (headerSize + length endpoint) endpoint = Some w2 ->
    Nat.ltb 0 (length buffer) = true /\
    copyInto w2 (headerSize + length endpoint)
      (headerSize + length endpoint + length buffer) buffer = None.
Proof.
  intros H w2 E2.
  pose proof (copyInto_length _ _ _ _ _ E2) as L2.
  apply copyInto_inv in E2. destruct E2 as [B2 _].
  rewrite length_app, repeat_length in B2, L2. cbn [length headerSize] in *.
  unfold headerSize in *. split.
  - apply Nat.ltb_lt. lia.
  - apply copyInto_none. lia.
Qed.

Lemma transfer_wired_overflow (endpoint buffer : list byte) (d : K65Plus.Device) :
  (63 < length endpoint + length buffer)%nat ->
  K65Plus.transfer endpoint buffer d = None.
Proof.
  intros H. unfold K65Plus.transfer. run_monad.
  change (store (make bufferSizeWrite) 1 x08)
    with (Some ([x00; x08] ++ repeat x00 63)).
  cbv iota beta.
  destruct (copyInto ([x00; x08] ++ repeat x00 63) headerSize
              (headerSize + length endpoint) endpoint) as [w2|] eqn:E2;
    [|reflexivity].
  destruct (bufferW_overflow x08 endpoint buffer H w2 E2) as [Eb E3].
  rewrite Eb. cbv iota beta. rewrite E3. reflexivity.
Qed.

Lemma transfer_wireless_overflow (endpoint buffer : list byte) (command : byte)
    (d : K65PlusW.Device) :
  (63 < length endpoint + length buffer)%nat ->
  K65PlusW.transfer endpoint buffer command d = None.
Proof.
  intros H. unfold K65PlusW.transfer. run_monad.
  change (store (make bufferSizeWrite) 1 command)
    with (Some ([x00; command] ++ repeat x00 63)).
  cbv iota beta.
  destruct (copyInto ([x00; command] ++ repeat x00 63) headerSize
              (headerSize + length endpoint) endpoint) as [w2|] eqn:E2;
    [|reflexivity].
  destruct (bufferW_overflow command endpoint buffer H w2 E2) as [Eb E3].
  rewrite Eb. cbv iota beta. rewrite E3. reflexivity.
Qed.

Lemma reportOf_layout (command : byte) (endpoint buffer : list byte) :
  (length endpoint + length buffer <= 63)%nat ->
  length (reportOf command endpoint buffer) = bufferSizeWrite /\
  firstn headerSize (reportOf command endpoint buffer) = [x00; command] /\
  firstn (length endpoint) (skipn headerSize (reportOf command endpoint buffer))
    = endpoint /\
  firstn (length buffer)
    (skipn (headerSize + length endpoint) (reportOf command endpoint buffer))
    = buffer /\
  skipn (headerSize + length endpoint + length buffer)
    (reportOf command endpoint buffer)
    = repeat x00 (63 - length endpoint - length buffer).
Proof.
  intros H. unfold reportOf, bufferSizeWrite, bufferSize, headerSize.
  repeat apply conj.
  - cbn [app length]. rewrite !length_app, repeat_length. lia.
  - reflexivity.
  - cbn [app skipn]. rewrite firstn_app, Nat.sub_diag, firstn_O, app_nil_r.
    apply firstn_all.
  - cbn [app skipn Nat.add]. rewrite skipn_app, skipn_all, Nat.sub_diag.
    cbn [app skipn]. rewrite firstn_app, Nat.sub_diag, firstn_O, app_nil_r.
    apply firstn_all.
  - cbn [app skipn Nat.add]. rewrite skipn_app, skipn_all2 by lia.
    replace (length endpoint + length buffer - length endpoint)%nat
      with (length buffer) by lia.
    cbn [app]. rewrite skipn_app, skipn_all, Nat.sub_diag. reflexivity.
Qed.

(** X8. [transfer] panics exactly when opcode and payload together are
    longer than the 63 bytes that follow the two header bytes of a report:
    the slice expression on the 65-byte write buffer is then out of range.
    It returns on every shorter input, whatever the device answers. *)
Theorem transfer_panics_iff_report_overflows :
  (forall (endpoint buffer : list byte) (d : K65Plus.Device),
     K65Plus.transfer endpoint buffer d = None
     <-> (63 < length endpoint + length buffer)%nat)
  /\
  (forall (endpoint buffer : list byte) (command : byte) (d : K65PlusW.Device),
     K65PlusW.transfer endpoint buffer command d = None
     <-> (63 < length endpoint + length buffer)%nat).
Proof.
  split.
  - intros endpoint buffer d. split.
    + intros E.
      destruct (Nat.le_gt_cases (length endpoint + length buffer) 63) as [H|H];
        [|exact H].
      destruct (transfer_wired_full endpoint buffer d H) as (d' & E' & _).
      congruence.
    + apply transfer_wired_overflow.
  - intros endpoint buffer command d. split.
    + intros E.
      destruct (Nat.le_gt_cases (length endpoint + length buffer) 63) as [H|H];
        [|exact H].
      destruct (transfer_wireless_full endpoint buffer command d H)
        as (d' & E' & _).
      congruence.
    + apply transfer_wireless_overflow.
Qed.

(** X9. When opcode and payload fit, [transfer] hands exactly one
    report to the device: 65 bytes, a zero and the command byte (0x08 in the
    wired package), then the opcode, then the payload, then zeroes to the
    end. It uses up one answer of the device and changes nothing of the
    [Device] but the handle and the log. *)
Theorem transfer_writes_one_padded_report :
  (forall (endpoint buffer : list byte) (d : K65Plus.Device),
     (length endpoint + length buffer <= 63)%nat ->
     exists r d' report,
       K65Plus.transfer endpoint buffer d = Some (r, d') /\
       written (K65Plus.dev d') = written (K65Plus.dev d) ++ [report] /\
       pending (K65Plus.dev d') = tl (pending (K65Plus.dev d)) /\
       onlyIO d d' /\
       length report = 65%nat /\
       firstn 2 report = [x00; x08] /\
       firstn (length endpoint) (skipn 2 report) = endpoint /\
       firstn (length buffer) (skipn (2 + length endpoint) report) = buffer /\
       skipn (2 + length endpoint + length buffer) report
         = repeat x00 (63 - length endpoint - length buffer))
  /\
  (forall (endpoint buffer : list byte) (command : byte) (d : K65PlusW.Device),
     (length endpoint + length buffer <= 63)%nat ->
     exists r d' report,
       K65PlusW.transfer endpoint buffer command d = Some (r, d') /\
       written (K65PlusW.dev d') = written (K65PlusW.dev d) ++ [report] /\
       pending (K65PlusW.dev d') = tl (pending (K65PlusW.dev d)) /\
       onlyIOW d d' /\
       length report = 65%nat /\
       firstn 2 report = [x00; command] /\
       firstn (length endpoint) (skipn 2 report) = endpoint /\
       firstn (length buffer) (skipn (2 + length endpoint) report) = buffer /\
       skipn (2 + length endpoint + length buffer) report
         = repeat x00 (63 - length endpoint - length buffer)).
Proof.
  split.
  - intros endpoint buffer d H.
    destruct (transfer_wired_full endpoint buffer d H)
      as (d' & E & W & P & _ & K).
    destruct (reportOf_layout x08 endpoint buffer H) as (L1 & L2 & L3 & L4 & L5).
    exists (resultW (outcome 0 (K65Plus.dev d))), d',
           (reportOf x08 endpoint buffer).
    exact (conj E (conj W (conj P (conj K
             (conj L1 (conj L2 (conj L3 (conj L4 L5)))))))).
  - intros endpoint buffer command d H.
    destruct (transfer_wireless_full endpoint buffer command d H)
      as (d' & E & W & P & _ & K).
    destruct (reportOf_layout command endpoint buffer H)
      as (L1 & L2 & L3 & L4 & L5).
    exists (resultWl (outcome 0 (K65PlusW.dev d))), d',
           (reportOf command endpoint buffer).
    exact (conj E (conj W (conj P (conj K
             (conj L1 (conj L2 (conj L3 (conj L4 L5)))))))).
Qed.

(** Witness of X9: the brightness command with level 300 on the wired
    keyboard, the keep-alive opcode to the dongle on the wireless one. *)
Lemma transfer_writes_one_padded_report_witness :
  (exists r d' report,
     K65Plus.transfer cmdBrightness [x2c; x01] (Exchange.wired [] 1000)
       = Some (r, d') /\
     written (K65Plus.dev d') = [] ++ [report] /\
     pending (K65Plus.dev d') = [] /\
     onlyIO (Exchange.wired [] 1000) d' /\
     length report = 65%nat /\
     firstn 2 report = [x00; x08] /\
     firstn 3 (skipn 2 report) = cmdBrightness /\
     firstn 2 (skipn 5 report) = [x2c; x01] /\
     skipn 7 report = repeat x00 58)
  /\
  (exists r d' report,
     K65PlusW.transfer [x12] [] x08 (Exchange.wireless [IoReadErr] 1000)
       = Some (r, d') /\
     written (K65PlusW.dev d') = [] ++ [report] /\
     pending (K65PlusW.dev d') = [] /\
     onlyIOW (Exchange.wireless [IoReadErr] 1000) d' /\
     length report = 65%nat /\
     firstn 2 report = [x00; x08] /\
     firstn 1 (skipn 2 report) = [x12] /\
     firstn 0 (skipn 3 report) = [] /\
     skipn 3 report = repeat x00 62).
Proof.
  split.
  - apply (proj1 transfer_writes_one_padded_report cmdBrightness [x2c; x01]
             (Exchange.wired [] 1000)).
    vm_compute. lia.
  - apply (proj2 transfer_writes_one_padded_report [x12] [] x08
             (Exchange.wireless [IoReadErr] 1000)).
    vm_compute. lia.
Defined.

(** X10. When opcode and payload fit, the result of [transfer] follows
    the device: an answer comes back as a buffer of exactly 64 bytes that
    starts with the answer (cut at 64 bytes, zero-filled behind a shorter
    one) and nothing is logged; a failed write or a failed read gives the
    error result and exactly one entry in the log, at level Error. *)
Theorem transfer_result_follows_the_device :
  (forall (endpoint buffer : list byte) (d : K65Plus.Device),
     (length endpoint + length buffer <= 63)%nat ->
     exists r d',
       K65Plus.transfer endpoint buffer d = Some (r, d') /\
       match nth 0 (pending (K65Plus.dev d)) (IoOk []) with
       | IoOk reply =>
           exists bufferR,
             r = K65Plus.Replied bufferR /\
             length bufferR = 64%nat /\
             firstn (length reply) bufferR = firstn 64 reply /\
             skipn (length reply) bufferR = repeat x00 (64 - length reply) /\
             K65Plus.log d' = K65Plus.log d
       | IoWriteErr =>
           r = K65Plus.Failed /\
           K65Plus.log d'
             = K65Plus.log d
                 ++ [{| level := Error; message := "Unable to write to a device" |}]
       | IoReadErr =>
           r = K65Plus.Failed /\
           K65Plus.log d'
             = K65Plus.log d
                 ++ [{| level := Error;
                        message := "Unable to read data from device" |}]
       end)
  /\
  (forall (endpoint buffer : list byte) (command : byte) (d : K65PlusW.Device),
     (length endpoint + length buffer <= 63)%nat ->
     exists r d',
       K65PlusW.transfer endpoint buffer command d = Some (r, d') /\
       match nth 0 (pending (K65PlusW.dev d)) (IoOk []) with
       | IoOk reply =>
           exists bufferR,
             r = K65PlusW.Replied bufferR /\
             length bufferR = 64%nat /\
             firstn (length reply) bufferR = firstn 64 reply /\
             skipn (length reply) bufferR = repeat x00 (64 - length reply) /\
             K65PlusW.log d' = K65PlusW.log d
       | IoWriteErr =>
           r = K65PlusW.Failed /\
           K65PlusW.log d'
             = K65PlusW.log d
                 ++ [{| level := Error; message := "Unable to write to a device" |}]
       | IoReadErr =>
           r = K65PlusW.Failed /\
           K65PlusW.log d'
             = K65PlusW.log d
                 ++ [{| level := Error;
                        message := "Unable to read data from device" |}]
       end).
Proof.
  split.
  - intros endpoint buffer d H.
    destruct (transfer_wired_full endpoint buffer d H)
      as (d' & E & _ & _ & L & _).
    eexists _, d'. split; [exact E|].
    unfold outcome in *.
    destruct (nth 0 (pending (K65Plus.dev d)) (IoOk [])) as [reply| |];
      cbn [resultW logged] in *; rewrite ?app_nil_r in L; auto.
    exists (answered reply).
    destruct (answered_layout reply) as (A1 & A2 & A3). auto.
  - intros endpoint buffer command d H.
    destruct (transfer_wireless_full endpoint buffer command d H)
      as (d' & E & _ & _ & L & _).
    eexists _, d'. split; [exact E|].
    unfold outcome in *.
    destruct (nth 0 (pending (K65PlusW.dev d)) (IoOk [])) as [reply| |];
      cbn [resultWl logged] in *; rewrite ?app_nil_r in L; auto.
    exists (answered reply).
    destruct (answered_layout reply) as (A1 & A2 & A3). auto.
Qed.

(** Witness of X10: an answer of two bytes on the wired keyboard, a
    failed write on the wireless one. *)
Lemma transfer_result_follows_the_device_witness :
  (exists r d',
     K65Plus.transfer cmdBrightness [x2c; x01]
       (Exchange.wired [IoOk [xaa; xbb]] 1000) = Some (r, d') /\
     exists bufferR,
       r = K65Plus.Replied bufferR /\
       length bufferR = 64%nat /\
       firstn 2 bufferR = [xaa; xbb] /\
       skipn 2 bufferR = repeat x00 62 /\
       K65Plus.log d' = [])
  /\
  (exists r d',
     K65PlusW.transfer [x12] [] x09 (Exchange.wireless [IoWriteErr] 1000)
       = Some (r, d') /\
     r = K65PlusW.Failed /\
     K65PlusW.log d'
       = [] ++ [{| level := Error; message := "Unable to write to a device" |}]).
Proof.
  split.
  - apply (proj1 transfer_result_follows_the_device cmdBrightness [x2c; x01]
             (Exchange.wired [IoOk [xaa; xbb]] 1000)).
    vm_compute. lia.
  - apply (proj2 transfer_result_follows_the_device [x12] [] x09
             (Exchange.wireless [IoWriteErr] 1000)).
    vm_compute. lia.
Defined.

(** ** [setBrightnessLevel] and [keepAlive] *)

Lemma Uint16_level (level : Z) :
  0 <= level < 65536 ->
  Uint16 [byte_of_Z level; byte_of_Z (level / 256)] = Some level.
Proof.
  intros H. cbn [Uint16]. rewrite little_endian_16.
  now rewrite Z.mod_small by lia.
Qed.

Lemma setBrightnessLevel_wired (d : K65Plus.Device) (dp : K65Plus.DeviceProfile) :
  K65Plus.deviceProfile d = Some dp ->
  exists d',
    K65Plus.setBrightnessLevel d = Some (tt, d') /\
    written (K65Plus.dev d')
      = written (K65Plus.dev d)
          ++ [reportOf x08 cmdBrightness
                [byte_of_Z (K65Plus.BrightnessLevel dp);
                 byte_of_Z (K65Plus.BrightnessLevel dp / 256)]] /\
    pending (K65Plus.dev d') = tl (pending (K65Plus.dev d)) /\
    K65Plus.log d'
      = K65Plus.log d ++ logged (outcome 0 (K65Plus.dev d))
          ++ complained Warn "Unable to change brightness"
               (outcome 0 (K65Plus.dev d)) /\
    onlyIO d d'.
Proof.
  intros Hdp. unfold K65Plus.setBrightnessLevel. run_monad. rewrite Hdp.
  rewrite (PutUint16_pair (make 2) _ eq_refl).
  match goal with
  | |- context [K65Plus.transfer ?ep ?b d] =>
      destruct (transfer_wired_full ep b d) as (d1 & E & W & P & L & K);
        [cbn; lia|]; rewrite E
  end.
  destruct (outcome 0 (K65Plus.dev d)) as [reply| |];
    cbn [resultW logged complained app] in *;
    eexists; (split; [reflexivity|]); cbn;
    rewrite ?W, ?P, ?L, ?app_nil_r, <- ?app_assoc;
    (split; [reflexivity|]); (split; [reflexivity|]);
    (split; [reflexivity|]); exact K.
Qed.

Lemma setBrightnessLevel_wireless (d : K65PlusW.Device)
    (dp : K65PlusW.DeviceProfile) :
  K65PlusW.deviceProfile d = Some dp ->
  exists d',
    K65PlusWOps.setBrightnessLevel d = Some (tt, d') /\
    written (K65PlusW.dev d')
      = written (K65PlusW.dev d)
          ++ [reportOf x09 cmdBrightness
                [byte_of_Z (K65PlusW.BrightnessLevel dp);
                 byte_of_Z (K65PlusW.BrightnessLevel dp / 256)]] /\
    pending (K65PlusW.dev d') = tl (pending (K65PlusW.dev d)) /\
    K65PlusW.log d'
      = K65PlusW.log d ++ logged (outcome 0 (K65PlusW.dev d))
          ++ complained Warn "Unable to change brightness"
               (outcome 0 (K65PlusW.dev d)) /\
    onlyIOW d d'.
Proof.
  intros Hdp. unfold K65PlusWOps.setBrightnessLevel. run_monad. rewrite Hdp.
  rewrite (PutUint16_pair (make 2) _ eq_refl).
  match goal with
  | |- context [K65PlusW.transfer ?ep ?b ?c d] =>
      destruct (transfer_wireless_full ep b c d) as (d1 & E & W & P & L & K);
        [cbn; lia|]; rewrite E
  end.
  destruct (outcome 0 (K65PlusW.dev d)) as [reply| |];
    cbn [resultWl logged complained app] in *;
    eexists; (split; [reflexivity|]); cbn;
    rewrite ?W, ?P, ?L, ?app_nil_r, <- ?app_assoc;
    (split; [reflexivity|]); (split; [reflexivity|]);
    (split; [reflexivity|]); exact K.
Qed.

(** X11. [setBrightnessLevel] never panics. With a profile it sends one
    brightness report (opcode 01 02 00) whose two payload bytes read back,
    least significant byte first, as the level stored in the profile; the
    profile stays as it is, and a failed exchange adds a warning behind the
    error that [transfer] logged. Without a profile it does nothing at all. *)
Theorem set_brightness_level_sends_the_stored_level :
  ((forall (d : K65Plus.Device) (dp : K65Plus.DeviceProfile),
      K65Plus.deviceProfile d = Some dp ->
      0 <= K65Plus.BrightnessLevel dp < 65536 ->
      exists d' payload,
        K65Plus.setBrightnessLevel d = Some (tt, d') /\
        written (K65Plus.dev d')
          = written (K65Plus.dev d) ++ [reportOf x08 cmdBrightness payload] /\
        length payload = 2%nat /\
        Uint16 payload = Some (K65Plus.BrightnessLevel dp) /\
        pending (K65Plus.dev d') = tl (pending (K65Plus.dev d)) /\
        K65Plus.log d'
          = K65Plus.log d ++ logged (outcome 0 (K65Plus.dev d))
              ++ complained Warn "Unable to change brightness"
                   (outcome 0 (K65Plus.dev d)) /\
        onlyIO d d') /\
   (forall d : K65Plus.Device,
      K65Plus.deviceProfile d = None ->
      K65Plus.setBrightnessLevel d = Some (tt, d)))
  /\
  ((forall (d : K65PlusW.Device) (dp : K65PlusW.DeviceProfile),
      K65PlusW.deviceProfile d = Some dp ->
      0 <= K65PlusW.BrightnessLevel dp < 65536 ->
      exists d' payload,
        K65PlusWOps.setBrightnessLevel d = Some (tt, d') /\
        written (K65PlusW.dev d')
          = written (K65PlusW.dev d) ++ [reportOf x09 cmdBrightness payload] /\
        length payload = 2%nat /\
        Uint16 payload = Some (K65PlusW.BrightnessLevel dp) /\
        pending (K65PlusW.dev d') = tl (pending (K65PlusW.dev d)) /\
        K65PlusW.log d'
          = K65PlusW.log d ++ logged (outcome 0 (K65PlusW.dev d))
              ++ complained Warn "Unable to change brightness"
                   (outcome 0 (K65PlusW.dev d)) /\
        onlyIOW d d') /\
   (forall d : K65PlusW.Device,
      K65PlusW.deviceProfile d = None ->
      K65PlusWOps.setBrightnessLevel d = Some (tt, d))).
Proof.
  split; split.
  - intros d dp Hdp Hr.
    destruct (setBrightnessLevel_wired d dp Hdp) as (d' & E & W & P & L & K).
    exists d', [byte_of_Z (K65Plus.BrightnessLevel dp);
                byte_of_Z (K65Plus.BrightnessLevel dp / 256)].
    exact (conj E (conj W (conj eq_refl (conj (Uint16_level _ Hr)
             (conj P (conj L K)))))).
  - intros d Hdp. unfold K65Plus.setBrightnessLevel. run_monad.
    now rewrite Hdp.
  - intros d dp Hdp Hr.
    destruct (setBrightnessLevel_wireless d dp Hdp) as (d' & E & W & P & L & K).
    exists d', [byte_of_Z (K65PlusW.BrightnessLevel dp);
                byte_of_Z (K65PlusW.BrightnessLevel dp / 256)].
    exact (conj E (conj W (conj eq_refl (conj (Uint16_level _ Hr)
             (conj P (conj L K)))))).
  - intros d Hdp. unfold K65PlusWOps.setBrightnessLevel. run_monad.
    now rewrite Hdp.
Qed.

(** Witness of X11: level 300 on a wired keyboard that answers, on a
    wireless one whose read fails, and the two keyboards without a profile. *)
Lemma set_brightness_level_witness :
  ((exists d' payload,
      K65Plus.setBrightnessLevel (Exchange.wired [] 300) = Some (tt, d') /\
      written (K65Plus.dev d') = [] ++ [reportOf x08 cmdBrightness payload] /\
      length payload = 2%nat /\
      Uint16 payload = Some 300 /\
      pending (K65Plus.dev d') = [] /\
      K65Plus.log d' = [] /\
      onlyIO (Exchange.wired [] 300) d') /\
   K65Plus.setBrightnessLevel
     (K65Plus.withProfile (Exchange.wired [] 300) None)
   = Some (tt, K65Plus.withProfile (Exchange.wired [] 300) None))
  /\
  ((exists d' payload,
      K65PlusWOps.setBrightnessLevel (Exchange.wireless [IoReadErr] 300)
        = Some (tt, d') /\
      written (K65PlusW.dev d') = [] ++ [reportOf x09 cmdBrightness payload] /\
      length payload = 2%nat /\
      Uint16 payload = Some 300 /\
      pending (K65PlusW.dev d') = [] /\
      K65PlusW.log d'
        = [{| level := Error; message := "Unable to read data from device" |};
           {| level := Warn; message := "Unable to change brightness" |}] /\
      onlyIOW (Exchange.wireless [IoReadErr] 300) d') /\
   K65PlusWOps.setBrightnessLevel
     (K65PlusW.withProfile (Exchange.wireless [] 300) None)
   = Some (tt, K65PlusW.withProfile (Exchange.wireless [] 300) None)).
Proof.
  split; split.
  - apply (proj1 (proj1 set_brightness_level_sends_the_stored_level)
             (Exchange.wired [] 300) _ eq_refl). cbn. lia.
  - apply (proj2 (proj1 set_brightness_level_sends_the_stored_level)).
    reflexivity.
  - apply (proj1 (proj2 set_brightness_level_sends_the_stored_level)
             (Exchange.wireless [IoReadErr] 300) _ eq_refl). cbn. lia.
  - apply (proj2 (proj2 set_brightness_level_sends_the_stored_level)).
    reflexivity.
Defined.

Lemma keepAlive_wired (d : K65Plus.Device) :
  exists d',
    K65PlusOps.keepAlive d = Some (tt, d') /\
    written (K65Plus.dev d')
      = written (K65Plus.dev d) ++ [reportOf x08 [x12] []] /\
    pending (K65Plus.dev d') = tl (pending (K65Plus.dev d)) /\
    K65Plus.log d'
      = K65Plus.log d ++ logged (outcome 0 (K65Plus.dev d))
          ++ complained Error "Unable to write to a device"
               (outcome 0 (K65Plus.dev d)) /\
    onlyIO d d'.
Proof.
  unfold K65PlusOps.keepAlive. run_monad.
  destruct (transfer_wired_full [x12] [] d) as (d1 & E & W & P & L & K);
    [cbn; lia|]. rewrite E.
  destruct (outcome 0 (K65Plus.dev d)) as [reply| |];
    cbn [resultW logged complained app] in *;
    eexists; (split; [reflexivity|]); cbn;
    rewrite ?W, ?P, ?L, ?app_nil_r, <- ?app_assoc;
    (split; [reflexivity|]); (split; [reflexivity|]);
    (split; [reflexivity|]); exact K.
Qed.

Lemma bind_some (St A B : Type) (m : Go.M St A) (k : A -> Go.M St B)
    (s s' : St) (a : A) :
  m s = Some (a, s') -> Go.bind m k s = k a s'.
Proof. intros E. unfold Go.bind. now rewrite E. Qed.

(** One ping of the wireless [keepAlive]. *)
Lemma ping_wireless (command : byte) (d : K65PlusW.Device) :
  exists d',
    (r <- K65PlusW.transfer [x12] [] command ;;
     match r with
     | K65PlusW.Failed => K65PlusW.logger Error "Unable to write to a device"
     | K65PlusW.Replied _ => Go.ret tt
     end) d = Some (tt, d') /\
    written (K65PlusW.dev d')
      = written (K65PlusW.dev d) ++ [reportOf command [x12] []] /\
    pending (K65PlusW.dev d') = tl (pending (K65PlusW.dev d)) /\
    K65PlusW.log d'
      = K65PlusW.log d ++ logged (outcome 0 (K65PlusW.dev d))
          ++ complained Error "Unable to write to a device"
               (outcome 0 (K65PlusW.dev d)) /\
    onlyIOW d d'.
Proof.
  run_monad.
  destruct (transfer_wireless_full [x12] [] command d)
    as (d1 & E & W & P & L & K); [cbn; lia|]. rewrite E.
  destruct (outcome 0 (K65PlusW.dev d)) as [reply| |];
    cbn [resultWl logged complained app] in *;
    eexists; (split; [reflexivity|]); cbn;
    rewrite ?W, ?P, ?L, ?app_nil_r, <- ?app_assoc;
    (split; [reflexivity|]); (split; [reflexivity|]);
    (split; [reflexivity|]); exact K.
Qed.

(** X12. [keepAlive] never panics, whatever the device answers, and
    leaves the profile alone. The wired package sends one report with opcode
    0x12; the wireless package sends it to the dongle (command byte 0x08)
    and then to the keyboard (0x09), the second also when the first
    exchange failed. Each failed exchange leaves two entries in the log:
    the error of [transfer] and the error of [keepAlive]. *)
Theorem keep_alive_pings_and_never_panics :
  (forall d : K65Plus.Device,
     exists d',
       K65PlusOps.keepAlive d = Some (tt, d') /\
       written (K65Plus.dev d')
         = written (K65Plus.dev d) ++ [reportOf x08 [x12] []] /\
       pending (K65Plus.dev d') = tl (pending (K65Plus.dev d)) /\
       K65Plus.log d'
         = K65Plus.log d ++ logged (outcome 0 (K65Plus.dev d))
             ++ complained Error "Unable to write to a device"
                  (outcome 0 (K65Plus.dev d)) /\
       onlyIO d d')
  /\
  (forall d : K65PlusW.Device,
     exists d',
       K65PlusWOps.keepAlive d = Some (tt, d') /\
       written (K65PlusW.dev d')
         = written (K65PlusW.dev d)
             ++ [reportOf x08 [x12] []; reportOf x09 [x12] []] /\
       pending (K65PlusW.dev d') = tl (tl (pending (K65PlusW.dev d))) /\
       K65PlusW.log d'
         = K65PlusW.log d
             ++ (logged (outcome 0 (K65PlusW.dev d))
                   ++ complained Error "Unable to write to a device"
                        (outcome 0 (K65PlusW.dev d)))
             ++ (logged (outcome 1 (K65PlusW.dev d))
                   ++ complained Error "Unable to write to a device"
                        (outcome 1 (K65PlusW.dev d))) /\
       onlyIOW d d').
Proof.
  split.
  - exact keepAlive_wired.
  - intros d.
    destruct (ping_wireless (byte_of_Z K65PlusW.cmdDongle) d)
      as (d1 & E1 & W1 & P1 & L1 & K1).
    destruct (ping_wireless (byte_of_Z K65PlusW.cmdKeyboard) d1)
      as (d2 & E2 & W2 & P2 & L2 & K2).
    exists d2. unfold K65PlusWOps.keepAlive.
    rewrite (bind_some _ _ _ _ _ _ _ _ E1), E2.
    rewrite W2, W1, P2, P1, L2, L1, (outcome_tl 0 _ _ P1), <- !app_assoc.
    repeat (split; [reflexivity|]).
    exact (onlyIOW_trans _ _ _ K1 K2).
Qed.

(** ** [UpdateControlDial] *)



(** ** The schedules of the animation loop *)

Lemma mod_succ_below (k m : Z) :
  0 < m -> k mod m + 1 < m ->
  (k + 1) mod m = k mod m + 1 /\ (k + 1) / m = k / m.
Proof.
  intros Hm Hlt.
  pose proof (Z.mod_pos_bound k m Hm) as Hr.
  pose proof (Z.div_mod k m ltac:(lia)) as Hk.
  assert (E : k + 1 = m * (k / m) + (k mod m + 1)) by lia.
  split.
  - symmetry. apply (Z.mod_unique _ _ (k / m)); [left; lia|exact E].
  - symmetry. apply (Z.div_unique _ _ _ (k mod m + 1)); [left; lia|exact E].
Qed.

Lemma mod_succ_wrap (k m : Z) :
  0 < m -> m <= k mod m + 1 ->
  (k + 1) mod m = 0 /\ (k + 1) / m = k / m + 1.
Proof.
  intros Hm Hle.
  pose proof (Z.mod_pos_bound k m Hm) as Hr.
  pose proof (Z.div_mod k m ltac:(lia)) as Hk.
  assert (E : k + 1 = m * (k / m + 1) + 0) by lia.
  split.
  - symmetry. apply (Z.mod_unique _ _ (k / m + 1)); [left; lia|exact E].
  - symmetry. apply (Z.div_unique _ _ _ 0); [left; lia|exact E].
Qed.

Section ScheduleFacts.

Variable R : Type.
Variable Profile : Type.
Variable GetRgbProfile : string -> R -> option Profile.
Variable Smoothness : Profile -> Z.
Variable rgbNew : Profile -> R -> R.
Variable render : Profile -> K65Plus.RenderCall -> R -> list byte * R.
Variable regenerate : R -> R.

Local Abbreviation tick :=
  (K65Plus.tick GetRgbProfile Smoothness rgbNew render regenerate).
Local Abbreviation ticks :=
  (K65Plus.ticks GetRgbProfile Smoothness rgbNew render regenerate).
Local Abbreviation effect := (K65Plus.effect Smoothness render regenerate).
Local Abbreviation plays :=
  (Schedule.plays GetRgbProfile Smoothness rgbNew render regenerate).

Lemma call_r_eq (p : Profile) (c : K65Plus.RenderCall) (e : K65Plus.Engine R) :
  K65Plus.call_r render p c e
  = Some (fst (render p c (K65Plus.rgb e)),
          {| K65Plus.device := K65Plus.device e;
             K65Plus.rgb := snd (render p c (K65Plus.rgb e));
             K65Plus.rendered := K65Plus.rendered e ++ [c] |}).
Proof.
  unfold K65Plus.call_r. now destruct (render p c (K65Plus.rgb e)).
Qed.

(** Projections of a session through its setters. *)
Ltac session_simpl :=
  cbn [K65Plus.reverse K65Plus.counterColorpulse K65Plus.counterFlickering
       K65Plus.counterColorshift K65Plus.counterCircleshift
       K65Plus.counterCircle K65Plus.counterColorwarp K65Plus.counterSpinner
       K65Plus.counterCpuTemp K65Plus.counterGpuTemp
       K65Plus.colorwarpGeneratedReverse K65Plus.hue K65Plus.wavePosition
       K65Plus.set_reverse K65Plus.set_counterColorpulse
       K65Plus.set_counterFlickering K65Plus.set_counterColorshift
       K65Plus.set_counterCircleshift K65Plus.set_counterCircle
       K65Plus.set_counterColorwarp K65Plus.set_counterSpinner
       K65Plus.set_counterCpuTemp K65Plus.set_counterGpuTemp
       K65Plus.set_colorwarpGeneratedReverse K65Plus.set_hue
       K65Plus.set_wavePosition].

(** The case of the [switch] for the effect at hand, run on any engine. *)
Ltac effect_case :=
  let channels := fresh "channels" in
  let e0 := fresh "e0" in
  intros channels e0; unfold K65Plus.effect;
  cbn [String.eqb Ascii.eqb Bool.eqb]; unfold Go.bind;
  rewrite call_r_eq;
  eexists _, _; split; [reflexivity|]; split; reflexivity.

(** A counter that stands at [k mod m] and is moved one step round. *)
Ltac cycle_step k m :=
  let Hlt := fresh "Hlt" in
  let Em := fresh "Em" in
  let Ed := fresh "Ed" in
  rewrite ?Nat2Z.inj_succ; unfold Z.succ;
  destruct (Z_lt_le_dec (Z.of_nat k mod m + 1) m) as [Hlt|Hlt];
  [ destruct (mod_succ_below (Z.of_nat k) m ltac:(lia) Hlt) as [Em Ed]
  | destruct (mod_succ_wrap (Z.of_nat k) m ltac:(lia) Hlt) as [Em Ed] ];
  rewrite ?Em, ?Ed;
  rewrite ?geb_below by lia; rewrite ?geb_reached by lia;
  session_simpl; rewrite ?incr_small by lia; try reflexivity; try lia.

(** One tick of an effect whose case of the [switch] leaves the session
    [s1] behind and calls the renderer with [c]. *)
Lemma tick_step (name : string) (p : Profile) (lightChannels : Z)
    (s s1 : K65Plus.Session) (c c' : K65Plus.RenderCall) (e : K65Plus.Engine R)
    (Q : K65Plus.Session -> Prop) :
  (forall c r, (6 <= length (fst (render p c r)))%nat) ->
  running name e ->
  (forall r, GetRgbProfile name r = Some p) ->
  (forall channels e0, exists r1 e1,
     effect name p lightChannels channels s [] e0
       = Some ((s1, fst (render p c r1)), e1) /\
     K65Plus.device e1 = K65Plus.device e0 /\
     K65Plus.rendered e1 = K65Plus.rendered e0 ++ [c]) ->
  c = c' ->
  Q (K65Plus.set_wavePosition
       (K65Plus.set_hue s1 (K65Plus.incr (K65Plus.hue s1)))
       (K65Plus.wavePosition s1 + 1)) ->
  exists s' e',
    tick lightChannels s e = Some (s', e') /\
    Q s' /\
    K65Plus.rendered e' = K65Plus.rendered e ++ [c'] /\
    running name e'.
Proof.
  intros Hf (dp & Hdp & Hname) Hres He <- HQ.
  destruct (He (K65Plus.LEDChannels (K65Plus.device e))
               {| K65Plus.device := K65Plus.device e;
                  K65Plus.rgb := rgbNew p (K65Plus.rgb e);
                  K65Plus.rendered := K65Plus.rendered e |})
    as (r1 & e1 & Ee & Ed & Er).
  rewrite <- Hname in Ee at 1.
  assert (Hp : GetRgbProfile (K65Plus.RGBProfile dp) (K65Plus.rgb e) = Some p)
    by (rewrite Hname; apply Hres).
  destruct (tick_resolved R Profile GetRgbProfile Smoothness rgbNew render
              regenerate lightChannels s _ e _ dp p _ Hdp Hp Ee (Hf _ _))
    as (d' & Et & (K1 & _)).
  eexists _, _. split; [exact Et|]. split; [exact HQ|].
  split; [exact Er|].
  exists dp. split; [|exact Hname]. cbn. rewrite K1, Ed. exact Hdp.
Qed.

(** A property of the session that every tick carries from tick number [k]
    to tick number [k + 1] holds along the whole run. *)
Lemma ticks_invariant (name : string) (lightChannels : Z)
    (I : nat -> K65Plus.Session -> Prop) (frame : nat -> K65Plus.RenderCall) :
  (forall k s e, I k s -> running name e ->
     exists s' e',
       tick lightChannels s e = Some (s', e') /\
       I (S k) s' /\
       K65Plus.rendered e' = K65Plus.rendered e ++ [frame k] /\
       running name e') ->
  forall n k s e, I k s -> running name e ->
    exists s' e',
      ticks n lightChannels s e = Some (s', e') /\
      I (k + n)%nat s' /\
      K65Plus.rendered e' = K65Plus.rendered e ++ map frame (seq k n) /\
      running name e'.
Proof.
  intros Hstep. induction n as [|n IH]; intros k s e HI Hrun.
  - exists s, e. cbn. rewrite Nat.add_0_r, app_nil_r. auto.
  - destruct (Hstep k s e HI Hrun) as (s1 & e1 & Et & HI1 & Hr1 & Hrun1).
    destruct (IH (S k) s1 e1 HI1 Hrun1) as (s2 & e2 & Ets & HI2 & Hr2 & Hrun2).
    exists s2, e2. split.
    { cbn [K65Plus.ticks]. unfold Go.bind. rewrite Et. exact Ets. }
    split; [now rewrite Nat.add_succ_r|].
    split; [|exact Hrun2].
    rewrite Hr2, Hr1, <- app_assoc. reflexivity.
Qed.

Lemma plays_invariant (name : string) (lightChannels : Z)
    (I : nat -> K65Plus.Session -> Prop) (frame : nat -> K65Plus.RenderCall)
    (s : K65Plus.Session) (e : K65Plus.Engine R) :
  (forall k s e, I k s -> running name e ->
     exists s' e',
       tick lightChannels s e = Some (s', e') /\
       I (S k) s' /\
       K65Plus.rendered e' = K65Plus.rendered e ++ [frame k] /\
       running name e') ->
  I 0%nat s -> running name e ->
  plays name frame lightChannels s e.
Proof.
  intros Hstep HI Hrun n.
  destruct (ticks_invariant name lightChannels I frame Hstep n 0%nat s e HI Hrun)
    as (s' & e' & Et & _ & Hr & Hrun').
  exists s', e'. auto.
Qed.

(** *** The effects that the loop handles *)

Lemma effect_unhandled (name : string) (p : Profile) (lightChannels channels : Z)
    (s : K65Plus.Session) (e : K65Plus.Engine R) :
  ~ In name Schedule.handled ->
  effect name p lightChannels channels s [] e = Some ((s, []), e).
Proof.
  intros Hn.
  assert (Hne : forall x, In x Schedule.handled -> String.eqb name x = false).
  { intros x Hx. apply String.eqb_neq. intros ->. exact (Hn Hx). }
  unfold K65Plus.effect.
  repeat match goal with
         | |- context [String.eqb name ?lit] =>
             rewrite (Hne lit) by (cbn; tauto)
         end.
  reflexivity.
Qed.

Lemma effect_handled (name : string) (p : Profile) (lightChannels channels : Z)
    (s : K65Plus.Session) (e : K65Plus.Engine R) :
  (forall c r, (6 <= length (fst (render p c r)))%nat) ->
  2 <= channels ->
  In name Schedule.handled ->
  exists s1 buff e1,
    effect name p lightChannels channels s [] e = Some ((s1, buff), e1) /\
    (6 <= length buff)%nat.
Proof.
  intros Hf Hch Hin. unfold Schedule.handled in Hin. cbn [In] in Hin.
  repeat (destruct Hin as [<-|Hin]); [..|contradiction];
    unfold K65Plus.effect; cbn [String.eqb Ascii.eqb Bool.eqb];
    unfold K65Plus.regenerateColors; run_monad;
    repeat match goal with
           | |- context [if ?b then _ else _] => destruct b
           end;
    rewrite ?call_r_eq; cbn [app];
    eexists _, _, _; (split; [reflexivity|]); try apply Hf.
  unfold K65Plus.appendOff. cbn [app]. rewrite repeat_length. lia.
Qed.

Section Effects.

Variable p : Profile.
Variable lightChannels : Z.
Hypothesis full_frame : forall c r, (6 <= length (fst (render p c r)))%nat.

(** The effects that keep one counter and move it round a cycle of length
    [m]: the counter stands at [k mod m] before tick number [k]. *)
Ltac play_cycle name counter m Hc Hres Hrun :=
  apply (plays_invariant name lightChannels
           (fun k s => counter s = Z.of_nat k mod m));
    [|rewrite Hc; reflexivity|exact Hrun];
  let k := fresh "k" in
  let s := fresh "s" in
  let e := fresh "e" in
  let Hk := fresh "Hk" in
  let Hr := fresh "Hr" in
  let Hrun' := fresh "Hrun" in
  intros k s e Hk Hrun';
  pose proof (Z.mod_pos_bound (Z.of_nat k) m ltac:(lia)) as Hr;
  eapply (tick_step name p lightChannels s _ _ _ e _ full_frame Hrun' Hres);
    [ effect_case
    | session_simpl; rewrite ?Hk; rewrite ?incr_small by lia; cycle_step k m
    | session_simpl; rewrite ?Hk; rewrite ?incr_small by lia; cycle_step k m ].

Lemma plays_colorpulse (s : K65Plus.Session) (e : K65Plus.Engine R) :
  1 <= Smoothness p < 2 ^ 63 ->
  (forall r, GetRgbProfile "colorpulse" r = Some p) ->
  running "colorpulse" e ->
  K65Plus.counterColorpulse s = 0 ->
  plays "colorpulse"
    (fun k => K65Plus.Colorpulse ((Z.of_nat k + 1) mod Smoothness p))
    lightChannels s e.
Proof.
  intros HS Hres Hrun Hc.
  play_cycle "colorpulse"%string K65Plus.counterColorpulse (Smoothness p)
             Hc Hres Hrun.
Qed.

Lemma plays_cpu_temperature (s : K65Plus.Session) (e : K65Plus.Engine R) :
  1 <= Smoothness p < 2 ^ 63 ->
  (forall r, GetRgbProfile "cpu-temperature" r = Some p) ->
  running "cpu-temperature" e ->
  K65Plus.counterCpuTemp s = 0 ->
  plays "cpu-temperature"
    (fun k => K65Plus.TemperatureCpu ((Z.of_nat k + 1) mod Smoothness p))
    lightChannels s e.
Proof.
  intros HS Hres Hrun Hc.
  play_cycle "cpu-temperature"%string K65Plus.counterCpuTemp (Smoothness p)
             Hc Hres Hrun.
Qed.

Lemma plays_gpu_temperature (s : K65Plus.Session) (e : K65Plus.Engine R) :
  1 <= Smoothness p < 2 ^ 63 ->
  (forall r, GetRgbProfile "gpu-temperature" r = Some p) ->
  running "gpu-temperature" e ->
  K65Plus.counterGpuTemp s = 0 ->
  plays "gpu-temperature"
    (fun k => K65Plus.TemperatureGpu ((Z.of_nat k + 1) mod Smoothness p))
    lightChannels s e.
Proof.
  intros HS Hres Hrun Hc.
  play_cycle "gpu-temperature"%string K65Plus.counterGpuTemp (Smoothness p)
             Hc Hres Hrun.
Qed.

Lemma plays_flickering (s : K65Plus.Session) (e : K65Plus.Engine R) :
  1 <= Smoothness p < 2 ^ 63 ->
  (forall r, GetRgbProfile "flickering" r = Some p) ->
  running "flickering" e ->
  K65Plus.counterFlickering s = 0 ->
  plays "flickering"
    (fun k => K65Plus.Flickering ((Z.of_nat k + 1) mod (Smoothness p + 1)))
    lightChannels s e.
Proof.
  intros HS Hres Hrun Hc.
  play_cycle "flickering"%string K65Plus.counterFlickering (Smoothness p + 1)
             Hc Hres Hrun.
Qed.

Lemma plays_circleshift (s : K65Plus.Session) (e : K65Plus.Engine R) :
  0 <= lightChannels < 2 ^ 63 ->
  (forall r, GetRgbProfile "circleshift" r = Some p) ->
  running "circleshift" e ->
  K65Plus.counterCircleshift s = 0 ->
  plays "circleshift"
    (fun k => K65Plus.Circle ((Z.of_nat k + 1) mod (lightChannels + 1)))
    lightChannels s e.
Proof.
  intros HS Hres Hrun Hc.
  play_cycle "circleshift"%string K65Plus.counterCircleshift (lightChannels + 1)
             Hc Hres Hrun.
Qed.

Lemma plays_circle (s : K65Plus.Session) (e : K65Plus.Engine R) :
  0 <= lightChannels < 2 ^ 63 ->
  (forall r, GetRgbProfile "circle" r = Some p) ->
  running "circle" e ->
  K65Plus.counterCircle s = 0 ->
  plays "circle"
    (fun k => K65Plus.Circle ((Z.of_nat k + 1) mod (lightChannels + 1)))
    lightChannels s e.
Proof.
  intros HS Hres Hrun Hc.
  play_cycle "circle"%string K65Plus.counterCircle (lightChannels + 1)
             Hc Hres Hrun.
Qed.

Lemma plays_spinner (s : K65Plus.Session) (e : K65Plus.Engine R) :
  0 <= lightChannels < 2 ^ 63 ->
  (forall r, GetRgbProfile "spinner" r = Some p) ->
  running "spinner" e ->
  K65Plus.counterSpinner s = 0 ->
  plays "spinner"
    (fun k => K65Plus.Spinner ((Z.of_nat k + 1) mod (lightChannels + 1)))
    lightChannels s e.
Proof.
  intros HS Hres Hrun Hc.
  play_cycle "spinner"%string K65Plus.counterSpinner (lightChannels + 1)
             Hc Hres Hrun.
Qed.

Lemma plays_colorshift (s : K65Plus.Session) (e : K65Plus.Engine R) :
  1 <= Smoothness p < 2 ^ 63 ->
  (forall r, GetRgbProfile "colorshift" r = Some p) ->
  running "colorshift" e ->
  K65Plus.counterColorshift s = 0 ->
  K65Plus.reverse s = false ->
  plays "colorshift"
    (fun k => K65Plus.Colorshift (Z.of_nat k mod Smoothness p)
                                 (Z.odd (Z.of_nat k / Smoothness p)))
    lightChannels s e.
Proof.
  intros HS Hres Hrun Hc Hr.
  apply (plays_invariant "colorshift" lightChannels
           (fun k s =>
              match k with
              | O => K65Plus.counterColorshift s = 0 /\ K65Plus.reverse s = false
              | S k' =>
                  K65Plus.counterColorshift s
                    = Z.of_nat k' mod Smoothness p + 1 /\
                  K65Plus.reverse s = Z.odd (Z.of_nat k' / Smoothness p)
              end));
    [|split; assumption|exact Hrun].
  clear s e Hrun Hc Hr. intros k s e HI Hrun.
  eapply (tick_step "colorshift" p lightChannels s _ _ _ e _ full_frame Hrun Hres);
    [effect_case| |].
  - destruct k as [|k]; destruct HI as [Hc Hr]; rewrite Hc, Hr.
    + rewrite (geb_below 0 (Smoothness p)) by lia. cbn [andb]. session_simpl.
      rewrite Hc, Hr. reflexivity.
    + pose proof (Z.mod_pos_bound (Z.of_nat k) (Smoothness p) ltac:(lia)) as Hb.
      rewrite Nat2Z.inj_succ. unfold Z.succ.
      destruct (Z_lt_le_dec (Z.of_nat k mod Smoothness p + 1) (Smoothness p))
        as [Hlt|Hge].
      * destruct (mod_succ_below (Z.of_nat k) (Smoothness p) ltac:(lia) Hlt)
          as [Em Ed].
        rewrite Em, Ed, geb_below by lia. cbn [andb]. session_simpl.
        rewrite Hc, Hr. reflexivity.
      * destruct (mod_succ_wrap (Z.of_nat k) (Smoothness p) ltac:(lia) Hge)
          as [Em Ed].
        rewrite Em, Ed, geb_reached by lia.
        rewrite Z.odd_add. change (Z.odd 1) with true.
        destruct (Z.odd (Z.of_nat k / Smoothness p)); reflexivity.
  - destruct k as [|k]; destruct HI as [Hc Hr]; rewrite Hc, Hr.
    + rewrite (geb_below 0 (Smoothness p)) by lia. cbn [andb]. session_simpl.
      rewrite Hc, Hr. split; reflexivity.
    + pose proof (Z.mod_pos_bound (Z.of_nat k) (Smoothness p) ltac:(lia)) as Hb.
      rewrite Nat2Z.inj_succ. unfold Z.succ.
      destruct (Z_lt_le_dec (Z.of_nat k mod Smoothness p + 1) (Smoothness p))
        as [Hlt|Hge].
      * destruct (mod_succ_below (Z.of_nat k) (Smoothness p) ltac:(lia) Hlt)
          as [Em Ed].
        rewrite Em, Ed, geb_below by lia. cbn [andb]. session_simpl.
        rewrite Hc, Hr, incr_small by lia. split; reflexivity.
      * destruct (mod_succ_wrap (Z.of_nat k) (Smoothness p) ltac:(lia) Hge)
          as [Em Ed].
        rewrite Em, Ed, geb_reached by lia.
        rewrite Z.odd_add. change (Z.odd 1) with true.
        destruct (Z.odd (Z.of_nat k / Smoothness p)); split; reflexivity.
Qed.

Lemma plays_colorwarp (s : K65Plus.Session) (e : K65Plus.Engine R) :
  1 <= Smoothness p < 2 ^ 63 ->
  (forall r, GetRgbProfile "colorwarp" r = Some p) ->
  running "colorwarp" e ->
  K65Plus.counterColorwarp s = 0 ->
  K65Plus.colorwarpGeneratedReverse s = false ->
  plays "colorwarp"
    (fun k => K65Plus.Colorwarp
                (if Z.of_nat k mod (Smoothness p + 2) <? Smoothness p
                 then Z.of_nat k mod (Smoothness p + 2) + 1 else 0))
    lightChannels s e.
Proof.
  intros HS Hres Hrun Hc Hg.
  apply (plays_invariant "colorwarp" lightChannels
           (fun k s =>
              K65Plus.counterColorwarp s
                = (if Z.of_nat k mod (Smoothness p + 2) <=? Smoothness p
                   then Z.of_nat k mod (Smoothness p + 2) else 0) /\
              K65Plus.colorwarpGeneratedReverse s
                = (Z.of_nat k mod (Smoothness p + 2) =? Smoothness p + 1)));
    [| |exact Hrun].
  2: { rewrite Hc, Hg. cbn [Z.of_nat]. rewrite Z.mod_0_l by lia.
       split; [now destruct (0 <=? Smoothness p)|].
       symmetry. apply Z.eqb_neq. lia. }
  clear s e Hrun Hc Hg. intros k s e [Hc Hg] Hrun.
  pose proof (Z.mod_pos_bound (Z.of_nat k) (Smoothness p + 2) ltac:(lia)) as Hb.
  rewrite Nat2Z.inj_succ. unfold Z.succ.
  remember (Z.of_nat k mod (Smoothness p + 2)) as r eqn:Er.
  destruct (Z_lt_le_dec r (Smoothness p)) as [Hlt|Hge];
    [|destruct (Z.eq_dec r (Smoothness p)) as [Heq|Hne]].
  - (* the ramp *)
    assert (E1 : (r <=? Smoothness p) = true) by (apply Z.leb_le; lia).
    assert (E2 : (r =? Smoothness p + 1) = false) by (apply Z.eqb_neq; lia).
    assert (E3 : (r <? Smoothness p) = true) by (apply Z.ltb_lt; lia).
    rewrite E1 in Hc. rewrite E2 in Hg. rewrite E3.
    destruct (mod_succ_below (Z.of_nat k) (Smoothness p + 2) ltac:(lia)
                ltac:(lia)) as [Em _].
    rewrite Em, <- Er.
    eapply (tick_step "colorwarp" p lightChannels s _ _ _ e _ full_frame
              Hrun Hres).
    + intros channels e0.
      rewrite (effect_colorwarp_below R Profile Smoothness render regenerate
                 p lightChannels channels s e0 ltac:(lia) Hg).
      eexists _, _. split; [reflexivity|]. split; reflexivity.
    + rewrite Hc, incr_small by lia. reflexivity.
    + session_simpl. rewrite Hc, Hg, incr_small by lia. split.
      * assert (E : (r + 1 <=? Smoothness p) = true) by (apply Z.leb_le; lia).
        now rewrite E.
      * symmetry. apply Z.eqb_neq. lia.
  - (* the reset *)
    assert (E1 : (r <=? Smoothness p) = true) by (apply Z.leb_le; lia).
    assert (E2 : (r =? Smoothness p + 1) = false) by (apply Z.eqb_neq; lia).
    assert (E3 : (r <? Smoothness p) = false) by (apply Z.ltb_ge; lia).
    rewrite E1 in Hc. rewrite E2 in Hg. rewrite E3.
    destruct (mod_succ_below (Z.of_nat k) (Smoothness p + 2) ltac:(lia)
                ltac:(lia)) as [Em _].
    rewrite Em, <- Er.
    eapply (tick_step "colorwarp" p lightChannels s _ _ _ e _ full_frame
              Hrun Hres).
    + intros channels e0.
      rewrite (effect_colorwarp_reached R Profile Smoothness render regenerate
                 p lightChannels channels s e0 ltac:(lia) Hg).
      eexists _, _. split; [reflexivity|]. split; reflexivity.
    + reflexivity.
    + session_simpl. split.
      * assert (E : (r + 1 <=? Smoothness p) = false) by (apply Z.leb_gt; lia).
        now rewrite E.
      * symmetry. apply Z.eqb_eq. lia.
  - (* the rest at zero *)
    assert (E1 : (r <=? Smoothness p) = false) by (apply Z.leb_gt; lia).
    assert (E2 : (r =? Smoothness p + 1) = true) by (apply Z.eqb_eq; lia).
    assert (E3 : (r <? Smoothness p) = false) by (apply Z.ltb_ge; lia).
    rewrite E1 in Hc. rewrite E2 in Hg. rewrite E3.
    destruct (mod_succ_wrap (Z.of_nat k) (Smoothness p + 2) ltac:(lia)
                ltac:(lia)) as [Em _].
    rewrite Em.
    eapply (tick_step "colorwarp" p lightChannels s _ _ _ e _ full_frame
              Hrun Hres).
    + intros channels e0.
      rewrite (effect_colorwarp_settle R Profile Smoothness render regenerate
                 p lightChannels channels s e0 ltac:(lia) Hc Hg).
      eexists _, _. split; [reflexivity|]. split; reflexivity.
    + reflexivity.
    + session_simpl. rewrite Hc. split.
      * now destruct (0 <=? Smoothness p).
      * symmetry. apply Z.eqb_neq. lia.
Qed.

End Effects.

(** X14. The effects that add one to their counter before they check it
    (colorpulse, cpu-temperature, gpu-temperature): from counter 0 the loop
    runs for any number of ticks, and tick number [k] (from 0) renders at
    counter [(k + 1) mod Smoothness]. The renderer first sees 1, never sees
    the smoothness itself, and sees 0 only when the counter has come round. *)
Theorem counters_checked_after_the_step_stay_below_smoothness
    (p : Profile) (lightChannels : Z) (s : K65Plus.Session)
    (e : K65Plus.Engine R) :
  1 <= Smoothness p < 2 ^ 63 ->
  (forall c r, (6 <= length (fst (render p c r)))%nat) ->
  (running "colorpulse" e ->
   (forall r, GetRgbProfile "colorpulse" r = Some p) ->
   K65Plus.counterColorpulse s = 0 ->
   plays "colorpulse"
     (fun k => K65Plus.Colorpulse ((Z.of_nat k + 1) mod Smoothness p))
     lightChannels s e)
  /\
  (running "cpu-temperature" e ->
   (forall r, GetRgbProfile "cpu-temperature" r = Some p) ->
   K65Plus.counterCpuTemp s = 0 ->
   plays "cpu-temperature"
     (fun k => K65Plus.TemperatureCpu ((Z.of_nat k + 1) mod Smoothness p))
     lightChannels s e)
  /\
  (running "gpu-temperature" e ->
   (forall r, GetRgbProfile "gpu-temperature" r = Some p) ->
   K65Plus.counterGpuTemp s = 0 ->
   plays "gpu-temperature"
     (fun k => K65Plus.TemperatureGpu ((Z.of_nat k + 1) mod Smoothness p))
     lightChannels s e).
Proof.
  intros HS Hf. repeat apply conj; intros Hrun Hres Hc.
  - exact (plays_colorpulse p lightChannels Hf s e HS Hres Hrun Hc).
  - exact (plays_cpu_temperature p lightChannels Hf s e HS Hres Hrun Hc).
  - exact (plays_gpu_temperature p lightChannels Hf s e HS Hres Hrun Hc).
Qed.

(** X15. The effects that check their counter before they step it
    (flickering against the smoothness; circleshift, circle and spinner
    against the number of light channels the loop was started with): from
    counter 0, tick number [k] renders at counter [(k + 1) mod (bound + 1)].
    The counter handed to the renderer does reach the bound itself, so it
    takes [bound + 1] values, one more than for the effects above. *)
Theorem counters_checked_before_the_step_reach_their_bound
    (p : Profile) (lightChannels : Z) (s : K65Plus.Session)
    (e : K65Plus.Engine R) :
  1 <= Smoothness p < 2 ^ 63 ->
  0 <= lightChannels < 2 ^ 63 ->
  (forall c r, (6 <= length (fst (render p c r)))%nat) ->
  (running "flickering" e ->
   (forall r, GetRgbProfile "flickering" r = Some p) ->
   K65Plus.counterFlickering s = 0 ->
   plays "flickering"
     (fun k => K65Plus.Flickering ((Z.of_nat k + 1) mod (Smoothness p + 1)))
     lightChannels s e)
  /\
  (running "circleshift" e ->
   (forall r, GetRgbProfile "circleshift" r = Some p) ->
   K65Plus.counterCircleshift s = 0 ->
   plays "circleshift"
     (fun k => K65Plus.Circle ((Z.of_nat k + 1) mod (lightChannels + 1)))
     lightChannels s e)
  /\
  (running "circle" e ->
   (forall r, GetRgbProfile "circle" r = Some p) ->
   K65Plus.counterCircle s = 0 ->
   plays "circle"
     (fun k => K65Plus.Circle ((Z.of_nat k + 1) mod (lightChannels + 1)))
     lightChannels s e)
  /\
  (running "spinner" e ->
   (forall r, GetRgbProfile "spinner" r = Some p) ->
   K65Plus.counterSpinner s = 0 ->
   plays "spinner"
     (fun k => K65Plus.Spinner ((Z.of_nat k + 1) mod (lightChannels + 1)))
     lightChannels s e).
Proof.
  intros HS HL Hf. repeat apply conj; intros Hrun Hres Hc.
  - exact (plays_flickering p lightChannels Hf s e HS Hres Hrun Hc).
  - exact (plays_circleshift p lightChannels Hf s e HL Hres Hrun Hc).
  - exact (plays_circle p lightChannels Hf s e HL Hres Hrun Hc).
  - exact (plays_spinner p lightChannels Hf s e HL Hres Hrun Hc).
Qed.

(** X16. Colorshift for any smoothness [S], from counter 0 with the
    direction flag down: tick number [k] (from 0) renders at counter
    [k mod S] in direction [odd (k / S)]. Each direction is rendered for
    exactly [S] ticks, at the counters 0 to [S - 1]; the counter value [S]
    is never handed to the renderer. *)
Theorem colorshift_renders_each_direction_for_smoothness_ticks
    (p : Profile) (lightChannels : Z) (s : K65Plus.Session)
    (e : K65Plus.Engine R) :
  1 <= Smoothness p < 2 ^ 63 ->
  (forall c r, (6 <= length (fst (render p c r)))%nat) ->
  running "colorshift" e ->
  (forall r, GetRgbProfile "colorshift" r = Some p) ->
  K65Plus.counterColorshift s = 0 ->
  K65Plus.reverse s = false ->
  plays "colorshift"
    (fun k => K65Plus.Colorshift (Z.of_nat k mod Smoothness p)
                                 (Z.odd (Z.of_nat k / Smoothness p)))
    lightChannels s e.
Proof.
  intros HS Hf Hrun Hres Hc Hr.
  exact (plays_colorshift p lightChannels Hf s e HS Hres Hrun Hc Hr).
Qed.

(** X17. Colorwarp for any smoothness [S], from counter 0 with its flag
    down, goes round in [S + 2] ticks: it renders at the counters 1 to [S]
    and then twice at counter 0 (the tick that resets the counter and draws
    new colours, and the tick that takes the flag down again). *)
Theorem colorwarp_cycle_is_smoothness_plus_two
    (p : Profile) (lightChannels : Z) (s : K65Plus.Session)
    (e : K65Plus.Engine R) :
  1 <= Smoothness p < 2 ^ 63 ->
  (forall c r, (6 <= length (fst (render p c r)))%nat) ->
  running "colorwarp" e ->
  (forall r, GetRgbProfile "colorwarp" r = Some p) ->
  K65Plus.counterColorwarp s = 0 ->
  K65Plus.colorwarpGeneratedReverse s = false ->
  plays "colorwarp"
    (fun k => K65Plus.Colorwarp
                (if Z.of_nat k mod (Smoothness p + 2) <? Smoothness p
                 then Z.of_nat k mod (Smoothness p + 2) + 1 else 0))
    lightChannels s e.
Proof.
  intros HS Hf Hrun Hres Hc Hg.
  exact (plays_colorwarp p lightChannels Hf s e HS Hres Hrun Hc Hg).
Qed.

(** X18. A tick whose profile name resolves in package [rgb] panics
    exactly when the name is none of the sixteen cases of the [switch]: the
    buffer then stays empty and [writeColor] stores into it out of range.
    For the sixteen names the tick returns (the renderer giving at least two
    channels' worth of bytes, and the keyboard having at least two). *)
Theorem tick_panics_iff_effect_has_no_case
    (lightChannels : Z) (s : K65Plus.Session) (e : K65Plus.Engine R)
    (dp : K65Plus.DeviceProfile) (p : Profile) :
  K65Plus.deviceProfile (K65Plus.device e) = Some dp ->
  GetRgbProfile (K65Plus.RGBProfile dp) (K65Plus.rgb e) = Some p ->
  (forall c r, (6 <= length (fst (render p c r)))%nat) ->
  2 <= K65Plus.LEDChannels (K65Plus.device e) ->
  (tick lightChannels s e = None
   <-> ~ In (K65Plus.RGBProfile dp) Schedule.handled).
Proof.
  intros Hdp Hp Hf Hch. split.
  - intros En Hin.
    destruct (effect_handled (K65Plus.RGBProfile dp) p lightChannels
                (K65Plus.LEDChannels (K65Plus.device e)) s
                {| K65Plus.device := K65Plus.device e;
                   K65Plus.rgb := rgbNew p (K65Plus.rgb e);
                   K65Plus.rendered := K65Plus.rendered e |} Hf Hch Hin)
      as (s1 & buff & e1 & Ee & Hlen).
    destruct (tick_resolved R Profile GetRgbProfile Smoothness rgbNew render
                regenerate lightChannels s s1 e e1 dp p buff Hdp Hp Ee Hlen)
      as (d' & Et & _).
    congruence.
  - intros Hn. unfold K65Plus.tick, K65Plus.new_r. run_monad.
    rewrite Hdp, Hp. change (make 0) with (@nil byte).
    rewrite (effect_unhandled _ p lightChannels _ s _ Hn).
    reflexivity.
Qed.

End ScheduleFacts.

(** The stand-in renderer of the samples gives 369 bytes a frame. *)
Lemma black_full_frame (p : Z) (c : K65Plus.RenderCall) (r : unit) :
  (6 <= length (fst (Samples.black p c r)))%nat.
Proof. vm_compute. lia. Qed.

Lemma smoothness_ten : 1 <= Samples.smoothness 10 < 2 ^ 63.
Proof. unfold Samples.smoothness. lia. Qed.

Lemma engine_running (name : string) : running name (Samples.engine name).
Proof. eexists. split; reflexivity. Qed.

Lemma profiles_resolve (name : string) :
  String.eqb name "deleted" = false ->
  forall r, Samples.profiles name r = Some 10.
Proof. intros H r. unfold Samples.profiles. now rewrite H. Qed.

(** Witness of X14: twelve ticks at smoothness 10. *)
Lemma counters_checked_after_the_step_witness :
  (exists s' e',
     Samples.ticks 12 123 K65Plus.newSession (Samples.engine "colorpulse")
       = Some (s', e') /\
     K65Plus.rendered e'
       = [] ++ map (fun k => K65Plus.Colorpulse ((Z.of_nat k + 1) mod 10))
                   (seq 0 12) /\
     running "colorpulse" e')
  /\
  (exists s' e',
     Samples.ticks 12 123 K65Plus.newSession (Samples.engine "cpu-temperature")
       = Some (s', e') /\
     K65Plus.rendered e'
       = [] ++ map (fun k => K65Plus.TemperatureCpu ((Z.of_nat k + 1) mod 10))
                   (seq 0 12) /\
     running "cpu-temperature" e')
  /\
  (exists s' e',
     Samples.ticks 12 123 K65Plus.newSession (Samples.engine "gpu-temperature")
       = Some (s', e') /\
     K65Plus.rendered e'
       = [] ++ map (fun k => K65Plus.TemperatureGpu ((Z.of_nat k + 1) mod 10))
                   (seq 0 12) /\
     running "gpu-temperature" e').
Proof.
  repeat apply conj.
  - exact (proj1 (counters_checked_after_the_step_stay_below_smoothness
                    unit Z Samples.profiles Samples.smoothness Samples.fresh
                    Samples.black Samples.keep 10 123 K65Plus.newSession
                    (Samples.engine "colorpulse")
                    smoothness_ten (black_full_frame 10))
             (engine_running "colorpulse")
             (profiles_resolve "colorpulse" eq_refl) eq_refl 12%nat).
  - exact (proj1 (proj2 (counters_checked_after_the_step_stay_below_smoothness
                    unit Z Samples.profiles Samples.smoothness Samples.fresh
                    Samples.black Samples.keep 10 123 K65Plus.newSession
                    (Samples.engine "cpu-temperature")
                    smoothness_ten (black_full_frame 10)))
             (engine_running "cpu-temperature")
             (profiles_resolve "cpu-temperature" eq_refl) eq_refl 12%nat).
  - exact (proj2 (proj2 (counters_checked_after_the_step_stay_below_smoothness
                    unit Z Samples.profiles Samples.smoothness Samples.fresh
                    Samples.black Samples.keep 10 123 K65Plus.newSession
                    (Samples.engine "gpu-temperature")
                    smoothness_ten (black_full_frame 10)))
             (engine_running "gpu-temperature")
             (profiles_resolve "gpu-temperature" eq_refl) eq_refl 12%nat).
Defined.

Lemma channels_123 : 0 <= 123 < 2 ^ 63.
Proof. lia. Qed.

(** Witness of X15: twelve ticks at smoothness 10, and 125 ticks on the
    123 channels of the keyboard. *)
Lemma counters_checked_before_the_step_witness :
  (exists s' e',
     Samples.ticks 12 123 K65Plus.newSession (Samples.engine "flickering")
       = Some (s', e') /\
     K65Plus.rendered e'
       = [] ++ map (fun k => K65Plus.Flickering ((Z.of_nat k + 1) mod (10 + 1)))
                   (seq 0 12) /\
     running "flickering" e')
  /\
  (exists s' e',
     Samples.ticks 125 123 K65Plus.newSession (Samples.engine "circleshift")
       = Some (s', e') /\
     K65Plus.rendered e'
       = [] ++ map (fun k => K65Plus.Circle ((Z.of_nat k + 1) mod (123 + 1)))
                   (seq 0 125) /\
     running "circleshift" e')
  /\
  (exists s' e',
     Samples.ticks 125 123 K65Plus.newSession (Samples.engine "circle")
       = Some (s', e') /\
     K65Plus.rendered e'
       = [] ++ map (fun k => K65Plus.Circle ((Z.of_nat k + 1) mod (123 + 1)))
                   (seq 0 125) /\
     running "circle" e')
  /\
  (exists s' e',
     Samples.ticks 125 123 K65Plus.newSession (Samples.engine "spinner")
       = Some (s', e') /\
     K65Plus.rendered e'
       = [] ++ map (fun k => K65Plus.Spinner ((Z.of_nat k + 1) mod (123 + 1)))
                   (seq 0 125) /\
     running "spinner" e').
Proof.
  repeat apply conj.
  - exact (proj1 (counters_checked_before_the_step_reach_their_bound
                    unit Z Samples.profiles Samples.smoothness Samples.fresh
                    Samples.black Samples.keep 10 123 K65Plus.newSession
                    (Samples.engine "flickering")
                    smoothness_ten channels_123 (black_full_frame 10))
             (engine_running "flickering")
             (profiles_resolve "flickering" eq_refl) eq_refl 12%nat).
  - exact (proj1 (proj2 (counters_checked_before_the_step_reach_their_bound
                    unit Z Samples.profiles Samples.smoothness Samples.fresh
                    Samples.black Samples.keep 10 123 K65Plus.newSession
                    (Samples.engine "circleshift")
                    smoothness_ten channels_123 (black_full_frame 10)))
             (engine_running "circleshift")
             (profiles_resolve "circleshift" eq_refl) eq_refl 125%nat).
  - exact (proj1 (proj2 (proj2
                   (counters_checked_before_the_step_reach_their_bound
                    unit Z Samples.profiles Samples.smoothness Samples.fresh
                    Samples.black Samples.keep 10 123 K65Plus.newSession
                    (Samples.engine "circle")
                    smoothness_ten channels_123 (black_full_frame 10))))
             (engine_running "circle")
             (profiles_resolve "circle" eq_refl) eq_refl 125%nat).
  - exact (proj2 (proj2 (proj2
                   (counters_checked_before_the_step_reach_their_bound
                    unit Z Samples.profiles Samples.smoothness Samples.fresh
                    Samples.black Samples.keep 10 123 K65Plus.newSession
                    (Samples.engine "spinner")
                    smoothness_ten channels_123 (black_full_frame 10))))
             (engine_running "spinner")
             (profiles_resolve "spinner" eq_refl) eq_refl 125%nat).
Defined.

(** Witness of X16: 25 ticks at smoothness 10. *)
Lemma colorshift_renders_each_direction_witness :
  exists s' e',
    Samples.ticks 25 123 K65Plus.newSession (Samples.engine "colorshift")
      = Some (s', e') /\
    K65Plus.rendered e'
      = [] ++ map (fun k => K65Plus.Colorshift (Z.of_nat k mod 10)
                                               (Z.odd (Z.of_nat k / 10)))
                  (seq 0 25) /\
    running "colorshift" e'.
Proof.
  exact (colorshift_renders_each_direction_for_smoothness_ticks
           unit Z Samples.profiles Samples.smoothness Samples.fresh
           Samples.black Samples.keep 10 123 K65Plus.newSession
           (Samples.engine "colorshift")
           smoothness_ten (black_full_frame 10)
           (engine_running "colorshift")
           (profiles_resolve "colorshift" eq_refl) eq_refl eq_refl 25%nat).
Defined.

(** Witness of X17: 25 ticks at smoothness 10. *)
Lemma colorwarp_cycle_witness :
  exists s' e',
    Samples.ticks 25 123 K65Plus.newSession (Samples.engine "colorwarp")
      = Some (s', e') /\
    K65Plus.rendered e'
      = [] ++ map (fun k => K65Plus.Colorwarp
                              (if Z.of_nat k mod (10 + 2) <? 10
                               then Z.of_nat k mod (10 + 2) + 1 else 0))
                  (seq 0 25) /\
    running "colorwarp" e'.
Proof.
  exact (colorwarp_cycle_is_smoothness_plus_two
           unit Z Samples.profiles Samples.smoothness Samples.fresh
           Samples.black Samples.keep 10 123 K65Plus.newSession
           (Samples.engine "colorwarp")
           smoothness_ten (black_full_frame 10)
           (engine_running "colorwarp")
           (profiles_resolve "colorwarp" eq_refl) eq_refl eq_refl 25%nat).
Defined.

(** Witness of X18: an effect of package [rgb] that this keyboard's
    loop has no case for. *)
Lemma tick_panics_iff_effect_has_no_case_witness :
  Samples.tick 123 K65Plus.newSession (Samples.engine "marquee") = None
  <-> ~ In "marquee"%string Schedule.handled.
Proof.
  apply (tick_panics_iff_effect_has_no_case
           unit Z Samples.profiles Samples.smoothness Samples.fresh
           Samples.black Samples.keep 123 K65Plus.newSession
           (Samples.engine "marquee") _ 10 eq_refl eq_refl
           (black_full_frame 10)).
  cbn. lia.
Defined.

(** ** The wireless colour modes *)

Section ColourFacts.

Variable F : Type.
Variable byteOf : F -> byte.
Variable GetKeyboard : string -> option (K65PlusWProfile.Keyboard F).
Variable IndexOfString : list string -> string -> Z.

Local Abbreviation Keeper := (K65PlusWProfile.Keeper F).
Local Abbreviation setDeviceColor := (K65PlusWProfile.setDeviceColor byteOf).
Local Abbreviation saveDeviceProfile :=
  (K65PlusWProfile.saveDeviceProfile GetKeyboard).
Local Abbreviation UpdateRgbProfile :=
  (K65PlusWProfile.UpdateRgbProfile byteOf GetKeyboard).
Local Abbreviation currentKey k :=
  (K65PlusWProfile.Keyboards (K65PlusWProfile.settings k)
     (K65PlusWProfile.Profile (K65PlusWProfile.settings k))).

(** [dataTypeSetColor] is set, and one colour packet goes out under it. *)
Lemma sendColor_sends (tag buf : list byte) (k : Keeper) :
  exists d',
    K65PlusWProfile.sendColor tag buf k
      = Some (tt, {| K65PlusWProfile.device := d';
                     K65PlusWProfile.settings := K65PlusWProfile.settings k |}) /\
    written (K65PlusW.dev d')
      = written (K65PlusW.dev (K65PlusWProfile.device k))
          ++ Colour.packet tag buf /\
    K65PlusW.dataTypeSetColor d' = tag /\
    K65PlusW.deviceProfile d'
      = K65PlusW.deviceProfile (K65PlusWProfile.device k) /\
    K65PlusW.external d' = K65PlusW.external (K65PlusWProfile.device k).
Proof.
  destruct (writeColor_wireless buf
              (K65PlusWProfile.withTag (K65PlusWProfile.device k) tag))
    as (d' & E & W & (K1 & K2 & K3 & _)).
  exists d'. split.
  - unfold K65PlusWProfile.sendColor, K65PlusWProfile.liftD. run_monad.
    rewrite E. reflexivity.
  - repeat apply conj; assumption.
Qed.

(** A case that does not read the keyboard, with a key for the profile. *)
Lemma colorCase_sends (key : option (K65PlusWProfile.Keyboard F)) (size : nat)
    (ivs : list (nat * byte)) (tag buf : list byte) (k : Keeper) :
  K65PlusWProfile.stores (make size) ivs = Some buf ->
  exists d',
    K65PlusWProfile.colorCase (Some key) size ivs tag k
      = Some (tt, {| K65PlusWProfile.device := d';
                     K65PlusWProfile.settings := K65PlusWProfile.settings k |}) /\
    written (K65PlusW.dev d')
      = written (K65PlusW.dev (K65PlusWProfile.device k))
          ++ Colour.packet tag buf /\
    K65PlusW.dataTypeSetColor d' = tag /\
    K65PlusW.deviceProfile d'
      = K65PlusW.deviceProfile (K65PlusWProfile.device k) /\
    K65PlusW.external d' = K65PlusW.external (K65PlusWProfile.device k).
Proof.
  intros Hs. unfold K65PlusWProfile.colorCase. run_monad. rewrite Hs.
  apply sendColor_sends.
Qed.

Lemma stores_length (ivs : list (nat * byte)) :
  forall buf out,
    K65PlusWProfile.stores buf ivs = Some out -> length out = length buf.
Proof.
  induction ivs as [|[i v] rest IH]; intros buf out H; cbn in H.
  - now inversion H.
  - destruct (store buf i v) as [buf'|] eqn:E; [|discriminate].
    rewrite (IH _ _ H). clear H IH. revert i buf' E.
    induction buf as [|b buf IHb]; intros i buf' E; [discriminate|].
    destruct i as [|i]; cbn in E.
    + now inversion E.
    + destruct (store buf i v) as [t|] eqn:Et; [|discriminate].
      inversion E. cbn. f_equal. eapply IHb. exact Et.
Qed.

(** [setDeviceColor] for a mode of the table, with a key for the profile
    (that holds a keyboard, where the mode reads it). *)
Lemma setDeviceColor_mode (k : Keeper) (dp : K65PlusW.DeviceProfile)
    (key : option (K65PlusWProfile.Keyboard F)) :
  K65PlusW.deviceProfile (K65PlusWProfile.device k) = Some dp ->
  currentKey k = Some key ->
  In (K65PlusW.RGBProfile dp) K65PlusWProfile.RGBModes ->
  (K65PlusW.RGBProfile dp = "keyboard"%string -> key <> None) ->
  exists d' tag payload,
    setDeviceColor k
      = Some (tt, {| K65PlusWProfile.device := d';
                     K65PlusWProfile.settings := K65PlusWProfile.settings k |}) /\
    written (K65PlusW.dev d')
      = written (K65PlusW.dev (K65PlusWProfile.device k))
          ++ Colour.packet tag payload /\
    ((length payload = 93%nat \/ length payload = 89%nat) /\
     (length tag <= 5)%nat) /\
    K65PlusW.dataTypeSetColor d' = tag /\
    K65PlusW.deviceProfile d' = Some dp /\
    K65PlusW.external d' = K65PlusW.external (K65PlusWProfile.device k).
Proof.
  intros Hdp Hkey Hin Hkb.
  unfold K65PlusWProfile.setDeviceColor. run_monad. rewrite Hdp, Hkey.
  unfold K65PlusWProfile.RGBModes in Hin. cbn [In] in Hin.
  repeat (destruct Hin as [Hn|Hin]); [..|contradiction];
    rewrite <- Hn in *; cbn [String.eqb Ascii.eqb Bool.eqb].
  all: try (match goal with
            | |- context [K65PlusWProfile.colorCase (Some ?key0) ?size ?ivs ?tag ?k0] =>
                destruct (colorCase_sends key0 size ivs tag _ k0 eq_refl)
                  as (d' & E & W & T & P & X)
            end;
            exists d'; eexists _, _; rewrite E;
            split; [reflexivity|]; split; [exact W|];
            split; [cbn; split; [auto|lia]|];
            split; [exact T|]; split; [congruence|exact X]).
  (* the keyboard mode *)
  destruct key as [kb|]; [|now contradiction Hkb].
  cbn [K65PlusWProfile.stores store option_map make repeat].
  match goal with
  | |- context [K65PlusWProfile.sendColor ?tag ?buf k] =>
      destruct (sendColor_sends tag buf k) as (d' & E & W & T & P & X)
  end.
  exists d'. eexists _, _. rewrite E.
  split; [reflexivity|]. split; [exact W|].
  split; [cbn; split; [auto|lia]|].
  split; [exact T|]. split; [congruence|exact X].
Qed.

Lemma Contains_In (l : list string) (x : string) :
  K65PlusWProfile.Contains l x = true <-> In x l.
Proof.
  unfold K65PlusWProfile.Contains. rewrite existsb_exists. split.
  - intros (y & Hy & E). apply String.eqb_eq in E. now subst.
  - intros H. exists x. split; [exact H|apply String.eqb_refl].
Qed.

Lemma colorCase_absent (size : nat) (ivs : list (nat * byte)) (tag : list byte)
    (k : Keeper) :
  K65PlusWProfile.colorCase None size ivs tag k = Some (tt, k).
Proof. reflexivity. Qed.

(** Without a key for the profile no case does anything. *)
Lemma setDeviceColor_absent (k : Keeper) (dp : K65PlusW.DeviceProfile) :
  K65PlusW.deviceProfile (K65PlusWProfile.device k) = Some dp ->
  currentKey k = None ->
  setDeviceColor k = Some (tt, k).
Proof.
  intros Hdp Hkey. unfold K65PlusWProfile.setDeviceColor. run_monad.
  rewrite Hdp, Hkey.
  repeat match goal with
         | |- context [String.eqb ?a ?b] => destruct (String.eqb a b)
         end; reflexivity.
Qed.

(** A name that the [switch] does not list. *)
Lemma setDeviceColor_unlisted (k : Keeper) (dp : K65PlusW.DeviceProfile) :
  K65PlusW.deviceProfile (K65PlusWProfile.device k) = Some dp ->
  ~ In (K65PlusW.RGBProfile dp) K65PlusWProfile.RGBModes ->
  setDeviceColor k = Some (tt, k).
Proof.
  intros Hdp Hn.
  assert (Hne : forall x, In x K65PlusWProfile.RGBModes ->
                  String.eqb (K65PlusW.RGBProfile dp) x = false).
  { intros x Hx. apply String.eqb_neq. intros E. apply Hn. now rewrite E. }
  unfold K65PlusWProfile.setDeviceColor. run_monad. rewrite Hdp.
  repeat match goal with
         | |- context [String.eqb (K65PlusW.RGBProfile dp) ?lit] =>
             rewrite (Hne lit) by (cbn; tauto)
         end.
  reflexivity.
Qed.

Lemma setDeviceColor_nil_keyboard (k : Keeper) (dp : K65PlusW.DeviceProfile) :
  K65PlusW.deviceProfile (K65PlusWProfile.device k) = Some dp ->
  K65PlusW.RGBProfile dp = "keyboard"%string ->
  currentKey k = Some None ->
  setDeviceColor k = None.
Proof.
  intros Hdp Hn Hkey. unfold K65PlusWProfile.setDeviceColor. run_monad.
  rewrite Hdp, Hkey, Hn. reflexivity.
Qed.

Lemma setDeviceColor_nil_profile (k : Keeper) :
  K65PlusW.deviceProfile (K65PlusWProfile.device k) = None ->
  setDeviceColor k
  = Some (tt, {| K65PlusWProfile.device :=
                   K65PlusW.withLog (K65PlusWProfile.device k)
                     (K65PlusW.log (K65PlusWProfile.device k)
                        ++ [{| level := Error;
                               message :=
                                 "Unable to set color. DeviceProfile is null!" |}]);
                 K65PlusWProfile.settings := K65PlusWProfile.settings k |}).
Proof.
  intros Hdp. unfold K65PlusWProfile.setDeviceColor. run_monad.
  rewrite Hdp. reflexivity.
Qed.

(** X19. The wireless [setDeviceColor] panics in one situation only:
    the mode is "keyboard" and the key of the current keyboard profile holds
    a nil keyboard. Without a device profile it logs an error and returns;
    without a key for the current keyboard profile, or with a mode that is
    no case of its [switch], it returns and leaves everything as it is. *)
Theorem set_device_color_panics_only_on_a_nil_keyboard (k : Keeper) :
  (setDeviceColor k = None
   <-> exists dp,
         K65PlusW.deviceProfile (K65PlusWProfile.device k) = Some dp /\
         K65PlusW.RGBProfile dp = "keyboard"%string /\
         currentKey k = Some None)
  /\
  (K65PlusW.deviceProfile (K65PlusWProfile.device k) = None ->
   exists k',
     setDeviceColor k = Some (tt, k') /\
     K65PlusW.log (K65PlusWProfile.device k')
       = K65PlusW.log (K65PlusWProfile.device k)
           ++ [{| level := Error;
                  message := "Unable to set color. DeviceProfile is null!" |}] /\
     K65PlusW.dev (K65PlusWProfile.device k')
       = K65PlusW.dev (K65PlusWProfile.device k))
  /\
  (forall dp,
     K65PlusW.deviceProfile (K65PlusWProfile.device k) = Some dp ->
     currentKey k = None \/
     ~ In (K65PlusW.RGBProfile dp) K65PlusWProfile.RGBModes ->
     setDeviceColor k = Some (tt, k)).
Proof.
  split; [|split].
  - split.
    + intros En.
      destruct (K65PlusW.deviceProfile (K65PlusWProfile.device k)) as [dp|] eqn:Hdp;
        [|rewrite (setDeviceColor_nil_profile k Hdp) in En; discriminate].
      exists dp. split; [reflexivity|].
      destruct (currentKey k) as [key|] eqn:Hkey;
        [|rewrite (setDeviceColor_absent k dp Hdp Hkey) in En; discriminate].
      destruct (in_dec string_dec (K65PlusW.RGBProfile dp)
                  K65PlusWProfile.RGBModes) as [Hin|Hn];
        [|rewrite (setDeviceColor_unlisted k dp Hdp Hn) in En; discriminate].
      destruct (string_dec (K65PlusW.RGBProfile dp) "keyboard") as [Hk|Hk].
      * split; [exact Hk|]. destruct key as [kb|]; [|reflexivity].
        destruct (setDeviceColor_mode k dp (Some kb) Hdp Hkey Hin
                    ltac:(discriminate)) as (d' & tag & payload & E & _).
        congruence.
      * destruct (setDeviceColor_mode k dp key Hdp Hkey Hin
                    ltac:(intros; contradiction)) as (d' & tag & payload & E & _).
        congruence.
    + intros (dp & Hdp & Hn & Hkey).
      exact (setDeviceColor_nil_keyboard k dp Hdp Hn Hkey).
  - intros Hdp. eexists. split; [exact (setDeviceColor_nil_profile k Hdp)|].
    split; reflexivity.
  - intros dp Hdp [Hkey|Hn].
    + exact (setDeviceColor_absent k dp Hdp Hkey).
    + exact (setDeviceColor_unlisted k dp Hdp Hn).
Qed.

(** A framed buffer of 62 to 122 bytes goes out in two reports. *)
Lemma packet_two (tag payload : list byte) :
  (58 <= length tag + length payload <= 118)%nat ->
  Colour.packet tag payload
  = [reportOf x09 K65PlusW.cmdWriteColor
       (firstn 61 (framed (wrap16 (Z.of_nat (length payload))) tag payload));
     reportOf x09 K65PlusW.dataTypeSubColor
       (skipn 61 (framed (wrap16 (Z.of_nat (length payload))) tag payload))].
Proof.
  intros H. unfold Colour.packet.
  remember (framed (wrap16 (Z.of_nat (length payload))) tag payload) as B eqn:EB.
  assert (HB : (62 <= length B <= 122)%nat).
  { subst B. unfold framed. rewrite !length_app. cbn [length]. lia. }
  unfold ProcessMultiChunkPacket, maxBufferSizePerRequest.
  destruct (length B) as [|fuel] eqn:EL; [lia|].
  destruct B as [|b0 B']; [discriminate|].
  cbn [chunkLoop].
  assert (E : Nat.leb (length (b0 :: B')) 61 = false)
    by (apply Nat.leb_gt; lia).
  rewrite E.
  rewrite chunkLoop_single
    by (rewrite ?length_skipn; lia).
  reflexivity.
Qed.

Lemma UpdateRgbProfile_rejects (name : string) (k : Keeper) :
  ~ In name K65PlusWProfile.RGBModes ->
  UpdateRgbProfile name k
  = Some (0, {| K65PlusWProfile.device :=
                  K65PlusW.withLog (K65PlusWProfile.device k)
                    (K65PlusW.log (K65PlusWProfile.device k)
                       ++ [{| level := Warn;
                              message := "Non-existing RGB profile" |}]);
                K65PlusWProfile.settings := K65PlusWProfile.settings k |}).
Proof.
  intros Hn. unfold K65PlusWProfile.UpdateRgbProfile.
  destruct (K65PlusWProfile.Contains K65PlusWProfile.RGBModes name) eqn:E.
  - apply Contains_In in E. contradiction.
  - reflexivity.
Qed.

(** [UpdateRgbProfile] up to its call of [setDeviceColor]. *)
Lemma UpdateRgbProfile_accepts (name : string) (k : Keeper)
    (dp : K65PlusW.DeviceProfile) :
  In name K65PlusWProfile.RGBModes ->
  K65PlusW.deviceProfile (K65PlusWProfile.device k) = Some dp ->
  UpdateRgbProfile name k
  = match setDeviceColor
            {| K65PlusWProfile.device :=
                 K65PlusW.withExternal
                   (K65PlusW.withProfile (K65PlusWProfile.device k)
                      (Some (K65PlusWProfile.setRGBProfileField dp name)))
                   (K65PlusW.external (K65PlusWProfile.device k)
                      ++ [K65PlusW.SaveDeviceProfile
                            (K65PlusWProfile.setRGBProfileField dp name)])
                   (K65PlusW.soundErrors (K65PlusWProfile.device k));
               K65PlusWProfile.settings := K65PlusWProfile.settings k |} with
    | Some (_, k') => Some (1, k')
    | None => None
    end.
Proof.
  intros Hin Hdp. unfold K65PlusWProfile.UpdateRgbProfile.
  apply Contains_In in Hin. rewrite Hin. cbn [negb].
  unfold K65PlusWProfile.saveDeviceProfile, K65PlusWProfile.liftD,
    K65PlusW.saveDeviceProfile, K65PlusW.call.
  run_monad. rewrite Hdp. cbn. reflexivity.
Qed.


(** The mode "keyboard" on the wire. *)
Lemma setDeviceColor_keyboard (k : Keeper) (dp : K65PlusW.DeviceProfile)
    (kb : K65PlusWProfile.Keyboard F) :
  K65PlusW.deviceProfile (K65PlusWProfile.device k) = Some dp ->
  K65PlusW.RGBProfile dp = "keyboard"%string ->
  currentKey k = Some (Some kb) ->
  exists d' first second,
    setDeviceColor k
      = Some (tt, {| K65PlusWProfile.device := d';
                     K65PlusWProfile.settings := K65PlusWProfile.settings k |}) /\
    written (K65PlusW.dev d')
      = written (K65PlusW.dev (K65PlusWProfile.device k)) ++ [first; second] /\
    K65PlusW.dataTypeSetColor d' = [x7e; x20; x01] /\
    (K65PlusW.deviceProfile d' = Some dp /\
     K65PlusW.external d' = K65PlusW.external (K65PlusWProfile.device k)) /\
    firstn 4 first = [x00; x09; x06; x01] /\
    firstn 4 second = [x00; x09; x07; x01] /\
    Uint16 (skipn 4 first) = Some 93 /\
    nth_error first 16 = Some (byteOf (K65PlusWProfile.Blue (K65PlusWProfile.Color kb))) /\
    nth_error first 17 = Some (byteOf (K65PlusWProfile.Green (K65PlusWProfile.Color kb))) /\
    nth_error first 18 = Some (byteOf (K65PlusWProfile.Red (K65PlusWProfile.Color kb))).
Proof.
  intros Hdp Hn Hkey.
  unfold K65PlusWProfile.setDeviceColor. run_monad.
  rewrite Hdp, Hkey, Hn. cbn [String.eqb Ascii.eqb Bool.eqb].
  cbn [K65PlusWProfile.stores store option_map make repeat].
  match goal with
  | |- context [K65PlusWProfile.sendColor ?tag ?buf k] =>
      destruct (sendColor_sends tag buf k) as (d' & E & W & T & P & X)
  end.
  rewrite E. rewrite packet_two in W by (cbn; lia).
  eexists _, _, _. split; [reflexivity|]. split; [exact W|].
  split; [exact T|]. split; [split; [congruence|exact X]|]. repeat split.
Qed.

(** X21. In the mode "keyboard" the wireless [setDeviceColor] sends the
    colour of the current keyboard in the order blue, green, red: two
    reports to the keyboard (command byte 0x09), the first under opcode
    06 01 with the length field 93 and the colour at bytes 16, 17 and 18,
    the second under opcode 07 01; the tag becomes 7e 20 01. The mode "off"
    sends the same packet with the three colour bytes zero. *)
Theorem keyboard_colour_goes_out_blue_green_red
    (k : Keeper) (dp : K65PlusW.DeviceProfile) :
  K65PlusW.deviceProfile (K65PlusWProfile.device k) = Some dp ->
  (forall kb,
     K65PlusW.RGBProfile dp = "keyboard"%string ->
     currentKey k = Some (Some kb) ->
     exists k' first second,
       setDeviceColor k = Some (tt, k') /\
       written (K65PlusW.dev (K65PlusWProfile.device k'))
         = written (K65PlusW.dev (K65PlusWProfile.device k))
             ++ [first; second] /\
       K65PlusW.dataTypeSetColor (K65PlusWProfile.device k') = [x7e; x20; x01] /\
       firstn 4 first = [x00; x09; x06; x01] /\
       firstn 4 second = [x00; x09; x07; x01] /\
       Uint16 (skipn 4 first) = Some 93 /\
       nth_error first 16 = Some (byteOf (K65PlusWProfile.Blue (K65PlusWProfile.Color kb))) /\
       nth_error first 17 = Some (byteOf (K65PlusWProfile.Green (K65PlusWProfile.Color kb))) /\
       nth_error first 18 = Some (byteOf (K65PlusWProfile.Red (K65PlusWProfile.Color kb))))
  /\
  (forall key,
     K65PlusW.RGBProfile dp = "off"%string ->
     currentKey k = Some key ->
     exists k' first second,
       setDeviceColor k = Some (tt, k') /\
       written (K65PlusW.dev (K65PlusWProfile.device k'))
         = written (K65PlusW.dev (K65PlusWProfile.device k))
             ++ [first; second] /\
       K65PlusW.dataTypeSetColor (K65PlusWProfile.device k') = [x7e; x20; x01] /\
       firstn 4 first = [x00; x09; x06; x01] /\
       firstn 4 second = [x00; x09; x07; x01] /\
       Uint16 (skipn 4 first) = Some 93 /\
       nth_error first 16 = Some x00 /\
       nth_error first 17 = Some x00 /\
       nth_error first 18 = Some x00).
Proof.
  intros Hdp. split.
  - intros kb Hn Hkey.
    destruct (setDeviceColor_keyboard k dp kb Hdp Hn Hkey)
      as (d' & first & second & E & W & T & _ & R).
    eexists _, first, second. split; [exact E|]. split; [exact W|].
    split; [exact T|exact R].
  - intros key Hn Hkey.
    unfold K65PlusWProfile.setDeviceColor. run_monad.
    rewrite Hdp, Hkey, Hn. cbn [String.eqb Ascii.eqb Bool.eqb].
    destruct (colorCase_sends key 93
                [(3, x01); (4, xff); (5, x00); (6, x00); (7, x00)]%nat
                [x7e; x20; x01] _ k eq_refl) as (d' & E & W & T & _).
    rewrite E. rewrite packet_two in W by (cbn; lia).
    eexists _, _, _. split; [reflexivity|]. split; [exact W|].
    split; [exact T|]. repeat split.
Qed.

End ColourFacts.

(** Witness of X19: the mode "keyboard" over a nil keyboard, a device
    without a profile, and a mode of the wired package. *)
Lemma set_device_color_witness :
  (K65PlusWProfile.setDeviceColor Colour.plain (Colour.keeper "keyboard" None [])
   = None)
  /\
  (exists k',
     K65PlusWProfile.setDeviceColor Colour.plain
       (Colour.bare (Colour.keeper "off" None []))
     = Some (tt, k') /\
     K65PlusW.log (K65PlusWProfile.device k')
       = [] ++ [{| level := Error;
                   message := "Unable to set color. DeviceProfile is null!" |}] /\
     K65PlusW.dev (K65PlusWProfile.device k')
       = {| written := []; pending := [] |})
  /\
  (K65PlusWProfile.setDeviceColor Colour.plain (Colour.keeper "rainbow" None [])
   = Some (tt, Colour.keeper "rainbow" None [])).
Proof.
  split; [|split].
  - apply (proj1 (set_device_color_panics_only_on_a_nil_keyboard
                    byte Colour.plain (Colour.keeper "keyboard" None []))).
    eexists. repeat split; reflexivity.
  - apply (proj1 (proj2 (set_device_color_panics_only_on_a_nil_keyboard
                           byte Colour.plain
                           (Colour.bare (Colour.keeper "off" None []))))).
    reflexivity.
  - apply (proj2 (proj2 (set_device_color_panics_only_on_a_nil_keyboard
                           byte Colour.plain (Colour.keeper "rainbow" None [])))
             _ eq_refl).
    right. cbn. intuition discriminate.
Defined.


(** Witness of X21: an orange keyboard (red 255, green 128, blue 0), and
    the mode "off". *)
Lemma keyboard_colour_witness :
  (exists k' first second,
     K65PlusWProfile.setDeviceColor Colour.plain
       (Colour.keeper "keyboard" (Some (Colour.keyboardOf xff x80 x00)) [])
       = Some (tt, k') /\
     written (K65PlusW.dev (K65PlusWProfile.device k')) = [] ++ [first; second] /\
     K65PlusW.dataTypeSetColor (K65PlusWProfile.device k') = [x7e; x20; x01] /\
     firstn 4 first = [x00; x09; x06; x01] /\
     firstn 4 second = [x00; x09; x07; x01] /\
     Uint16 (skipn 4 first) = Some 93 /\
     nth_error first 16 = Some x00 /\
     nth_error first 17 = Some x80 /\
     nth_error first 18 = Some xff)
  /\
  (exists k' first second,
     K65PlusWProfile.setDeviceColor Colour.plain
       (Colour.keeper "off" (Some (Colour.keyboardOf xff x80 x00)) [])
       = Some (tt, k') /\
     written (K65PlusW.dev (K65PlusWProfile.device k')) = [] ++ [first; second] /\
     K65PlusW.dataTypeSetColor (K65PlusWProfile.device k') = [x7e; x20; x01] /\
     firstn 4 first = [x00; x09; x06; x01] /\
     firstn 4 second = [x00; x09; x07; x01] /\
     Uint16 (skipn 4 first) = Some 93 /\
     nth_error first 16 = Some x00 /\
     nth_error first 17 = Some x00 /\
     nth_error first 18 = Some x00).
Proof.
  split.
  - apply (proj1 (keyboard_colour_goes_out_blue_green_red byte Colour.plain
                    (Colour.keeper "keyboard"
                       (Some (Colour.keyboardOf xff x80 x00)) [])
                    _ eq_refl)
             (Colour.keyboardOf xff x80 x00)); reflexivity.
  - apply (proj2 (keyboard_colour_goes_out_blue_green_red byte Colour.plain
                    (Colour.keeper "off"
                       (Some (Colour.keyboardOf xff x80 x00)) [])
                    _ eq_refl)
             (Some (Colour.keyboardOf xff x80 x00))); reflexivity.
Defined.

(** ** The sleep timer and the keyboard profiles of the wireless package *)

Lemma wrap32_wrapInt (x : Z) :
  K65PlusWProfile.wrap32 (K65Plus.wrapInt x) = x mod 2 ^ 32.
Proof.
  unfold K65PlusWProfile.wrap32, K65Plus.wrapInt.
  rewrite (Z.mod_eq (x + 2 ^ 63) (2 ^ 64)) by lia.
  replace (x + 2 ^ 63 - 2 ^ 64 * ((x + 2 ^ 63) / 2 ^ 64) - 2 ^ 63)
    with (x + (- (2 ^ 32 * ((x + 2 ^ 63) / 2 ^ 64))) * 2 ^ 32) by lia.
  apply Z_mod_plus_full.
Qed.

Lemma little_endian_32 (v : Z) :
  Z_of_byte (byte_of_Z v) + 256 * Z_of_byte (byte_of_Z (v / 256))
  + 65536 * Z_of_byte (byte_of_Z (v / 65536))
  + 16777216 * Z_of_byte (byte_of_Z (v / 16777216))
  = v mod 2 ^ 32.
Proof.
  rewrite !Z_of_byte_of_Z.
  change (2 ^ 32) with (256 * (256 * (256 * 256))).
  rewrite (Z.rem_mul_r v 256 (256 * (256 * 256))) by lia.
  rewrite (Z.rem_mul_r (v / 256) 256 (256 * 256)) by lia.
  rewrite (Z.rem_mul_r (v / 256 / 256) 256 256) by lia.
  rewrite !Z.div_div by lia.
  change (256 * 256) with 65536. change (65536 * 256) with 16777216.
  lia.
Qed.

Lemma Uint32_PutUint32 (v : Z) :
  exists payload,
    K65PlusWProfile.PutUint32 (make 4) v = Some payload /\
    length payload = 4%nat /\
    K65PlusWProfile.Uint32 payload = Some (v mod 2 ^ 32).
Proof.
  eexists. split; [reflexivity|]. split; [reflexivity|].
  cbn [firstn skipn app make repeat length Nat.min Nat.sub Nat.add
       K65PlusWProfile.Uint32].
  now rewrite little_endian_32.
Qed.

Section SettingsFacts.

Variable F : Type.
Variable byteOf : F -> byte.
Variable GetKeyboard : string -> option (K65PlusWProfile.Keyboard F).
Variable IndexOfString : list string -> string -> Z.

Local Abbreviation Keeper := (K65PlusWProfile.Keeper F).
Local Abbreviation setDeviceColor := (K65PlusWProfile.setDeviceColor byteOf).
Local Abbreviation saveDeviceProfile :=
  (K65PlusWProfile.saveDeviceProfile GetKeyboard).
Local Abbreviation UpdateSleepTimer :=
  (K65PlusWProfile.UpdateSleepTimer GetKeyboard).

(** A save with a profile in place: the call leaves the package, the
    fields stay. *)
Lemma saveDeviceProfile_kept (k : Keeper) (dp : K65PlusW.DeviceProfile) :
  K65PlusW.deviceProfile (K65PlusWProfile.device k) = Some dp ->
  saveDeviceProfile k
  = Some (tt, {| K65PlusWProfile.device :=
                   K65PlusW.withExternal (K65PlusWProfile.device k)
                     (K65PlusW.external (K65PlusWProfile.device k)
                        ++ [K65PlusW.SaveDeviceProfile dp])
                     (K65PlusW.soundErrors (K65PlusWProfile.device k));
                 K65PlusWProfile.settings := K65PlusWProfile.settings k |}).
Proof.
  intros Hdp.
  unfold K65PlusWProfile.saveDeviceProfile, K65PlusWProfile.liftD,
    K65PlusW.saveDeviceProfile, K65PlusW.call.
  run_monad. rewrite Hdp. cbn. rewrite Hdp. reflexivity.
Qed.

Lemma setSleepTimer_sends (k : Keeper) (dp : K65PlusW.DeviceProfile) :
  K65PlusW.deviceProfile (K65PlusWProfile.device k) = Some dp ->
  exists d' payload,
    K65PlusWProfile.setSleepTimer k
      = Some (match Exchange.outcome 0 (K65PlusW.dev (K65PlusWProfile.device k)) with
              | IoOk _ => 1
              | IoWriteErr | IoReadErr => 0
              end,
              {| K65PlusWProfile.device := d';
                 K65PlusWProfile.settings := K65PlusWProfile.settings k |}) /\
    written (K65PlusW.dev d')
      = written (K65PlusW.dev (K65PlusWProfile.device k))
          ++ [reportOf x09 K65PlusWProfile.cmdSleep payload] /\
    length payload = 4%nat /\
    K65PlusWProfile.Uint32 payload
      = Some ((K65PlusWProfile.SleepMode (K65PlusWProfile.settings k) * 60000)
                mod 2 ^ 32) /\
    pending (K65PlusW.dev d')
      = tl (pending (K65PlusW.dev (K65PlusWProfile.device k))) /\
    K65PlusW.log d'
      = K65PlusW.log (K65PlusWProfile.device k)
          ++ Exchange.logged
               (Exchange.outcome 0 (K65PlusW.dev (K65PlusWProfile.device k)))
          ++ Exchange.complained Warn "Unable to change device sleep timer"
               (Exchange.outcome 0 (K65PlusW.dev (K65PlusWProfile.device k))) /\
    onlyIOW (K65PlusWProfile.device k) d'.
Proof.
  intros Hdp. unfold K65PlusWProfile.setSleepTimer. run_monad. rewrite Hdp.
  destruct (Uint32_PutUint32
              (K65PlusWProfile.wrap32
                 (K65Plus.wrapInt
                    (K65PlusWProfile.SleepMode (K65PlusWProfile.settings k)
                     * (60 * 1000)))))
    as (payload & Ep & Hl & Hu).
  rewrite Ep.
  destruct (transfer_wireless_full K65PlusWProfile.cmdSleep payload
              (byte_of_Z K65PlusW.cmdKeyboard) (K65PlusWProfile.device k))
    as (d1 & E & W & P & L & K); [rewrite Hl; cbn; lia|].
  unfold K65PlusWProfile.liftD at 1. rewrite E.
  rewrite wrap32_wrapInt, Z.mod_mod in Hu by lia.
  change (60 * 1000) with 60000 in Hu.
  destruct (Exchange.outcome 0 (K65PlusW.dev (K65PlusWProfile.device k)))
    as [reply| |];
    cbn [Exchange.resultWl Exchange.logged Exchange.complained app] in *;
    eexists _, payload; (split; [reflexivity|]); cbn;
    rewrite ?W, ?P, ?L, ?app_nil_r, <- ?app_assoc;
    repeat (split; [first [reflexivity|assumption]|]); exact K.
Qed.


Local Abbreviation SaveKeyboardProfile :=
  (K65PlusWProfile.SaveKeyboardProfile GetKeyboard).
Local Abbreviation UpdateKeyboardProfile :=
  (K65PlusWProfile.UpdateKeyboardProfile byteOf GetKeyboard).
Local Abbreviation DeleteKeyboardProfile :=
  (K65PlusWProfile.DeleteKeyboardProfile byteOf GetKeyboard IndexOfString).
Local Abbreviation currentKey k :=
  (K65PlusWProfile.Keyboards (K65PlusWProfile.settings k)
     (K65PlusWProfile.Profile (K65PlusWProfile.settings k))).

Lemma Contains_false (l : list string) (x : string) :
  ~ In x l -> K65PlusWProfile.Contains l x = false.
Proof.
  intros H. destruct (K65PlusWProfile.Contains l x) eqn:E; [|reflexivity].
  apply Contains_In in E. contradiction.
Qed.

(** With a keyboard under the current keyboard profile, [setDeviceColor]
    returns in every mode and keeps the profile and the fields. *)
Lemma setDeviceColor_returns (k : Keeper) (dp : K65PlusW.DeviceProfile)
    (kb : K65PlusWProfile.Keyboard F) :
  K65PlusW.deviceProfile (K65PlusWProfile.device k) = Some dp ->
  currentKey k = Some (Some kb) ->
  exists d',
    setDeviceColor k
      = Some (tt, {| K65PlusWProfile.device := d';
                     K65PlusWProfile.settings := K65PlusWProfile.settings k |}) /\
    K65PlusW.deviceProfile d' = Some dp /\
    K65PlusW.external d' = K65PlusW.external (K65PlusWProfile.device k).
Proof.
  intros Hdp Hkey.
  destruct (in_dec string_dec (K65PlusW.RGBProfile dp) K65PlusWProfile.RGBModes)
    as [Hin|Hn].
  - destruct (setDeviceColor_mode F byteOf k dp (Some kb) Hdp Hkey Hin
                ltac:(discriminate))
      as (d' & tag & payload & E & _ & _ & _ & P & X).
    exists d'. auto.
  - exists (K65PlusWProfile.device k).
    rewrite (setDeviceColor_unlisted F byteOf k dp Hdp Hn).
    destruct k. auto.
Qed.

(** Removing the last element by its index. *)
Lemma removeAt_last (l : list string) (x : string) :
  K65PlusWProfile.removeAt (l ++ [x]) (Z.of_nat (length l)) = Some l.
Proof.
  unfold K65PlusWProfile.removeAt. rewrite length_app. cbn [length].
  assert (E : ((0 <=? Z.of_nat (length l))
               && (Z.of_nat (length l) + 1 <=? Z.of_nat (length l + 1)))%bool
              = true).
  { apply andb_true_iff. split; apply Z.leb_le; lia. }
  rewrite E, Nat2Z.id.
  rewrite firstn_app, firstn_all, Nat.sub_diag, firstn_O, app_nil_r.
  rewrite skipn_all2 by (rewrite length_app; cbn [length]; lia).
  now rewrite app_nil_r.
Qed.

Lemma index_of_last (l : list string) (x : string) (i : nat) :
  ~ In x l -> nth_error (l ++ [x]) i = Some x -> i = length l.
Proof.
  intros Hn Hi.
  destruct (Nat.lt_ge_cases i (length l)) as [Hlt|Hge].
  - rewrite nth_error_app1 in Hi by exact Hlt.
    apply nth_error_In in Hi. contradiction.
  - assert (Hb : (i < length (l ++ [x]))%nat)
      by (apply nth_error_Some; congruence).
    rewrite length_app in Hb. cbn [length] in Hb. lia.
Qed.

(** [SaveKeyboardProfile] of a new name. *)
Lemma SaveKeyboardProfile_new (name : string) (k : Keeper)
    (dp : K65PlusW.DeviceProfile) :
  K65PlusW.deviceProfile (K65PlusWProfile.device k) = Some dp ->
  ~ In name (K65PlusWProfile.Profiles (K65PlusWProfile.settings k)) ->
  K65PlusWProfile.Keyboards (K65PlusWProfile.settings k) name = None ->
  SaveKeyboardProfile name true k
  = Some (1,
          {| K65PlusWProfile.device :=
               K65PlusW.withExternal (K65PlusWProfile.device k)
                 (K65PlusW.external (K65PlusWProfile.device k)
                    ++ [K65PlusW.SaveDeviceProfile dp])
                 (K65PlusW.soundErrors (K65PlusWProfile.device k));
             K65PlusWProfile.settings :=
               {| K65PlusWProfile.Profile :=
                    K65PlusWProfile.Profile (K65PlusWProfile.settings k);
                  K65PlusWProfile.Profiles :=
                    K65PlusWProfile.Profiles (K65PlusWProfile.settings k)
                      ++ [name];
                  K65PlusWProfile.Keyboards :=
                    K65PlusWProfile.mapSet
                      (K65PlusWProfile.Keyboards (K65PlusWProfile.settings k))
                      name
                      (match currentKey k with
                       | Some keyboard => keyboard
                       | None => None
                       end);
                  K65PlusWProfile.SleepMode :=
                    K65PlusWProfile.SleepMode (K65PlusWProfile.settings k) |} |}).
Proof.
  intros Hdp Hn Hk.
  unfold K65PlusWProfile.SaveKeyboardProfile, K65PlusWProfile.setSettings,
    K65PlusWProfile.getCurrentKeyboard.
  run_monad. rewrite Hdp, (Contains_false _ _ Hn), Hk.
  cbn [K65PlusWProfile.device K65PlusWProfile.settings
       K65PlusWProfile.Profile K65PlusWProfile.Keyboards].
  rewrite Hdp.
  destruct (currentKey k) as [keyboard|] eqn:Hc;
    (match goal with
     | |- context [K65PlusWProfile.saveDeviceProfile GetKeyboard ?k0] =>
         rewrite (saveDeviceProfile_kept k0 dp Hdp)
     end; reflexivity).
Qed.

(** X23. Saving the current keyboard under a new name and deleting
    it again is a round trip on the list of keyboard profiles and on the
    keyboards, but not on the current keyboard profile, which the deletion
    sets to "default". In between, the name is taken (a second save returns
    2); afterwards it is gone (a switch to it returns 2). The save sends
    nothing to the device; its copy is the keyboard of the current keyboard
    profile, or nil when there is none. [common.IndexOfString] is taken to
    return an index at which the item stands. *)
Theorem save_then_delete_keyboard_profile_is_a_round_trip
    (name : string) (k : Keeper) (dp : K65PlusW.DeviceProfile)
    (kb : K65PlusWProfile.Keyboard F) :
  (forall l x, In x l ->
     exists i, IndexOfString l x = Z.of_nat i /\ nth_error l i = Some x) ->
  K65PlusW.deviceProfile (K65PlusWProfile.device k) = Some dp ->
  name <> "default"%string ->
  ~ In name (K65PlusWProfile.Profiles (K65PlusWProfile.settings k)) ->
  K65PlusWProfile.Keyboards (K65PlusWProfile.settings k) name = None ->
  K65PlusWProfile.Keyboards (K65PlusWProfile.settings k)
    "default"%string = Some (Some kb) ->
  exists k1 k2,
    SaveKeyboardProfile name true k = Some (1, k1) /\
    K65PlusWProfile.Profiles (K65PlusWProfile.settings k1)
      = K65PlusWProfile.Profiles (K65PlusWProfile.settings k) ++ [name] /\
    K65PlusWProfile.Keyboards (K65PlusWProfile.settings k1) name
      = Some (match currentKey k with
              | Some keyboard => keyboard
              | None => None
              end) /\
    K65PlusWProfile.Profile (K65PlusWProfile.settings k1)
      = K65PlusWProfile.Profile (K65PlusWProfile.settings k) /\
    K65PlusW.dev (K65PlusWProfile.device k1)
      = K65PlusW.dev (K65PlusWProfile.device k) /\
    SaveKeyboardProfile name true k1 = Some (2, k1) /\
    DeleteKeyboardProfile name k1 = Some (1, k2) /\
    K65PlusWProfile.Profiles (K65PlusWProfile.settings k2)
      = K65PlusWProfile.Profiles (K65PlusWProfile.settings k) /\
    (forall x,
       K65PlusWProfile.Keyboards (K65PlusWProfile.settings k2) x
       = K65PlusWProfile.Keyboards (K65PlusWProfile.settings k) x) /\
    K65PlusWProfile.Profile (K65PlusWProfile.settings k2) = "default"%string /\
    UpdateKeyboardProfile name k2 = Some (2, k2).
Proof.
  intros Hidx Hdp Hname Hn Hk Hdef.
  pose proof (SaveKeyboardProfile_new name k dp Hdp Hn Hk) as Es.
  match type of Es with _ = Some (_, ?k0) => set (k1 := k0) in * end.
  assert (Hin1 : In name (K65PlusWProfile.Profiles (K65PlusWProfile.settings k1)))
    by (cbn; apply in_or_app; right; left; reflexivity).
  assert (Hk1 : K65PlusWProfile.Keyboards (K65PlusWProfile.settings k1) name
                = Some (match currentKey k with
                        | Some keyboard => keyboard
                        | None => None
                        end)).
  { cbn. unfold K65PlusWProfile.mapSet. now rewrite String.eqb_refl. }
  assert (Hne : String.eqb name "default" = false)
    by (apply String.eqb_neq; exact Hname).
  assert (Hne' : String.eqb "default" name = false)
    by (apply String.eqb_neq; congruence).
  (* the deletion *)
  destruct (Hidx _ _ Hin1) as (i & Ei & Hi).
  assert (Hil : i = length (K65PlusWProfile.Profiles (K65PlusWProfile.settings k)))
    by (apply (index_of_last _ name i Hn); exact Hi).
  subst i.
  assert (Ed : exists k2,
             DeleteKeyboardProfile name k1 = Some (1, k2) /\
             K65PlusWProfile.settings k2
             = {| K65PlusWProfile.Profile := "default"%string;
                  K65PlusWProfile.Profiles :=
                    K65PlusWProfile.Profiles (K65PlusWProfile.settings k);
                  K65PlusWProfile.Keyboards :=
                    K65PlusWProfile.mapDelete
                      (K65PlusWProfile.Keyboards (K65PlusWProfile.settings k1))
                      name;
                  K65PlusWProfile.SleepMode :=
                    K65PlusWProfile.SleepMode (K65PlusWProfile.settings k) |} /\
             K65PlusW.deviceProfile (K65PlusWProfile.device k2) = Some dp).
  { unfold K65PlusWProfile.DeleteKeyboardProfile, K65PlusWProfile.setSettings.
    run_monad.
    assert (Hdp1 : K65PlusW.deviceProfile (K65PlusWProfile.device k1) = Some dp)
      by exact Hdp.
    rewrite Hdp1, Hne, (proj2 (Contains_In _ _) Hin1), Hk1, Ei.
    cbn [negb].
    assert (El : (Z.of_nat
                    (length (K65PlusWProfile.Profiles (K65PlusWProfile.settings k)))
                  <? 0) = false) by (apply Z.ltb_ge; lia).
    rewrite El.
    change (K65PlusWProfile.Profiles (K65PlusWProfile.settings k1))
      with (K65PlusWProfile.Profiles (K65PlusWProfile.settings k) ++ [name]).
    rewrite removeAt_last.
    match goal with
    | |- context [K65PlusWProfile.saveDeviceProfile GetKeyboard ?k0] =>
        rewrite (saveDeviceProfile_kept k0 dp Hdp1)
    end.
    match goal with
    | |- context [K65PlusWProfile.setDeviceColor byteOf ?k0] =>
        destruct (setDeviceColor_returns k0 dp kb Hdp1) as (d' & E & P & _)
    end.
    { cbn. unfold K65PlusWProfile.mapDelete, K65PlusWProfile.mapSet.
      rewrite Hne'. exact Hdef. }
    rewrite E. eexists. split; [reflexivity|]. split; [reflexivity|exact P]. }
  destruct Ed as (k2 & Ed & Hs2 & Hdp2).
  exists k1, k2.
  split; [exact Es|]. split; [reflexivity|]. split; [exact Hk1|].
  split; [reflexivity|]. split; [reflexivity|].
  split.
  { unfold K65PlusWProfile.SaveKeyboardProfile. run_monad.
    change (K65PlusW.deviceProfile (K65PlusWProfile.device k1))
      with (K65PlusW.deviceProfile (K65PlusWProfile.device k)).
    rewrite Hdp, (proj2 (Contains_In _ _) Hin1). reflexivity. }
  split; [exact Ed|].
  split; [now rewrite Hs2|].
  split.
  { intros x. rewrite Hs2. cbn.
    unfold K65PlusWProfile.mapDelete, K65PlusWProfile.mapSet.
    destruct (String.eqb x name) eqn:Ex; [|reflexivity].
    apply String.eqb_eq in Ex. subst x. now rewrite Hk. }
  split; [now rewrite Hs2|].
  unfold K65PlusWProfile.UpdateKeyboardProfile. run_monad.
  rewrite Hdp2, Hs2. cbn [K65PlusWProfile.Profiles K65PlusWProfile.Keyboards].
  rewrite (Contains_false _ _ Hn). reflexivity.
Qed.

(** X24. The first start, when no profile is stored yet: the first save
    makes the default profile (mode "keyboard", keyboard profile "default",
    sleep after 15 minutes) with the keyboard of the layout
    "k65plusW-default-US", and [setDeviceColor] after it sends that
    keyboard's colour. When package [keyboards] has no such layout the
    default profile holds a nil keyboard, and [setDeviceColor] panics. *)
Theorem first_start_needs_the_default_layout (k : Keeper) :
  K65PlusW.deviceProfile (K65PlusWProfile.device k) = None ->
  (GetKeyboard K65PlusWProfile.defaultLayout = None ->
   (saveDeviceProfile ;;; setDeviceColor) k = None)
  /\
  (forall kb,
     GetKeyboard K65PlusWProfile.defaultLayout = Some kb ->
     exists k' first second,
       (saveDeviceProfile ;;; setDeviceColor) k = Some (tt, k') /\
       K65PlusW.deviceProfile (K65PlusWProfile.device k')
         = Some {| K65PlusW.RGBProfile := "keyboard"; K65PlusW.ControlDial := 1;
                   K65PlusW.BrightnessLevel := 1000 |} /\
       K65PlusWProfile.Profile (K65PlusWProfile.settings k') = "default"%string /\
       K65PlusWProfile.Profiles (K65PlusWProfile.settings k')
         = ["default"%string] /\
       K65PlusWProfile.SleepMode (K65PlusWProfile.settings k') = 15 /\
       K65PlusWProfile.Keyboards (K65PlusWProfile.settings k') "default"%string
         = Some (Some kb) /\
       written (K65PlusW.dev (K65PlusWProfile.device k'))
         = written (K65PlusW.dev (K65PlusWProfile.device k))
             ++ [first; second] /\
       nth_error first 16
         = Some (byteOf (K65PlusWProfile.Blue (K65PlusWProfile.Color kb))) /\
       nth_error first 17
         = Some (byteOf (K65PlusWProfile.Green (K65PlusWProfile.Color kb))) /\
       nth_error first 18
         = Some (byteOf (K65PlusWProfile.Red (K65PlusWProfile.Color kb)))).
Proof.
  intros Hdp.
  assert (Es : exists k1,
             saveDeviceProfile k = Some (tt, k1) /\
             K65PlusW.deviceProfile (K65PlusWProfile.device k1)
               = Some {| K65PlusW.RGBProfile := "keyboard";
                         K65PlusW.ControlDial := 1;
                         K65PlusW.BrightnessLevel := 1000 |} /\
             K65PlusWProfile.settings k1
               = {| K65PlusWProfile.Profile := "default"%string;
                    K65PlusWProfile.Profiles := ["default"%string];
                    K65PlusWProfile.Keyboards :=
                      K65PlusWProfile.mapSet (fun _ => None) "default"
                        (GetKeyboard K65PlusWProfile.defaultLayout);
                    K65PlusWProfile.SleepMode := 15 |} /\
             K65PlusW.dev (K65PlusWProfile.device k1)
               = K65PlusW.dev (K65PlusWProfile.device k)).
  { eexists. split.
    - unfold K65PlusWProfile.saveDeviceProfile, K65PlusWProfile.liftD,
        K65PlusWProfile.setSettings, K65PlusW.saveDeviceProfile, K65PlusW.call.
      run_monad. rewrite Hdp. cbn. rewrite Hdp. reflexivity.
    - repeat split. }
  destruct Es as (k1 & Es & Hdp1 & Hs1 & Hd1).
  assert (Hkey : K65PlusWProfile.Keyboards (K65PlusWProfile.settings k1)
                   (K65PlusWProfile.Profile (K65PlusWProfile.settings k1))
                 = Some (GetKeyboard K65PlusWProfile.defaultLayout))
    by (rewrite Hs1; reflexivity).
  split.
  - intros Hg. rewrite (bind_some _ _ _ _ _ _ _ _ Es).
    rewrite Hg in Hkey.
    exact (setDeviceColor_nil_keyboard F byteOf k1 _ Hdp1 eq_refl Hkey).
  - intros kb Hg. rewrite (bind_some _ _ _ _ _ _ _ _ Es).
    rewrite Hg in Hkey.
    destruct (setDeviceColor_keyboard F byteOf k1 _ kb Hdp1 eq_refl Hkey)
      as (d' & first & second & E & W & _ & (P & _) & _ & _ & _ & B & G & R).
    rewrite E. eexists _, first, second. split; [reflexivity|].
    cbn [K65PlusWProfile.device K65PlusWProfile.settings].
    rewrite Hs1.
    cbn [K65PlusWProfile.Profile K65PlusWProfile.Profiles
         K65PlusWProfile.SleepMode K65PlusWProfile.Keyboards].
    split; [exact P|]. do 3 (split; [reflexivity|]).
    split; [unfold K65PlusWProfile.mapSet; cbn; now rewrite Hg|].
    split; [rewrite W, Hd1; reflexivity|].
    auto.
Qed.

(** X25. [UpdateDeviceColor] with option 2 puts the colour on the
    keyboard of the current keyboard profile and sends it at once (in the
    mode "keyboard": blue, green, red at bytes 16, 17, 18 of the first
    report), returns 1, and does not save the profile. Any other option, a
    device without a profile, or a current keyboard profile without a key
    gives 0 and changes nothing. *)
Theorem update_device_color_sends_but_does_not_save
    (k : Keeper) (color : K65PlusWProfile.RgbColor F) :
  (forall dp kb,
     K65PlusW.deviceProfile (K65PlusWProfile.device k) = Some dp ->
     K65PlusW.RGBProfile dp = "keyboard"%string ->
     currentKey k = Some (Some kb) ->
     exists k' first second,
       K65PlusWProfile.UpdateDeviceColor byteOf 2 color k = Some (1, k') /\
       currentKey k' = Some (Some {| K65PlusWProfile.Color := color |}) /\
       K65PlusW.external (K65PlusWProfile.device k')
         = K65PlusW.external (K65PlusWProfile.device k) /\
       written (K65PlusW.dev (K65PlusWProfile.device k'))
         = written (K65PlusW.dev (K65PlusWProfile.device k))
             ++ [first; second] /\
       nth_error first 16 = Some (byteOf (K65PlusWProfile.Blue color)) /\
       nth_error first 17 = Some (byteOf (K65PlusWProfile.Green color)) /\
       nth_error first 18 = Some (byteOf (K65PlusWProfile.Red color)))
  /\
  (forall keyOption,
     keyOption <> 2 \/
     K65PlusW.deviceProfile (K65PlusWProfile.device k) = None \/
     currentKey k = None ->
     K65PlusWProfile.UpdateDeviceColor byteOf keyOption color k = Some (0, k)).
Proof.
  split.
  - intros dp kb Hdp Hn Hkey.
    unfold K65PlusWProfile.UpdateDeviceColor, K65PlusWProfile.setSettings.
    run_monad. rewrite Hdp, Hkey. cbn [Z.eqb Pos.eqb].
    match goal with
    | |- context [K65PlusWProfile.setDeviceColor byteOf ?k0] =>
        destruct (setDeviceColor_keyboard F byteOf k0 dp
                    {| K65PlusWProfile.Color := color |} Hdp Hn)
          as (d' & first & second & E & W & _ & (_ & X) & _ & _ & _ & B & G & R);
          [cbn; unfold K65PlusWProfile.mapSet; now rewrite String.eqb_refl|]
    end.
    rewrite E. eexists _, first, second. split; [reflexivity|].
    cbn [K65PlusWProfile.device K65PlusWProfile.settings
         K65PlusWProfile.Keyboards K65PlusWProfile.Profile].
    split; [unfold K65PlusWProfile.mapSet; now rewrite String.eqb_refl|].
    split; [exact X|]. split; [exact W|]. auto.
  - intros keyOption H.
    unfold K65PlusWProfile.UpdateDeviceColor. run_monad.
    destruct (K65PlusW.deviceProfile (K65PlusWProfile.device k)) as [dp|] eqn:Hdp;
      [|reflexivity].
    destruct (keyOption =? 2) eqn:E2; [|reflexivity].
    apply Z.eqb_eq in E2.
    destruct H as [H|[H|H]]; [contradiction|discriminate|].
    now rewrite H.
Qed.

End SettingsFacts.


Lemma indexFrom_stands (l : list string) (x : string) :
  In x l ->
  forall n : nat,
    exists i, Colour.indexFrom (Z.of_nat n) l x = Z.of_nat (n + i)
              /\ nth_error l i = Some x.
Proof.
  induction l as [|y rest IH]; intros Hin n; [contradiction|].
  cbn [Colour.indexFrom].
  destruct (String.eqb x y) eqn:E.
  - apply String.eqb_eq in E. subst y. exists 0%nat.
    rewrite Nat.add_0_r. split; reflexivity.
  - destruct Hin as [->|Hin]; [rewrite String.eqb_refl in E; discriminate|].
    destruct (IH Hin (S n)) as (i & Ei & Hi).
    exists (S i). split; [|exact Hi].
    replace (Z.of_nat n + 1) with (Z.of_nat (S n)) by lia.
    rewrite Ei. f_equal. lia.
Qed.

Lemma indexOf_stands (l : list string) (x : string) :
  In x l ->
  exists i, Colour.indexOf l x = Z.of_nat i /\ nth_error l i = Some x.
Proof.
  intros Hin. destruct (indexFrom_stands l x Hin 0) as (i & Ei & Hi).
  exists i. split; [exact Ei|exact Hi].
Qed.

(** Witness of X23: the keyboard profile "gaming" on a keyboard that
    has the keyboard profile "default" only. *)
Lemma save_then_delete_keyboard_profile_witness :
  exists k1 k2,
    K65PlusWProfile.SaveKeyboardProfile Colour.noLayout "gaming" true
      (Colour.keeper "rain" (Some (Colour.keyboardOf xff x80 x00)) [])
      = Some (1, k1) /\
    K65PlusWProfile.Profiles (K65PlusWProfile.settings k1)
      = ["default"; "gaming"]%string /\
    K65PlusWProfile.DeleteKeyboardProfile Colour.plain Colour.noLayout
      Colour.indexOf "gaming" k1 = Some (1, k2) /\
    K65PlusWProfile.Profiles (K65PlusWProfile.settings k2)
      = ["default"%string] /\
    K65PlusWProfile.UpdateKeyboardProfile Colour.plain Colour.noLayout
      "gaming" k2 = Some (2, k2).
Proof.
  destruct (save_then_delete_keyboard_profile_is_a_round_trip
              byte Colour.plain Colour.noLayout Colour.indexOf "gaming"
              (Colour.keeper "rain" (Some (Colour.keyboardOf xff x80 x00)) [])
              {| K65PlusW.RGBProfile := "rain"; K65PlusW.ControlDial := 2;
                 K65PlusW.BrightnessLevel := 1000 |}
              (Colour.keyboardOf xff x80 x00)
              indexOf_stands eq_refl ltac:(discriminate)
              ltac:(cbn; intuition discriminate) eq_refl eq_refl)
    as (k1 & k2 & Es & P1 & _ & _ & _ & _ & Ed & P2 & _ & _ & Eu).
  exists k1, k2. auto.
Defined.

(** Witness of X24: a package [keyboards] without layouts, and one that
    knows the default layout with an orange keyboard. *)
Lemma first_start_witness :
  ((K65PlusWProfile.saveDeviceProfile Colour.noLayout ;;;
    K65PlusWProfile.setDeviceColor Colour.plain)
     (Colour.bare (Colour.keeper "rain" None [])) = None)
  /\
  (exists k' first second,
     (K65PlusWProfile.saveDeviceProfile
        (Colour.usLayout (Colour.keyboardOf xff x80 x00)) ;;;
      K65PlusWProfile.setDeviceColor Colour.plain)
       (Colour.bare (Colour.keeper "rain" None [])) = Some (tt, k') /\
     written (K65PlusW.dev (K65PlusWProfile.device k')) = [] ++ [first; second] /\
     nth_error first 16 = Some x00 /\
     nth_error first 17 = Some x80 /\
     nth_error first 18 = Some xff).
Proof.
  split.
  - apply (proj1 (first_start_needs_the_default_layout
                    byte Colour.plain Colour.noLayout
                    (Colour.bare (Colour.keeper "rain" None [])) eq_refl)).
    reflexivity.
  - destruct (proj2 (first_start_needs_the_default_layout
                       byte Colour.plain
                       (Colour.usLayout (Colour.keyboardOf xff x80 x00))
                       (Colour.bare (Colour.keeper "rain" None [])) eq_refl)
                (Colour.keyboardOf xff x80 x00) eq_refl)
      as (k' & first & second & E & _ & _ & _ & _ & _ & W & B & G & R).
    exists k', first, second. auto.
Defined.

(** Witness of X25: an orange keyboard turned blue, and an option
    that is not 2. *)
Lemma update_device_color_witness :
  (exists k' first second,
     K65PlusWProfile.UpdateDeviceColor Colour.plain 2
       {| K65PlusWProfile.Red := x00; K65PlusWProfile.Green := x00;
          K65PlusWProfile.Blue := xff |}
       (Colour.keeper "keyboard" (Some (Colour.keyboardOf xff x80 x00)) [])
       = Some (1, k') /\
     K65PlusW.external (K65PlusWProfile.device k') = [] /\
     written (K65PlusW.dev (K65PlusWProfile.device k')) = [] ++ [first; second] /\
     nth_error first 16 = Some xff /\
     nth_error first 17 = Some x00 /\
     nth_error first 18 = Some x00)
  /\
  (K65PlusWProfile.UpdateDeviceColor Colour.plain 1
     {| K65PlusWProfile.Red := x00; K65PlusWProfile.Green := x00;
        K65PlusWProfile.Blue := xff |}
     (Colour.keeper "keyboard" (Some (Colour.keyboardOf xff x80 x00)) [])
   = Some (0, Colour.keeper "keyboard"
                (Some (Colour.keyboardOf xff x80 x00)) [])).
Proof.
  split.
  - destruct (proj1 (update_device_color_sends_but_does_not_save
                       byte Colour.plain
                       (Colour.keeper "keyboard"
                          (Some (Colour.keyboardOf xff x80 x00)) [])
                       {| K65PlusWProfile.Red := x00;
                          K65PlusWProfile.Green := x00;
                          K65PlusWProfile.Blue := xff |})
                {| K65PlusW.RGBProfile := "keyboard"; K65PlusW.ControlDial := 2;
                   K65PlusW.BrightnessLevel := 1000 |}
                (Colour.keyboardOf xff x80 x00) eq_refl eq_refl eq_refl)
      as (k' & first & second & E & _ & X & W & B & G & R).
    exists k', first, second.
    exact (conj E (conj X (conj W (conj B (conj G R))))).
  - apply (proj2 (update_device_color_sends_but_does_not_save
                    byte Colour.plain
                    (Colour.keeper "keyboard"
                       (Some (Colour.keyboardOf xff x80 x00)) [])
                    {| K65PlusWProfile.Red := x00;
                       K65PlusWProfile.Green := x00;
                       K65PlusWProfile.Blue := xff |})).
    left. discriminate.
Defined.

(** ** The choice of the device profile *)

Section StoredFacts.

Variable P : Type.
Variable Active : P -> bool.

Local Abbreviation getDeviceProfile := (Stored.getDeviceProfile Active).
Local Abbreviation pick :=
  (fold_left (fun (cur : option P) pf => if Active pf then Some pf else cur)).

(** The loop leaves the last active profile it visits, or the old one. *)
Lemma pick_snoc (l : list P) (x : P) (cur : option P) :
  pick (l ++ [x]) cur = if Active x then Some x else pick l cur.
Proof. now rewrite fold_left_app. Qed.

Lemma pick_none (l : list P) (cur : option P) :
  (forall a, In a l -> Active a = false) -> pick l cur = cur.
Proof.
  revert cur. induction l as [|x l IH]; intros cur H; [reflexivity|].
  cbn [fold_left]. rewrite (H x (or_introl eq_refl)).
  apply IH. intros a Ha. apply H. now right.
Qed.

Lemma pick_only (l : list P) (cur : option P) (pf : P) :
  In pf l -> Active pf = true ->
  (forall a, In a l -> Active a = true -> a = pf) ->
  pick l cur = Some pf.
Proof.
  revert cur. induction l as [|x l IH] using rev_ind; intros cur Hin Ha Hu;
    [contradiction|].
  rewrite pick_snoc.
  destruct (Active x) eqn:Ex.
  - f_equal. apply Hu; [apply in_or_app; right; now left|exact Ex].
  - apply in_app_or in Hin. destruct Hin as [Hin|[->|[]]]; [|congruence].
    apply IH; [exact Hin|exact Ha|].
    intros a Hal. apply Hu. apply in_or_app. now left.
Qed.

(** Any active profile can be the one that is visited last. *)
Lemma pick_last (l : list P) (cur : option P) (a : P) :
  In a l -> Active a = true ->
  exists l', Permutation l l' /\ pick l' cur = Some a.
Proof.
  intros Hin Ha. apply in_split in Hin. destruct Hin as (l1 & l2 & ->).
  exists ((l1 ++ l2) ++ [a]). split.
  - rewrite <- Permutation_middle. apply Permutation_cons_append.
  - rewrite pick_snoc, Ha. reflexivity.
Qed.

Lemma getDeviceProfile_pick (l : list P) (cur : option P) :
  fst (getDeviceProfile l cur) = pick l cur.
Proof. destruct l; reflexivity. Qed.

(** X26. [getDeviceProfile] goes through the map of stored profiles and
    keeps the last active one it meets. Its result is the same for every
    order in which the map may be visited exactly when no two different
    profiles of the map are active. With no active profile the device keeps
    the profile it had; the warning is logged only for an empty map. *)
Theorem get_device_profile_is_order_free_iff_one_profile_is_active
    (l : list P) (cur : option P) :
  ((forall l', Permutation l l' ->
      fst (getDeviceProfile l' cur) = fst (getDeviceProfile l cur))
   <-> (forall a b, In a l -> In b l ->
          Active a = true -> Active b = true -> a = b))
  /\
  ((forall a, In a l -> Active a = false) ->
   fst (getDeviceProfile l cur) = cur)
  /\
  (forall pf, In pf l -> Active pf = true ->
     (forall a, In a l -> Active a = true -> a = pf) ->
     fst (getDeviceProfile l cur) = Some pf)
  /\
  (snd (getDeviceProfile l cur) = true <-> l = []).
Proof.
  split; [|split; [|split]].
  - split.
    + intros Hfree a b Hina Hinb Ha Hb.
      destruct (pick_last l cur a Hina Ha) as (la & Pa & Ea).
      destruct (pick_last l cur b Hinb Hb) as (lb & Pb & Eb).
      pose proof (Hfree la Pa) as Fa. pose proof (Hfree lb Pb) as Fb.
      rewrite getDeviceProfile_pick, Ea in Fa.
      rewrite getDeviceProfile_pick, Eb in Fb.
      congruence.
    + intros Hone l' Hp. rewrite !getDeviceProfile_pick.
      destruct (existsb Active l) eqn:Ex.
      * apply existsb_exists in Ex. destruct Ex as (pf & Hin & Ha).
        rewrite (pick_only l cur pf Hin Ha)
          by (intros a Hal Haa; now apply Hone).
        apply pick_only; [now apply (Permutation_in _ Hp)|exact Ha|].
        intros a Hal Haa. apply Hone; [|exact Hin|exact Haa|exact Ha].
        apply (Permutation_in _ (Permutation_sym Hp)). exact Hal.
      * assert (Hno : forall a, In a l -> Active a = false).
        { intros a Hin. destruct (Active a) eqn:Ea; [|reflexivity].
          assert (existsb Active l = true)
            by (apply existsb_exists; now exists a).
          congruence. }
        rewrite (pick_none l cur Hno). apply pick_none.
        intros a Hin. apply Hno.
        apply (Permutation_in _ (Permutation_sym Hp)). exact Hin.
  - intros Hno. rewrite getDeviceProfile_pick. now apply pick_none.
  - intros pf Hin Ha Hu. rewrite getDeviceProfile_pick. now apply pick_only.
  - destruct l; cbn; split; intros H; congruence.
Qed.

End StoredFacts.

(** Witness of X26: three stored profiles, given by whether they are
    active and by their label; one of them is active. *)
Lemma get_device_profile_witness :
  (forall l',
     Permutation [(false, 1); (true, 2); (false, 3)] l' ->
     fst (Stored.getDeviceProfile fst l' None)
     = fst (Stored.getDeviceProfile fst [(false, 1); (true, 2); (false, 3)] None))
  /\
  fst (Stored.getDeviceProfile fst [(false, 1); (false, 3)] (Some (true, 7)))
  = Some (true, 7)
  /\
  fst (Stored.getDeviceProfile fst [(false, 1); (true, 2); (false, 3)] None)
  = Some (true, 2).
Proof.
  split; [|split].
  - apply (proj2 (proj1 (get_device_profile_is_order_free_iff_one_profile_is_active
                           (bool * Z) fst [(false, 1); (true, 2); (false, 3)] None))).
    intros a b Ha Hb Aa Ab. cbn in Ha, Hb.
    destruct Ha as [<-|[<-|[<-|[]]]]; destruct Hb as [<-|[<-|[<-|[]]]];
      cbn in Aa, Ab; congruence.
  - apply (proj1 (proj2 (get_device_profile_is_order_free_iff_one_profile_is_active
                           (bool * Z) fst [(false, 1); (false, 3)]
                           (Some (true, 7))))).
    intros a Ha. cbn in Ha. destruct Ha as [<-|[<-|[]]]; reflexivity.
  - apply (proj1 (proj2 (proj2
             (get_device_profile_is_order_free_iff_one_profile_is_active
                (bool * Z) fst [(false, 1); (true, 2); (false, 3)] None)))).
    + cbn. tauto.
    + reflexivity.
    + intros a Ha Aa. cbn in Ha.
      destruct Ha as [<-|[<-|[<-|[]]]]; cbn in Aa; congruence.
Defined.
